(** * NPC: the policy-gated execution substrate

    A shallow embedding of

    - [contracts/BehaviorController.sol]  (policy store, call ledger, gas accountant),
    - [contracts/Arena.sol], [contracts/Quest.sol]  (the guarded entities),
    - [agent-runtime/.../Action.js]  (the validate / execute / record pipeline),

    followed by the properties of the specification that concern them.

    Conventions.  A [uint256] is a [Z]; Solidity 0.8 arithmetic is checked, so
    every [+], [-], [*], [/] of the source is one of the partial operations of
    module [U256], which revert with [Panic].  A contract function is a
    function from the storage it runs on to a [result]; a reverted call leaves
    no trace, which is what [commit] expresses.  Solidity mappings are total
    and read as zero where never written: they are [gmap]s read through a
    default.  Events are not storage and are left out. *)

From Stdlib Require Import ZArith Lia Ascii String.
From stdpp Require Import base option gmap strings list fin_maps.

Local Open Scope Z_scope.

Abbreviation address := Z (only parsing).
Abbreviation bytes4 := Z (only parsing).
Abbreviation uint256 := Z (only parsing).

(** ** Roles of OpenZeppelin's AccessControl, as used by the controller *)

Inductive Role := DEFAULT_ADMIN_ROLE | TRUSTED_CALLER_ROLE | POLICY_MANAGER_ROLE.

#[global] Instance Role_eq_dec : EqDecision Role.
Proof. solve_decision. Defined.

#[global] Instance Role_countable : Countable Role.
Proof.
  refine (inj_countable'
            (λ r, match r with
                  | DEFAULT_ADMIN_ROLE => 0%nat
                  | TRUSTED_CALLER_ROLE => 1%nat
                  | POLICY_MANAGER_ROLE => 2%nat
                  end)
            (λ n, match n with
                  | 0%nat => DEFAULT_ADMIN_ROLE
                  | 1%nat => TRUSTED_CALLER_ROLE
                  | _ => POLICY_MANAGER_ROLE
                  end) _).
  by intros [].
Defined.

(** ** Reverts *)

Inductive failure :=
| Require (reason : string)
    (** [require(cond, reason)] with [cond] false *)
| Panic (code : Z)
    (** [0x11]: checked arithmetic left the range; [0x12]: division by zero *)
| AccessControlUnauthorizedAccount (account : address) (neededRole : Role)
    (** the [onlyRole] modifier *)
| CallFailed
    (** a call to another contract reverted, or its target has no code *).

Inductive result (A : Type) :=
| Ok (a : A)
| Revert (e : failure).
Arguments Ok {A} a.
Arguments Revert {A} e.

#[global] Instance result_ret : MRet result := λ A a, Ok a.
#[global] Instance result_bind : MBind result :=
  λ A B f r, match r with Ok a => f a | Revert e => Revert e end.

Definition require (cond : bool) (reason : string) : result unit :=
  if cond then Ok tt else Revert (Require reason).

(** The state a transaction leaves behind: the new one when it returns, the
    old one when it reverts. *)
Definition commit {S : Type} (tx : S → result S) (s : S) : S :=
  match tx s with
  | Ok s' => s'
  | Revert _ => s
  end.

Definition succeeds {A : Type} (r : result A) : bool :=
  match r with Ok _ => true | Revert _ => false end.

(** ** Checked 256-bit arithmetic *)

Module U256.

Definition MAX : Z := 2 ^ 256 - 1.

Definition add (a b : Z) : result Z :=
  if a + b <=? MAX then Ok (a + b) else Revert (Panic 17).

Definition sub (a b : Z) : result Z :=
  if b <=? a then Ok (a - b) else Revert (Panic 17).

Definition mul (a b : Z) : result Z :=
  if a * b <=? MAX then Ok (a * b) else Revert (Panic 17).

Definition div (a b : Z) : result Z :=
  if b =? 0 then Revert (Panic 18) else Ok (a / b).

End U256.

(** [1 days] *)
Definition DAY : Z := 86400.

(** ** BehaviorController.sol *)

Module BehaviorController.

Record Policy := mkPolicy {
  methodAllowlist : gmap bytes4 bool;
  gasBudget : uint256;
  callRateLimit : uint256;   (* calls per minute *)
  dailyCallLimit : uint256;  (* calls per day *)
  isActive : bool;
}.

Record CallRecord := mkCallRecord {
  lastCalled : uint256;
  dailyCount : uint256;
  lastDayReset : uint256;
}.

Record t := mk {
  _policies : gmap address Policy;
  _callRecords : gmap (address * bytes4) CallRecord;
  _totalGasUsed : gmap address uint256;
  _roles : gset (Role * address);
}.

(** *** Reading storage: slots never written hold zeroes *)

Definition noPolicy : Policy := mkPolicy ∅ 0 0 0 false.
Definition noRecord : CallRecord := mkCallRecord 0 0 0.

Definition policyOf (bc : t) (contractAddress : address) : Policy :=
  default noPolicy (_policies bc !! contractAddress).

Definition allowlisted (policy : Policy) (methodSignature : bytes4) : bool :=
  default false (methodAllowlist policy !! methodSignature).

Definition recordOf (bc : t) (contractAddress : address) (methodSignature : bytes4)
  : CallRecord :=
  default noRecord (_callRecords bc !! (contractAddress, methodSignature)).

Definition totalGasUsed (bc : t) (contractAddress : address) : uint256 :=
  default 0 (_totalGasUsed bc !! contractAddress).

Definition hasRole (bc : t) (role : Role) (account : address) : bool :=
  bool_decide ((role, account) ∈ _roles bc).

Definition onlyRole (role : Role) (sender : address) (bc : t) : result unit :=
  if hasRole bc role sender then Ok tt
  else Revert (AccessControlUnauthorizedAccount sender role).

(** *** Writing storage *)

Definition setPolicyOf (contractAddress : address) (policy : Policy) (bc : t) : t :=
  mk (<[contractAddress := policy]> (_policies bc))
     (_callRecords bc) (_totalGasUsed bc) (_roles bc).

Definition setRecordOf (contractAddress : address) (methodSignature : bytes4)
    (record : CallRecord) (bc : t) : t :=
  mk (_policies bc)
     (<[(contractAddress, methodSignature) := record]> (_callRecords bc))
     (_totalGasUsed bc) (_roles bc).

Definition setTotalGasUsed (contractAddress : address) (used : uint256) (bc : t) : t :=
  mk (_policies bc) (_callRecords bc)
     (<[contractAddress := used]> (_totalGasUsed bc)) (_roles bc).

Definition setRoles (roles : gset (Role * address)) (bc : t) : t :=
  mk (_policies bc) (_callRecords bc) (_totalGasUsed bc) roles.

(** *** The contract *)

Definition constructor (defaultAdmin : address) : t :=
  mk ∅ ∅ ∅ {[ (DEFAULT_ADMIN_ROLE, defaultAdmin); (POLICY_MANAGER_ROLE, defaultAdmin) ]}.

(** The loop of [setPolicy]: [policy.methodAllowlist[allowedMethods[i]] = true]
    for [i] from [0]. *)
Fixpoint allowEach (allowedMethods : list bytes4) (allowlist : gmap bytes4 bool)
  : gmap bytes4 bool :=
  match allowedMethods with
  | [] => allowlist
  | m :: rest => allowEach rest (<[m := true]> allowlist)
  end.

Definition setPolicy (sender : address) (contractAddress : address)
    (allowedMethods : list bytes4)
    (gasBudget' callRateLimit' dailyCallLimit' : uint256) (bc : t) : result t :=
  _ ← onlyRole POLICY_MANAGER_ROLE sender bc;
  let policy := policyOf bc contractAddress in
  Ok (setPolicyOf contractAddress
        (mkPolicy (allowEach allowedMethods (methodAllowlist policy))
                  gasBudget' callRateLimit' dailyCallLimit' true) bc).

Definition setActive (active : bool) (policy : Policy) : Policy :=
  mkPolicy (methodAllowlist policy) (gasBudget policy) (callRateLimit policy)
           (dailyCallLimit policy) active.

Definition activatePolicy (sender contractAddress : address) (bc : t) : result t :=
  _ ← onlyRole POLICY_MANAGER_ROLE sender bc;
  Ok (setPolicyOf contractAddress (setActive true (policyOf bc contractAddress)) bc).

Definition deactivatePolicy (sender contractAddress : address) (bc : t) : result t :=
  _ ← onlyRole POLICY_MANAGER_ROLE sender bc;
  Ok (setPolicyOf contractAddress (setActive false (policyOf bc contractAddress)) bc).

Definition isAllowed (contractAddress : address) (methodSignature : bytes4) (bc : t)
  : bool :=
  let policy := policyOf bc contractAddress in
  isActive policy && allowlisted policy methodSignature.

Definition checkGasBudget (contractAddress : address) (bc : t) : uint256 :=
  gasBudget (policyOf bc contractAddress).

Definition getRemainingGasBudget (contractAddress : address) (bc : t) : uint256 :=
  let policy := policyOf bc contractAddress in
  let used := totalGasUsed bc contractAddress in
  if gasBudget policy >? used then gasBudget policy - used else 0.

Definition checkRateLimit (timestamp : uint256)
    (contractAddress : address) (methodSignature : bytes4) (bc : t) : result bool :=
  let policy := policyOf bc contractAddress in
  if negb (isActive policy) || (callRateLimit policy =? 0) then
    Ok (isActive policy)
  else
    let record := recordOf bc contractAddress methodSignature in
    timeSinceLastCall ← U256.sub timestamp (lastCalled record);
    perCall ← U256.div 60 (callRateLimit policy);
    let minuteRateOk := timeSinceLastCall >? perCall in
    dailyLimitOk ←
      (if dailyCallLimit policy >? 0 then
         nextReset ← U256.add (lastDayReset record) DAY;
         if timestamp >=? nextReset then Ok true
         else Ok (dailyCount record <? dailyCallLimit policy)
       else Ok true);
    Ok (minuteRateOk && dailyLimitOk).

Definition recordCallWithGas (sender : address) (timestamp : uint256)
    (contractAddress : address) (methodSignature : bytes4) (gasUsed : uint256)
    (bc : t) : result t :=
  _ ← onlyRole TRUSTED_CALLER_ROLE sender bc;
  let record := recordOf bc contractAddress methodSignature in
  nextReset ← U256.add (lastDayReset record) DAY;
  record' ←
    (if timestamp >=? nextReset then Ok (mkCallRecord timestamp 1 timestamp)
     else
       count ← U256.add (dailyCount record) 1;
       Ok (mkCallRecord timestamp count (lastDayReset record)));
  used ← U256.add (totalGasUsed bc contractAddress) gasUsed;
  Ok (setTotalGasUsed contractAddress used
        (setRecordOf contractAddress methodSignature record' bc)).

Definition recordCall (sender : address) (timestamp : uint256)
    (contractAddress : address) (methodSignature : bytes4) (bc : t) : result t :=
  _ ← onlyRole TRUSTED_CALLER_ROLE sender bc;
  recordCallWithGas sender timestamp contractAddress methodSignature 0 bc.

Definition getCallRecord (contractAddress : address) (methodSignature : bytes4) (bc : t)
  : uint256 * uint256 * uint256 :=
  let record := recordOf bc contractAddress methodSignature in
  (lastCalled record, dailyCount record, lastDayReset record).

Definition getPolicyDetails (contractAddress : address) (bc : t)
  : uint256 * uint256 * uint256 * bool :=
  let policy := policyOf bc contractAddress in
  (gasBudget policy, callRateLimit policy, dailyCallLimit policy, isActive policy).

Definition grantTrustedCallerRole (sender account : address) (bc : t) : result t :=
  _ ← onlyRole DEFAULT_ADMIN_ROLE sender bc;
  Ok (setRoles ({[ (TRUSTED_CALLER_ROLE, account) ]} ∪ _roles bc) bc).

Definition revokeTrustedCallerRole (sender account : address) (bc : t) : result t :=
  _ ← onlyRole DEFAULT_ADMIN_ROLE sender bc;
  Ok (setRoles (_roles bc ∖ {[ (TRUSTED_CALLER_ROLE, account) ]}) bc).

(** A [view] function cannot write: called from outside, it hands back its
    value together with the storage it was given. *)
Definition staticcall {A : Type} (view : t → A) (bc : t) : A * t := (view bc, bc).

End BehaviorController.

(** ** The ERC-20 tokens the entities hold their stakes in

    [Arena] and [Quest] only know a token through [IERC20]; which contract
    sits behind the interface is the caller's choice.  The first argument of
    [transfer] and [transferFrom] is [msg.sender]. *)

Class IERC20 (T : Type) := {
  balanceOf : address → T → result uint256;
  allowance : address → address → T → result uint256;
  transfer : address → address → uint256 → T → result (bool * T);
  transferFrom : address → address → address → uint256 → T → result (bool * T);
}.

(** ** Storage of Arena.sol, Quest.sol and NPCRegistry.sol *)

Module Arena.

Inductive DuelState := PENDING | ACTIVE | CONCLUDED.

#[global] Instance DuelState_eq_dec : EqDecision DuelState.
Proof. solve_decision. Defined.

Record Duel := mkDuel {
  players : address * address;
  token : address;
  wager : uint256;
  winner : address;
  state : DuelState;
  createdAt : uint256;
  concludedAt : uint256;
}.

Record t := mk {
  this : address;
  _duels : gmap uint256 Duel;
  _nextDuelId : uint256;
}.

Definition noDuel : Duel := mkDuel (0, 0) 0 0 0 PENDING 0 0.

Definition duelOf (a : t) (duelId : uint256) : Duel :=
  default noDuel (_duels a !! duelId).

Definition setDuel (duelId : uint256) (duel : Duel) (a : t) : t :=
  mk (this a) (<[duelId := duel]> (_duels a)) (_nextDuelId a).

Definition constructor (self : address) : t := mk self ∅ 0.

(** [this.concludeDuel.selector]: the first four bytes of the Keccak-256
    hash of [concludeDuel(uint256,address)], [0xbf96fb89]. *)
Definition concludeDuel_selector : bytes4 := 3214343049.

End Arena.

Module Quest.

Inductive QuestState := OPEN | IN_PROGRESS | COMPLETED.

#[global] Instance QuestState_eq_dec : EqDecision QuestState.
Proof. solve_decision. Defined.

Record QuestData := mkQuestData {
  creator : address;
  participant : address;
  token : address;
  reward : uint256;
  state : QuestState;
  createdAt : uint256;
  completedAt : uint256;
  metadataUri : string;
}.

Record t := mk {
  this : address;
  _quests : gmap uint256 QuestData;
  _nextQuestId : uint256;
}.

Definition noQuest : QuestData := mkQuestData 0 0 0 0 OPEN 0 0 "".

Definition questOf (q : t) (questId : uint256) : QuestData :=
  default noQuest (_quests q !! questId).

Definition setQuest (questId : uint256) (quest : QuestData) (q : t) : t :=
  mk (this q) (<[questId := quest]> (_quests q)) (_nextQuestId q).

Definition constructor (self : address) : t := mk self ∅ 0.

(** [this.completeQuest.selector]: the first four bytes of the Keccak-256
    hash of [completeQuest(uint256)], [0x528be0a9]. *)
Definition completeQuest_selector : bytes4 := 1384898729.

End Quest.

Module NPCRegistry.

Record NPC := mkNPC {
  id : uint256;
  owner : address;
  controller : address;
  metadataUri : string;
}.

Record t := mk {
  _owner : address;   (* Ownable *)
  _npcs : gmap uint256 NPC;
  _nextTokenId : uint256;
}.

Definition noNPC : NPC := mkNPC 0 0 0 "".

Definition npcOf (r : t) (npcId : uint256) : NPC := default noNPC (_npcs r !! npcId).

Definition constructor (initialOwner : address) : t := mk initialOwner ∅ 0.

Definition registerNPC (owner' controller' : address) (metadataUri' : string) (r : t)
  : result (uint256 * t) :=
  let npcId := _nextTokenId r in
  next ← U256.add npcId 1;
  Ok (npcId, mk (_owner r) (<[npcId := mkNPC npcId owner' controller' metadataUri']> (_npcs r)) next).

Definition getNPC (npcId : uint256) (r : t) : NPC := npcOf r npcId.

Definition updateNPCController (sender : address) (npcId : uint256)
    (newController : address) (r : t) : result t :=
  let npc := npcOf r npcId in
  _ ← require (bool_decide (owner npc = sender) || bool_decide (_owner r = sender))
        "Not owner";
  Ok (mk (_owner r)
         (<[npcId := mkNPC (id npc) (owner npc) newController (metadataUri npc)]> (_npcs r))
         (_nextTokenId r)).

Definition updateNPCMetadata (sender : address) (npcId : uint256)
    (newMetadataUri : string) (r : t) : result t :=
  let npc := npcOf r npcId in
  _ ← require (bool_decide (owner npc = sender) || bool_decide (_owner r = sender))
        "Not owner";
  Ok (mk (_owner r)
         (<[npcId := mkNPC (id npc) (owner npc) (controller npc) newMetadataUri]> (_npcs r))
         (_nextTokenId r)).

End NPCRegistry.

(** ** The chain: one controller, the contracts it guards, and the tokens

    [Arena] and [Quest] are constructed with the address of one
    [BehaviorController]; [controller] is that contract.  [nonReentrant] is
    not modelled: a token has only its own storage here and cannot call
    back. *)

Section Chain.

Context {T : Type} `{IERC20 T}.

Record World := mkWorld {
  behaviorController : BehaviorController.t;
  arena : Arena.t;
  quest : Quest.t;
  registry : NPCRegistry.t;
  tokens : gmap address T;
}.

Definition setController (bc : BehaviorController.t) (w : World) : World :=
  mkWorld bc (arena w) (quest w) (registry w) (tokens w).
Definition setArena (a : Arena.t) (w : World) : World :=
  mkWorld (behaviorController w) a (quest w) (registry w) (tokens w).
Definition setQuest (q : Quest.t) (w : World) : World :=
  mkWorld (behaviorController w) (arena w) q (registry w) (tokens w).
Definition setRegistry (r : NPCRegistry.t) (w : World) : World :=
  mkWorld (behaviorController w) (arena w) (quest w) r (tokens w).
Definition setToken (tokenAddress : address) (tk : T) (w : World) : World :=
  mkWorld (behaviorController w) (arena w) (quest w) (registry w)
          (<[tokenAddress := tk]> (tokens w)).

(** A read of, and a call into, the token contract at [tokenAddress]. *)
Definition tokenView {A : Type} (tokenAddress : address) (view : T → result A)
    (w : World) : result A :=
  match tokens w !! tokenAddress with
  | Some tk => view tk
  | None => Revert CallFailed
  end.

Definition tokenCall (tokenAddress : address) (call : T → result (bool * T))
    (w : World) : result World :=
  match tokens w !! tokenAddress with
  | Some tk => r ← call tk; Ok (setToken tokenAddress r.2 w)
  | None => Revert CallFailed
  end.

(** *** Arena.sol *)

Definition createDuel (sender : address) (timestamp : uint256)
    (player2 tokenAddress : address) (wager : uint256) (w : World)
  : result (uint256 * World) :=
  let self := Arena.this (arena w) in
  _ ← require (bool_decide (player2 ≠ sender)) "Cannot duel yourself";
  balance ← tokenView tokenAddress (balanceOf sender) w;
  _ ← require (balance >=? wager) "Insufficient balance";
  allowed ← tokenView tokenAddress (allowance sender self) w;
  _ ← require (allowed >=? wager) "Insufficient allowance";
  w1 ← tokenCall tokenAddress (transferFrom self sender self wager) w;
  let duelId := Arena._nextDuelId (arena w1) in
  next ← U256.add duelId 1;
  let duel := Arena.mkDuel (sender, player2) tokenAddress wager 0 Arena.PENDING timestamp 0 in
  Ok (duelId,
      setArena (Arena.mk self (<[duelId := duel]> (Arena._duels (arena w1))) next) w1).

Definition acceptDuel (sender : address) (duelId : uint256) (w : World)
  : result World :=
  let self := Arena.this (arena w) in
  let duel := Arena.duelOf (arena w) duelId in
  _ ← require (bool_decide (Arena.state duel = Arena.PENDING)) "Duel not pending";
  _ ← require (bool_decide (sender = (Arena.players duel).2)) "Not your duel";
  balance ← tokenView (Arena.token duel) (balanceOf sender) w;
  _ ← require (balance >=? Arena.wager duel) "Insufficient balance";
  allowed ← tokenView (Arena.token duel) (allowance sender self) w;
  _ ← require (allowed >=? Arena.wager duel) "Insufficient allowance";
  w1 ← tokenCall (Arena.token duel) (transferFrom self sender self (Arena.wager duel)) w;
  let duel' := Arena.mkDuel (Arena.players duel) (Arena.token duel) (Arena.wager duel)
                 (Arena.winner duel) Arena.ACTIVE (Arena.createdAt duel)
                 (Arena.concludedAt duel) in
  Ok (setArena (Arena.setDuel duelId duel' (arena w1)) w1).

Definition concludeDuel (sender : address) (timestamp : uint256)
    (duelId : uint256) (winner : address) (w : World) : result World :=
  let self := Arena.this (arena w) in
  _ ← require (BehaviorController.isAllowed self Arena.concludeDuel_selector (behaviorController w))
        "BehaviorController: Action not allowed";
  bc ← BehaviorController.recordCall self timestamp self Arena.concludeDuel_selector
         (behaviorController w);
  let w1 := setController bc w in
  let duel := Arena.duelOf (arena w1) duelId in
  _ ← require (bool_decide (Arena.state duel = Arena.ACTIVE)) "Duel not active";
  _ ← require (bool_decide (winner = (Arena.players duel).1)
               || bool_decide (winner = (Arena.players duel).2)) "Invalid winner";
  let duel' := Arena.mkDuel (Arena.players duel) (Arena.token duel) (Arena.wager duel)
                 winner Arena.CONCLUDED (Arena.createdAt duel) timestamp in
  let w2 := setArena (Arena.setDuel duelId duel' (arena w1)) w1 in
  totalWager ← U256.mul (Arena.wager duel) 2;
  tokenCall (Arena.token duel) (transfer self winner totalWager) w2.

Definition getDuel (duelId : uint256) (w : World) : Arena.Duel :=
  Arena.duelOf (arena w) duelId.

(** *** Quest.sol *)

Definition createQuest (sender : address) (timestamp : uint256)
    (tokenAddress : address) (reward : uint256) (metadataUri : string) (w : World)
  : result (uint256 * World) :=
  let self := Quest.this (quest w) in
  balance ← tokenView tokenAddress (balanceOf sender) w;
  _ ← require (balance >=? reward) "Insufficient balance";
  allowed ← tokenView tokenAddress (allowance sender self) w;
  _ ← require (allowed >=? reward) "Insufficient allowance";
  w1 ← tokenCall tokenAddress (transferFrom self sender self reward) w;
  let questId := Quest._nextQuestId (quest w1) in
  next ← U256.add questId 1;
  let q := Quest.mkQuestData sender 0 tokenAddress reward Quest.OPEN timestamp 0
             metadataUri in
  Ok (questId,
      setQuest (Quest.mk self (<[questId := q]> (Quest._quests (quest w1))) next) w1).

Definition acceptQuest (sender : address) (questId : uint256) (w : World)
  : result World :=
  let q := Quest.questOf (quest w) questId in
  _ ← require (bool_decide (Quest.state q = Quest.OPEN)) "Quest not open";
  let q' := Quest.mkQuestData (Quest.creator q) sender (Quest.token q) (Quest.reward q)
              Quest.IN_PROGRESS (Quest.createdAt q) (Quest.completedAt q)
              (Quest.metadataUri q) in
  Ok (setQuest (Quest.setQuest questId q' (quest w)) w).

Definition completeQuest (sender : address) (timestamp : uint256)
    (questId : uint256) (w : World) : result World :=
  let self := Quest.this (quest w) in
  _ ← require (BehaviorController.isAllowed self Quest.completeQuest_selector (behaviorController w))
        "BehaviorController: Action not allowed";
  bc ← BehaviorController.recordCall self timestamp self Quest.completeQuest_selector
         (behaviorController w);
  let w1 := setController bc w in
  let q := Quest.questOf (quest w1) questId in
  _ ← require (bool_decide (Quest.state q = Quest.IN_PROGRESS)) "Quest not in progress";
  _ ← require (bool_decide (sender = Quest.participant q)) "Not your quest";
  let q' := Quest.mkQuestData (Quest.creator q) (Quest.participant q) (Quest.token q)
              (Quest.reward q) Quest.COMPLETED (Quest.createdAt q) timestamp
              (Quest.metadataUri q) in
  let w2 := setQuest (Quest.setQuest questId q' (quest w1)) w1 in
  tokenCall (Quest.token q) (transfer self (Quest.participant q) (Quest.reward q)) w2.

Definition getQuest (questId : uint256) (w : World) : Quest.QuestData :=
  Quest.questOf (quest w) questId.

(** *** Transactions

    The calls an externally owned account can make on the chain; [transact]
    runs one of them in a block stamped [timestamp], with [sender] as
    [msg.sender].  Return values of the calls are dropped: a sender of a
    transaction does not see them. *)

Inductive Call :=
| NPCRegistry_registerNPC (owner controller : address) (metadataUri : string)
| NPCRegistry_updateNPCController (npcId : uint256) (newController : address)
| NPCRegistry_updateNPCMetadata (npcId : uint256) (newMetadataUri : string)
| Arena_createDuel (player2 tokenAddress : address) (wager : uint256)
| Arena_acceptDuel (duelId : uint256)
| Arena_concludeDuel (duelId : uint256) (winner : address)
| Quest_createQuest (tokenAddress : address) (reward : uint256) (metadataUri : string)
| Quest_acceptQuest (questId : uint256)
| Quest_completeQuest (questId : uint256)
| BehaviorController_setPolicy (contractAddress : address) (allowedMethods : list bytes4)
    (gasBudget callRateLimit dailyCallLimit : uint256)
| BehaviorController_activatePolicy (contractAddress : address)
| BehaviorController_deactivatePolicy (contractAddress : address)
| BehaviorController_recordCall (contractAddress : address) (methodSignature : bytes4)
| BehaviorController_recordCallWithGas (contractAddress : address)
    (methodSignature : bytes4) (gasUsed : uint256)
| BehaviorController_grantTrustedCallerRole (account : address)
| BehaviorController_revokeTrustedCallerRole (account : address).

Definition onController (f : BehaviorController.t → result BehaviorController.t)
    (w : World) : result World :=
  bc ← f (behaviorController w); Ok (setController bc w).

Definition onRegistry (f : NPCRegistry.t → result NPCRegistry.t) (w : World)
  : result World :=
  r ← f (registry w); Ok (setRegistry r w).

Definition transact (sender : address) (timestamp : uint256) (c : Call) (w : World)
  : result World :=
  match c with
  | NPCRegistry_registerNPC owner controller metadataUri =>
      onRegistry (λ r, p ← NPCRegistry.registerNPC owner controller metadataUri r; Ok p.2) w
  | NPCRegistry_updateNPCController npcId newController =>
      onRegistry (NPCRegistry.updateNPCController sender npcId newController) w
  | NPCRegistry_updateNPCMetadata npcId newMetadataUri =>
      onRegistry (NPCRegistry.updateNPCMetadata sender npcId newMetadataUri) w
  | Arena_createDuel player2 tokenAddress wager =>
      p ← createDuel sender timestamp player2 tokenAddress wager w; Ok p.2
  | Arena_acceptDuel duelId => acceptDuel sender duelId w
  | Arena_concludeDuel duelId winner => concludeDuel sender timestamp duelId winner w
  | Quest_createQuest tokenAddress reward metadataUri =>
      p ← createQuest sender timestamp tokenAddress reward metadataUri w; Ok p.2
  | Quest_acceptQuest questId => acceptQuest sender questId w
  | Quest_completeQuest questId => completeQuest sender timestamp questId w
  | BehaviorController_setPolicy contractAddress allowedMethods gasBudget callRateLimit
      dailyCallLimit =>
      onController (BehaviorController.setPolicy sender contractAddress allowedMethods
                      gasBudget callRateLimit dailyCallLimit) w
  | BehaviorController_activatePolicy contractAddress =>
      onController (BehaviorController.activatePolicy sender contractAddress) w
  | BehaviorController_deactivatePolicy contractAddress =>
      onController (BehaviorController.deactivatePolicy sender contractAddress) w
  | BehaviorController_recordCall contractAddress methodSignature =>
      onController (BehaviorController.recordCall sender timestamp contractAddress
                      methodSignature) w
  | BehaviorController_recordCallWithGas contractAddress methodSignature gasUsed =>
      onController (BehaviorController.recordCallWithGas sender timestamp contractAddress
                      methodSignature gasUsed) w
  | BehaviorController_grantTrustedCallerRole account =>
      onController (BehaviorController.grantTrustedCallerRole sender account) w
  | BehaviorController_revokeTrustedCallerRole account =>
      onController (BehaviorController.revokeTrustedCallerRole sender account) w
  end.

(** The arguments of a call are of their declared types: the only one that
    matters below is the unsigned [gasUsed]. *)
Definition wellTypedCall (c : Call) : Prop :=
  match c with
  | BehaviorController_recordCallWithGas _ _ gasUsed => 0 <= gasUsed
  | _ => True
  end.

(** A history: transactions, each with its sender and block time, applied
    in order; a reverted one leaves the chain as it was. *)
Fixpoint history (txs : list (address * uint256 * Call)) (w : World) : World :=
  match txs with
  | [] => w
  | (sender, timestamp, c) :: rest => history rest (commit (transact sender timestamp c) w)
  end.

End Chain.

Arguments World T : clear implicits.

(** The revert of the embedded guard. *)
Definition notAllowed : failure := Require "BehaviorController: Action not allowed".

(** ** agent-runtime: Action.js *)

(** [s.split(sep)] for a one-character separator. *)
Fixpoint split (sep : Ascii.ascii) (s : string) : list string :=
  match s with
  | EmptyString => [EmptyString]
  | String c rest =>
      if Ascii.eqb c sep then EmptyString :: split sep rest
      else match split sep rest with
           | [] => [String c EmptyString]
           | part :: parts => String c part :: parts
           end
  end.

(** [s.toLowerCase()] on ASCII text. *)
Definition lowerChar (c : Ascii.ascii) : Ascii.ascii :=
  let n := Ascii.N_of_ascii c in
  if ((65 <=? n) && (n <=? 90))%N then Ascii.ascii_of_N (n + 32) else c.

Fixpoint toLowerCase (s : string) : string :=
  match s with
  | EmptyString => EmptyString
  | String c rest => String (lowerChar c) (toLowerCase rest)
  end.

Module Action.

Record Params := mkParams {
  owner : option address;
  controller : option address;
  metadataUri : option string;
  npcId : option uint256;
  newController : option address;
  newMetadataUri : option string;
  player2 : option address;
  tokenAddress : option address;
  wager : option uint256;
  duelId : option uint256;
  winner : option address;
  reward : option uint256;
  questId : option uint256;
  contractAddress : option address;
  allowedMethods : option (list bytes4);
  gasBudget : option uint256;
  callRateLimit : option uint256;
  dailyCallLimit : option uint256;
}.

Definition noParams : Params :=
  mkParams None None None None None None None None None None None None None None None
           None None None.

(** [action] is [None] when the plan has no [action] property. *)
Record Plan := mkPlan {
  action : option string;
  params : Params;
}.

Record Validation := mkValidation {
  valid : bool;
  reason : option string;
}.

(** The object [execute] resolves to.  The fields copied from the receipt
    ([transactionHash], [blockNumber], [gasUsed]) are left out. *)
Module ExecutionResult.
Record t := mk {
  success : bool;
  error : option string;
  result : option string;
  action : option string;
  params : option Params;
}.
End ExecutionResult.

(** What leaves the process: reads of the provider, static calls to the
    controller, and transactions handed to the signer. *)
Inductive Event :=
| GetBalance
| Call_isAllowed (contractAddress : address) (methodSelector : bytes4)
| Call_checkRateLimit (contractAddress : address) (methodSelector : bytes4)
| Call_getRemainingGasBudget (contractAddress : address)
| SendTransaction (c : Call)
| Wait.

Definition isSend (e : Event) : bool :=
  match e with SendTransaction _ => true | _ => false end.

(** What the provider answers during one [execute]: the timestamp of the
    block each step runs against, and the signer's balance before and
    after. *)
Record Env := mkEnv {
  validatedAt : uint256;
  executedAt : uint256;
  recordedAt : uint256;
  startGas : Z;
  endGas : Z;
}.

(** A JavaScript computation either returns or throws an [Error] with a
    message. *)
Inductive outcome (A : Type) :=
| Return (a : A)
| Throw (message : string).
Arguments Return {A} a.
Arguments Throw {A} message.

Section Pipeline.

Context {T : Type} `{IERC20 T}.

(** The signing wallet. *)
Variable signer : address.
(** The table read from [addresses.json], keyed by lower-case contract
    name.  Names inherited from [Object.prototype] are not keys. *)
Variable contractAddresses : gmap string address.
(** [ethers.id(text).slice(0, 10)]: the first four bytes of the
    Keccak-256 hash of [text]. *)
Variable ethers_id4 : string → bytes4.
(** The message of the [Error] ethers throws for a reverted call. *)
Variable describe : failure → string.
(** The message of the [Error] ethers throws for an argument it cannot
    encode. *)
Variable invalidArgument : string.

Record Run := mkRun {
  chain : World T;
  log : list Event;
}.

(** A step of the pipeline: it may change the chain and talk to the
    outside, and returns or throws.  What was done before a throw stays
    done. *)
Definition P (A : Type) : Type := Run → outcome A * Run.

#[local] Instance P_ret : MRet P := λ A a r, (Return a, r).
#[local] Instance P_bind : MBind P :=
  λ A B f m r, match m r with
               | (Return a, r') => f a r'
               | (Throw msg, r') => (Throw msg, r')
               end.

Definition throw {A : Type} (message : string) : P A := λ r, (Throw message, r).

Definition try_catch {A : Type} (body : P A) (handler : string → P A) : P A :=
  λ r, match body r with
       | (Return a, r') => (Return a, r')
       | (Throw msg, r') => handler msg r'
       end.

Definition emit (e : Event) : P unit :=
  λ r, (Return tt, mkRun (chain r) (log r ++ [e])).

Definition liftOutcome {A : Type} (o : outcome A) : P A := λ r, (o, r).

(** A static call of a view function of the controller. *)
Definition readController {A : Type} (view : BehaviorController.t → result A) : P A :=
  λ r, match view (behaviorController (chain r)) with
       | Ok a => (Return a, r)
       | Revert err => (Throw (describe err), r)
       end.

Definition callView {A : Type} (e : Event) (view : BehaviorController.t → result A)
  : P A :=
  _ ← emit e; readController view.

(** A transaction from the signer, mined at [timestamp]. *)
Definition mine (timestamp : uint256) (c : Call) : P unit :=
  λ r, match transact signer timestamp c (chain r) with
       | Ok w => (Return tt, mkRun w (log r))
       | Revert err => (Throw (describe err), r)
       end.

Definition send (timestamp : uint256) (c : Call) : P unit :=
  _ ← emit (SendTransaction c); mine timestamp c.

(** Arguments as ethers encodes them. *)
Definition arg {A : Type} (o : option A) : outcome A :=
  match o with Some a => Return a | None => Throw invalidArgument end.

Definition argUint (bits : Z) (o : option Z) : outcome Z :=
  match o with
  | Some z => if (0 <=? z) && (z <? 2 ^ bits) then Return z else Throw invalidArgument
  | None => Throw invalidArgument
  end.

Definition argList (bits : Z) (o : option (list Z)) : outcome (list Z) :=
  match o with
  | Some l => if forallb (λ z, (0 <=? z) && (z <? 2 ^ bits)) l then Return l
              else Throw invalidArgument
  | None => Throw invalidArgument
  end.

Definition bindOutcome {A B : Type} (o : outcome A) (f : A → outcome B) : outcome B :=
  match o with Return a => f a | Throw m => Throw m end.

Definition parseActionName (actionName : string) : option (address * bytes4) :=
  let parts := split "_"%char actionName in
  let contractName := default "" (parts !! 0%nat) in
  let methodName := default "undefined" (parts !! 1%nat) in
  match contractAddresses !! toLowerCase contractName with
  | None => None
  | Some contractAddress =>
      Some (contractAddress, ethers_id4 (methodName +:+ "(...)"))
  end.

Definition validateExecution (now : uint256) (plan : Plan) : P Validation :=
  match action plan with
  | None => mret (mkValidation true None)
  | Some actionName =>
      if bool_decide (actionName = "") || bool_decide (actionName = "observe")
      then mret (mkValidation true None)
      else
        try_catch
          (match parseActionName actionName with
           | None => mret (mkValidation false (Some "Invalid action format"))
           | Some (contractAddress, methodSelector) =>
               isAllowed ← callView (Call_isAllowed contractAddress methodSelector)
                 (λ bc, Ok (BehaviorController.isAllowed contractAddress methodSelector bc));
               if negb isAllowed then
                 mret (mkValidation false (Some "Action not allowed by BehaviorController"))
               else
                 rateLimitOk ← callView (Call_checkRateLimit contractAddress methodSelector)
                   (BehaviorController.checkRateLimit now contractAddress methodSelector);
                 if negb rateLimitOk then
                   mret (mkValidation false (Some "Rate limit exceeded"))
                 else
                   remainingGas ← callView (Call_getRemainingGasBudget contractAddress)
                     (λ bc, Ok (BehaviorController.getRemainingGasBudget contractAddress bc));
                   if remainingGas =? 0 then
                     mret (mkValidation false (Some "Gas budget exhausted"))
                   else mret (mkValidation true None)
           end)
          (λ message,
             mret (mkValidation false (Some ("Validation error: Error: " +:+ message))))
  end.

Definition executeNPCRegistryCall (methodName : string) (p : Params) : outcome Call :=
  if bool_decide (methodName = "registerNPC") then
    bindOutcome (argUint 160 (owner p)) (λ o,
    bindOutcome (argUint 160 (controller p)) (λ c,
    bindOutcome (arg (metadataUri p)) (λ u,
    Return (NPCRegistry_registerNPC o c u))))
  else if bool_decide (methodName = "updateNPCController") then
    bindOutcome (argUint 256 (npcId p)) (λ n,
    bindOutcome (argUint 160 (newController p)) (λ c,
    Return (NPCRegistry_updateNPCController n c)))
  else if bool_decide (methodName = "updateNPCMetadata") then
    bindOutcome (argUint 256 (npcId p)) (λ n,
    bindOutcome (arg (newMetadataUri p)) (λ u,
    Return (NPCRegistry_updateNPCMetadata n u)))
  else Throw ("Unknown NPCRegistry method: " +:+ methodName).

Definition executeArenaCall (methodName : string) (p : Params) : outcome Call :=
  if bool_decide (methodName = "createDuel") then
    bindOutcome (argUint 160 (player2 p)) (λ p2,
    bindOutcome (argUint 160 (tokenAddress p)) (λ tk,
    bindOutcome (argUint 256 (wager p)) (λ wg,
    Return (Arena_createDuel p2 tk wg))))
  else if bool_decide (methodName = "acceptDuel") then
    bindOutcome (argUint 256 (duelId p)) (λ d, Return (Arena_acceptDuel d))
  else if bool_decide (methodName = "concludeDuel") then
    bindOutcome (argUint 256 (duelId p)) (λ d,
    bindOutcome (argUint 160 (winner p)) (λ wn,
    Return (Arena_concludeDuel d wn)))
  else Throw ("Unknown Arena method: " +:+ methodName).

Definition executeQuestCall (methodName : string) (p : Params) : outcome Call :=
  if bool_decide (methodName = "createQuest") then
    bindOutcome (argUint 160 (tokenAddress p)) (λ tk,
    bindOutcome (argUint 256 (reward p)) (λ rw,
    bindOutcome (arg (metadataUri p)) (λ u,
    Return (Quest_createQuest tk rw u))))
  else if bool_decide (methodName = "acceptQuest") then
    bindOutcome (argUint 256 (questId p)) (λ q, Return (Quest_acceptQuest q))
  else if bool_decide (methodName = "completeQuest") then
    bindOutcome (argUint 256 (questId p)) (λ q, Return (Quest_completeQuest q))
  else Throw ("Unknown Quest method: " +:+ methodName).

Definition executeBehaviorControllerCall (methodName : string) (p : Params)
  : outcome Call :=
  if bool_decide (methodName = "setPolicy") then
    bindOutcome (argUint 160 (contractAddress p)) (λ a,
    bindOutcome (argList 32 (allowedMethods p)) (λ ms,
    bindOutcome (argUint 256 (gasBudget p)) (λ g,
    bindOutcome (argUint 256 (callRateLimit p)) (λ r,
    bindOutcome (argUint 256 (dailyCallLimit p)) (λ d,
    Return (BehaviorController_setPolicy a ms g r d))))))
  else Throw ("Unknown BehaviorController method: " +:+ methodName).

Definition executeContractCall (now : uint256) (plan : Plan) : P unit :=
  match action plan with
  | None => throw "Cannot read properties of undefined (reading 'split')"
  | Some actionName =>
      let parts := split "_"%char actionName in
      let contractName := default "" (parts !! 0%nat) in
      let methodName := default "undefined" (parts !! 1%nat) in
      c ← liftOutcome
            (if bool_decide (contractName = "NPCRegistry") then
               executeNPCRegistryCall methodName (params plan)
             else if bool_decide (contractName = "Arena") then
               executeArenaCall methodName (params plan)
             else if bool_decide (contractName = "Quest") then
               executeQuestCall methodName (params plan)
             else if bool_decide (contractName = "BehaviorController") then
               executeBehaviorControllerCall methodName (params plan)
             else Throw ("Unknown contract: " +:+ contractName));
      send now c
  end.

Definition recordCallInBehaviorController (now : uint256) (plan : Plan) (gasUsed : Z)
  : P unit :=
  try_catch
    (match action plan with
     | None => throw "Cannot read properties of undefined (reading 'split')"
     | Some actionName =>
         match parseActionName actionName with
         | None => mret tt
         | Some (contractAddress, methodSelector) =>
             g ← liftOutcome (argUint 256 (Some gasUsed));
             send now (BehaviorController_recordCallWithGas contractAddress
                         methodSelector g)
         end
     end)
    (λ _, mret tt).

(** [recordFailedCall] only writes to the console. *)
Definition recordFailedCall (plan : Plan) (errorMessage : string) : P unit := mret tt.

Definition execute (env : Env) (plan : Plan) : P ExecutionResult.t :=
  if bool_decide (action plan = Some "observe") then
    mret (ExecutionResult.mk true None (Some "Observation completed") (Some "observe") None)
  else
    _ ← emit GetBalance;
    try_catch
      (validation ← validateExecution (validatedAt env) plan;
       if negb (valid validation) then
         mret (ExecutionResult.mk false
                 (Some ("Validation failed: " +:+ default "undefined" (reason validation)))
                 None (action plan) None)
       else
         _ ← executeContractCall (executedAt env) plan;
         _ ← emit Wait;
         _ ← emit GetBalance;
         let gasUsed := startGas env - endGas env in
         _ ← recordCallInBehaviorController (recordedAt env) plan gasUsed;
         mret (ExecutionResult.mk true None None (action plan) (Some (params plan))))
      (λ message,
         _ ← (match action plan with
              | Some actionName =>
                  if bool_decide (actionName ≠ "") && bool_decide (actionName ≠ "observe")
                  then try_catch (recordFailedCall plan message) (λ _, mret tt)
                  else mret tt
              | None => mret tt
              end);
         mret (ExecutionResult.mk false (Some message) None (action plan) (Some (params plan)))).

(** A plan that names an operation of a known contract: [parseActionName]
    resolves its [action] to a target and an operation. *)
Definition resolves (plan : Plan) (target : address) (operation : bytes4) : Prop :=
  ∃ name, action plan = Some name ∧ name ≠ "" ∧ name ≠ "observe"
          ∧ parseActionName name = Some (target, operation).

(** The dry run: a placeholder estimate, nothing is sent. *)
Definition simulate (plan : Plan) : P (bool * string) :=
  if bool_decide (action plan = Some "observe") then mret (true, "0")
  else mret (true, "100000").

End Pipeline.

End Action.

(** ** A ledger token

    The token the test suite deploys ([MockERC20], a plain balance and
    allowance ledger): the instance of [IERC20] on which the contracts are
    run on concrete worlds below. *)

Module MockERC20.

Record t := mk {
  _balances : gmap address uint256;
  _allowances : gmap (address * address) uint256;
}.

Definition balance (tk : t) (account : address) : uint256 :=
  default 0 (_balances tk !! account).

Definition allowed (tk : t) (owner spender : address) : uint256 :=
  default 0 (_allowances tk !! (owner, spender)).

Definition _transfer (from to : address) (value : uint256) (tk : t) : result t :=
  if bool_decide (from = 0) || bool_decide (to = 0) then Revert CallFailed
  else if balance tk from <? value then Revert CallFailed
  else
    let debited := <[from := balance tk from - value]> (_balances tk) in
    let credited := <[to := default 0 (debited !! to) + value]> debited in
    Ok (mk credited (_allowances tk)).

Definition _spendAllowance (owner spender : address) (value : uint256) (tk : t)
  : result t :=
  let current := allowed tk owner spender in
  if current =? U256.MAX then Ok tk
  else if current <? value then Revert CallFailed
  else Ok (mk (_balances tk) (<[(owner, spender) := current - value]> (_allowances tk))).

#[global] Instance ierc20 : IERC20 t := {|
  balanceOf account tk := Ok (balance tk account);
  allowance owner spender tk := Ok (allowed tk owner spender);
  transfer sender to value tk :=
    tk' ← _transfer sender to value tk; Ok (true, tk');
  transferFrom sender from to value tk :=
    tk1 ← _spendAllowance from sender value tk;
    tk2 ← _transfer from to value tk1;
    Ok (true, tk2);
|}.

End MockERC20.

(** ** The specification's reading of the ledger, for comparison with the code *)

Module Spec.

Import BehaviorController.

(** §4.2, minute spacing: [(now - lastCalledAt) > 60 / rateLimit]. *)
Definition minuteOk (now : Z) (policy : Policy) (record : CallRecord) : bool :=
  now - lastCalled record >? 60 / callRateLimit policy.

(** §4.2, daily quota: passes once the window has rolled over, else
    [dailyCount < dailyLimit]; a limit of [0] is no limit. *)
Definition dailyOk (now : Z) (policy : Policy) (record : CallRecord) : bool :=
  negb (dailyCallLimit policy >? 0)
  || (now >=? lastDayReset record + DAY)
  || (dailyCount record <? dailyCallLimit policy).

(** The answer of [checkRateLimit] as the code gives it: [false] for an
    inactive policy, [true] for an active one with [rateLimit = 0], and
    [minuteOk && dailyOk] otherwise. *)
Definition rateLimitAnswer (now : Z) (policy : Policy) (record : CallRecord) : bool :=
  if negb (isActive policy) then false
  else if callRateLimit policy =? 0 then true
  else minuteOk now policy record && dailyOk now policy record.

(** The stored counters leave room for one more recorded call. *)
Definition roomToRecord (bc : t) (contractAddress : address) (methodSignature : bytes4)
  : Prop :=
  let record := recordOf bc contractAddress methodSignature in
  lastDayReset record + DAY <= U256.MAX
  ∧ dailyCount record + 1 <= U256.MAX
  ∧ totalGasUsed bc contractAddress <= U256.MAX.

(** §3, the invariant of [CallRecord] read literally: a resetting
    [recordCall] moves [windowStart] forward by one day. *)
Definition windowAdvancesByOneDay : Prop :=
  ∀ (sender : address) (now : uint256) (a : address) (s : bytes4) (gas : uint256)
    (bc bc' : t),
    recordCallWithGas sender now a s gas bc = Ok bc' →
    now >= lastDayReset (recordOf bc a s) + DAY →
    lastDayReset (recordOf bc' a s) = lastDayReset (recordOf bc a s) + DAY.

End Spec.

(** ** Concrete chains

    The deployment of the test fixture: an administrator, the arena and the
    quest contracts with their policies and the trusted-caller role, one
    token, two players. *)

Module Sample.

Import BehaviorController.

Definition admin : address := 1.
Definition arenaAddress : address := 10.
Definition questAddress : address := 11.
Definition tokenAddress : address := 20.
Definition alice : address := 31.
Definition bob : address := 32.
Definition signer : address := 40.

(** A block time of the present, in seconds since the epoch. *)
Definition t0 : uint256 := 1700000000.

Definition deployed : t := constructor admin.

(** The fixture with the limits of the arena's policy left open. *)
Definition configuredWith (gasBudget' callRateLimit' dailyCallLimit' : uint256) : t :=
  commit (grantTrustedCallerRole admin questAddress)
    (commit (grantTrustedCallerRole admin arenaAddress)
       (commit (setPolicy admin questAddress [Quest.completeQuest_selector]
                  (5 * 10 ^ 17) 5 50)
          (commit (setPolicy admin arenaAddress [Arena.concludeDuel_selector]
                     gasBudget' callRateLimit' dailyCallLimit')
             deployed))).

(** The fixture as the tests set it up: 10 calls per minute, 100 per day. *)
Definition configured : t := configuredWith (10 ^ 18) 10 100.

(** The arena has recorded one [concludeDuel] at [t0]. *)
Definition calledOnce (bc : t) : t :=
  commit (recordCall arenaAddress t0 arenaAddress Arena.concludeDuel_selector) bc.

(** Both players hold 1000 tokens and have approved the contracts. *)
Definition token0 : MockERC20.t :=
  MockERC20.mk {[ alice := 1000; bob := 1000 ]}
    {[ (alice, arenaAddress) := 10; (bob, arenaAddress) := 10;
       (alice, questAddress) := 5 ]}.

Definition world0 (bc : t) : World MockERC20.t :=
  mkWorld bc (Arena.constructor arenaAddress) (Quest.constructor questAddress)
    (NPCRegistry.constructor admin) {[ tokenAddress := token0 ]}.

(** Alice has challenged Bob for 10 tokens and Bob has accepted: duel 0 is
    [ACTIVE].  Alice has posted quest 0 with a reward of 5 and Bob has
    taken it: quest 0 is [IN_PROGRESS]. *)
Definition entitiesOpen (bc : t) : World MockERC20.t :=
  commit (transact bob t0 (Quest_acceptQuest 0))
    (commit (transact alice t0 (Quest_createQuest tokenAddress 5 "ipfs://quest"))
       (commit (transact bob t0 (Arena_acceptDuel 0))
          (commit (transact alice t0 (Arena_createDuel bob tokenAddress 10))
             (world0 bc)))).

(** The policy manager switches the arena's and the quest's policies off. *)
Definition deactivated (w : World MockERC20.t) : World MockERC20.t :=
  commit (transact admin t0 (BehaviorController_deactivatePolicy questAddress))
    (commit (transact admin t0 (BehaviorController_deactivatePolicy arenaAddress)) w).

(** A policy with no gas budget at all and one call per minute, and the
    arena's call already recorded at [t0]: a second later both the rate
    check and the budget say no. *)
Definition exhausted : t := calledOnce (configuredWith 0 1 10).

Definition tokenIn (w : World MockERC20.t) : MockERC20.t :=
  default token0 (tokens w !! tokenAddress).

Definition paidOut (from to : address) (amount : uint256) (tk : MockERC20.t)
  : MockERC20.t :=
  commit (MockERC20._transfer from to amount) tk.

(** *** The agent's side of the fixture *)

(** [addresses.json]. *)
Definition addresses : gmap string address :=
  {[ "arena" := arenaAddress; "quest" := questAddress ]}.

(** [ethers.id(text).slice(0, 10)] on the two texts the plans below give
    rise to: [0x77bceea4] and [0x6fdec881]. *)
Definition ethers_id4 (text : string) : bytes4 :=
  if bool_decide (text = "concludeDuel(...)") then 2008870564
  else if bool_decide (text = "completeQuest(...)") then 1876871297
  else 0.

Definition describe (e : failure) : string := "execution reverted".

Definition invalidArgument : string := "invalid argument".

(** The operation the pipeline resolves [Arena_concludeDuel] to. *)
Definition concludeOperation : bytes4 := ethers_id4 "concludeDuel(...)".

Definition concludePlan : Action.Plan :=
  Action.mkPlan (Some "Arena_concludeDuel")
    (Action.mkParams None None None None None None None None None
       (Some 0) (Some alice) None None None None None None None).

(** A policy for the arena on that operation, the signer trusted to record,
    and one call recorded by the signer at [t0] with 21000 of gas. *)
Definition agentPolicy (gasBudget' callRateLimit' dailyCallLimit' : uint256) : t :=
  commit (grantTrustedCallerRole admin signer)
    (commit (setPolicy admin arenaAddress [concludeOperation]
               gasBudget' callRateLimit' dailyCallLimit')
       deployed).

Definition agentCalledOnce (bc : t) : t :=
  commit (recordCallWithGas signer t0 arenaAddress concludeOperation 21000) bc.

Definition runOn (bc : t) : Action.Run (T:=MockERC20.t) := Action.mkRun (world0 bc) [].

(** The verdict of [validateExecution] on [concludePlan] at time [now]. *)
Definition verdict (now : uint256) (bc : t) : Action.outcome Action.Validation :=
  (Action.validateExecution addresses ethers_id4 describe now concludePlan (runOn bc)).1.

End Sample.

(** ** The life cycles of the entities, as orders *)

Definition duelRank (s : Arena.DuelState) : nat :=
  match s with
  | Arena.PENDING => 0
  | Arena.ACTIVE => 1
  | Arena.CONCLUDED => 2
  end.

Definition questRank (s : Quest.QuestState) : nat :=
  match s with
  | Quest.OPEN => 0
  | Quest.IN_PROGRESS => 1
  | Quest.COMPLETED => 2
  end.

(** What a duel may become: the stake and the parties stay, the state moves
    forward. *)
Definition duelEvolves (d d' : Arena.Duel) : Prop :=
  Arena.players d' = Arena.players d
  ∧ Arena.token d' = Arena.token d
  ∧ Arena.wager d' = Arena.wager d
  ∧ Arena.createdAt d' = Arena.createdAt d
  ∧ (duelRank (Arena.state d) ≤ duelRank (Arena.state d'))%nat.

(** What a quest may become: the offer stays, the state moves forward, and
    the participant stays once the quest has been taken. *)
Definition questEvolves (q q' : Quest.QuestData) : Prop :=
  Quest.creator q' = Quest.creator q
  ∧ Quest.token q' = Quest.token q
  ∧ Quest.reward q' = Quest.reward q
  ∧ Quest.createdAt q' = Quest.createdAt q
  ∧ Quest.metadataUri q' = Quest.metadataUri q
  ∧ (questRank (Quest.state q) ≤ questRank (Quest.state q'))%nat
  ∧ ((1 ≤ questRank (Quest.state q))%nat → Quest.participant q' = Quest.participant q).

(** ** More of the fixture *)

Module Fixture.

Import BehaviorController.

(** The arena's policy lists both the selector the contract checks and the
    operation the pipeline resolves; the arena and the quest are trusted
    callers, the signer is not. *)
Definition bothListed : t :=
  commit (setPolicy Sample.admin Sample.arenaAddress [Sample.concludeOperation]
            (10 ^ 18) 10 100)
    Sample.configured.

Definition duelReady : Action.Run (T:=MockERC20.t) :=
  Action.mkRun (Sample.entitiesOpen bothListed) [].

Definition env (now : uint256) : Action.Env :=
  Action.mkEnv now (now + 1) (now + 2) (10 ^ 18) (10 ^ 18 - 21000).

Definition run (table : gmap string address) (now : uint256) (plan : Action.Plan)
    (r : Action.Run (T:=MockERC20.t))
  : Action.outcome Action.ExecutionResult.t * Action.Run (T:=MockERC20.t) :=
  Action.execute Sample.signer table Sample.ethers_id4 Sample.describe
    Sample.invalidArgument (env now) plan r.

Definition planFor (name : string) : Action.Plan :=
  Action.mkPlan (Some name) (Action.params Sample.concludePlan).


End Fixture.

(** ** GameActionAdapter.sol

    The adapter forwards a mapped action to its target with a low-level
    call, behind the controller's checks when the mapping asks for them.
    The target is any contract of the chain: [target] is what a call to it
    does, as a transaction of the adapter on the rest of the chain, and
    [targetValidation] what its [validateAction] answers, for contracts
    that have one.  The adapter's own storage is out of the target's
    reach. *)

Module GameActionAdapter.

Record ActionMapping := mkActionMapping {
  targetContract : address;
  functionSelector : bytes4;
  requiresApproval : bool;
  gasCost : uint256;
}.

Record t := mk {
  this : address;
  _owner : address;   (* Ownable *)
  actionMappings : gmap string ActionMapping;
  authorizedCallers : gmap address bool;
}.

Definition noMapping : ActionMapping := mkActionMapping 0 0 false 0.

Definition mappingOf (a : t) (actionType : string) : ActionMapping :=
  default noMapping (actionMappings a !! actionType).

Definition isAuthorized (a : t) (caller : address) : bool :=
  default false (authorizedCallers a !! caller).

Definition constructor (self initialOwner : address) : t := mk self initialOwner ∅ ∅.

(** The result of a function behind [onlyOwner]. *)
Inductive owned (A : Type) :=
| Done (a : A)
| OwnableUnauthorizedAccount (account : address).
Arguments Done {A} a.
Arguments OwnableUnauthorizedAccount {A} account.

Definition setActionMapping (sender : address) (actionType : string)
    (targetContract' : address) (functionSelector' : bytes4) (requiresApproval' : bool)
    (gasCost' : uint256) (a : t) : owned t :=
  if bool_decide (sender = _owner a) then
    Done (mk (this a) (_owner a)
            (<[actionType := mkActionMapping targetContract' functionSelector'
                               requiresApproval' gasCost']> (actionMappings a))
            (authorizedCallers a))
  else OwnableUnauthorizedAccount sender.

Definition authorizeAddress (sender caller : address) (a : t) : owned t :=
  if bool_decide (sender = _owner a) then
    Done (mk (this a) (_owner a) (actionMappings a) (<[caller := true]> (authorizedCallers a)))
  else OwnableUnauthorizedAccount sender.

Definition revokeAuthorization (sender caller : address) (a : t) : owned t :=
  if bool_decide (sender = _owner a) then
    Done (mk (this a) (_owner a) (actionMappings a) (<[caller := false]> (authorizedCallers a)))
  else OwnableUnauthorizedAccount sender.

Definition getActionMapping (actionType : string) (a : t) : ActionMapping :=
  mappingOf a actionType.

Section Forwarding.

Context {T : Type}.

(** The calldata and return data of the forwarded call. *)
Variable bytes : Type.
(** [targetContract.call(abi.encodePacked(functionSelector, params))]:
    the first argument is the caller, the second the block time. *)
Variable target : address → uint256 → address → bytes4 → bytes → World T
                  → result (bytes * World T).
(** The return data of a reverted call. *)
Variable revertData : failure → bytes.
(** [IGameAction(target).validateAction(actionType, params, actor)]. *)
Variable targetValidation : address → string → bytes → address → World T
                            → result (bool * string).

(** A low-level call does not revert its caller: it reports failure, and
    what the callee did is undone. *)
Definition lowLevelCall (sender : address) (timestamp : uint256) (to : address)
    (selector : bytes4) (params : bytes) (w : World T) : bool * bytes * World T :=
  match target sender timestamp to selector params w with
  | Ok (out, w') => (true, out, w')
  | Revert e => (false, revertData e, w)
  end.

Definition executeAction (sender : address) (timestamp : uint256) (actionType : string)
    (params : bytes) (a : t) (w : World T) : result (bool * bytes * World T) :=
  _ ← require (isAuthorized a sender || bool_decide (sender = _owner a)) "Not authorized";
  let actionMapping := mappingOf a actionType in
  _ ← require (bool_decide (targetContract actionMapping ≠ 0)) "Action type not mapped";
  _ ← (if requiresApproval actionMapping then
         _ ← require (BehaviorController.isAllowed (targetContract actionMapping)
                        (functionSelector actionMapping) (behaviorController w))
               "Action not allowed by BehaviorController";
         rateOk ← BehaviorController.checkRateLimit timestamp
                     (targetContract actionMapping) (functionSelector actionMapping)
                     (behaviorController w);
         require rateOk "Rate limit exceeded"
       else Ok tt);
  let called := lowLevelCall (this a) timestamp (targetContract actionMapping)
                  (functionSelector actionMapping) params w in
  let success := called.1.1 in
  let w1 := called.2 in
  w2 ← (if requiresApproval actionMapping && success then
          bc ← BehaviorController.recordCall (this a) timestamp
                 (targetContract actionMapping) (functionSelector actionMapping)
                 (behaviorController w1);
          Ok (setController bc w1)
        else Ok w1);
  Ok (success, called.1.2, w2).

Definition callTargetValidation (to : address) (actionType : string) (params : bytes)
    (actor : address) (w : World T) : result (bool * string) :=
  targetValidation to actionType params actor w.

Definition validateAction (timestamp : uint256) (actionType : string) (params : bytes)
    (actor : address) (a : t) (w : World T) : result (bool * string) :=
  let actionMapping := mappingOf a actionType in
  if bool_decide (targetContract actionMapping = 0) then
    Ok (false, "Action type not mapped")
  else if negb (isAuthorized a actor) && bool_decide (actor ≠ _owner a) then
    Ok (false, "Actor not authorized")
  else
    verdict ←
      (if requiresApproval actionMapping then
         if negb (BehaviorController.isAllowed (targetContract actionMapping)
                    (functionSelector actionMapping) (behaviorController w))
         then Ok (Some (false, "Action not allowed by BehaviorController"))
         else
           rateOk ← BehaviorController.checkRateLimit timestamp
                       (targetContract actionMapping) (functionSelector actionMapping)
                       (behaviorController w);
           if negb rateOk then Ok (Some (false, "Rate limit exceeded")) else Ok None
       else Ok None);
    match verdict with
    | Some refused => Ok refused
    | None =>
        match callTargetValidation (targetContract actionMapping) actionType params actor w
        with
        | Ok answer => Ok answer
        | Revert _ => Ok (true, "Validation passed")
        end
    end.

End Forwarding.

End GameActionAdapter.

(** ** The adapter on the fixture *)

Module AdapterFixture.

Import BehaviorController GameActionAdapter.

Definition adapterAddress : address := 50.

Definition settled (o : owned GameActionAdapter.t) (a : GameActionAdapter.t)
  : GameActionAdapter.t :=
  match o with Done a' => a' | OwnableUnauthorizedAccount _ => a end.

(** The action [conclude] is mapped to the arena's [concludeDuel], with
    approval required; the signer is authorised. *)
Definition adapter : GameActionAdapter.t :=
  let a0 := GameActionAdapter.constructor adapterAddress Sample.admin in
  let a1 := settled (setActionMapping Sample.admin "conclude" Sample.arenaAddress
                       Arena.concludeDuel_selector true 100000 a0) a0 in
  settled (authorizeAddress Sample.admin Sample.signer a1) a1.

(** Calldata already decoded: the duel and the winner. *)
Definition forward (sender : address) (now : uint256) (to : address) (selector : bytes4)
    (params : uint256 * address) (w : World MockERC20.t)
  : result ((uint256 * address) * World MockERC20.t) :=
  if bool_decide (to = Sample.arenaAddress) && bool_decide (selector = Arena.concludeDuel_selector)
  then w' ← concludeDuel sender now params.1 params.2 w; Ok (params, w')
  else Ok (params, w).

Definition revertData (e : failure) : uint256 * address := (0, 0).

Definition noValidation (to : address) (actionType : string) (params : uint256 * address)
    (actor : address) (w : World MockERC20.t) : result (bool * string) :=
  Revert CallFailed.

(** The controller of the fixture, the adapter trusted to record. *)
Definition adapterTrusted : BehaviorController.t :=
  commit (grantTrustedCallerRole Sample.admin adapterAddress) Sample.configured.

Definition execute (sender : address) (now : uint256) (w : World MockERC20.t)
  : result (bool * (uint256 * address) * World MockERC20.t) :=
  executeAction (uint256 * address) forward revertData sender now "conclude"
    (0, Sample.alice) adapter w.

End AdapterFixture.

(** ** The registry on the fixture *)

Module RegistryFixture.

Import NPCRegistry.

Definition registered (p : result (uint256 * NPCRegistry.t)) (r : NPCRegistry.t)
  : NPCRegistry.t :=
  match p with Ok (_, r') => r' | Revert _ => r end.

Definition empty : NPCRegistry.t := NPCRegistry.constructor Sample.admin.

(** Alice's NPC, controlled by the signer. *)
Definition one : NPCRegistry.t :=
  registered (registerNPC Sample.alice Sample.signer "ipfs://npc/0" empty) empty.

(** Bob's NPC after it. *)
Definition two : NPCRegistry.t :=
  registered (registerNPC Sample.bob Sample.signer "ipfs://npc/1" one) one.

Definition world : World MockERC20.t :=
  setRegistry two (Sample.entitiesOpen Sample.configured).

(** Bob tries to take over Alice's NPC, Alice and the registry's owner
    rewrite it, a third NPC is registered and duel 0 is concluded. *)
Definition updates : list (address * uint256 * Call) :=
  [ (Sample.bob, Sample.t0, NPCRegistry_updateNPCController 0 Sample.bob);
    (Sample.alice, Sample.t0, NPCRegistry_updateNPCController 0 Sample.alice);
    (Sample.admin, Sample.t0 + 1, NPCRegistry_updateNPCMetadata 0 "ipfs://npc/0b");
    (Sample.bob, Sample.t0 + 2, NPCRegistry_registerNPC Sample.bob Sample.bob "ipfs://npc/2");
    (Sample.signer, Sample.t0 + 60, Arena_concludeDuel 0 Sample.alice) ].

End RegistryFixture.

(** * Properties *)

(** ** Checked arithmetic *)

Section U256Facts.

Lemma add_Ok a b : a + b <= U256.MAX → U256.add a b = Ok (a + b).
Proof. intros Hle. unfold U256.add. by rewrite (proj2 (Z.leb_le _ _) Hle). Qed.

Lemma add_Revert a b : U256.MAX < a + b → U256.add a b = Revert (Panic 17).
Proof. intros Hlt. unfold U256.add. by rewrite (proj2 (Z.leb_gt _ _) Hlt). Qed.

Lemma add_inv a b c : U256.add a b = Ok c → c = a + b ∧ a + b <= U256.MAX.
Proof.
  unfold U256.add. destruct (a + b <=? U256.MAX) eqn:E; [|done].
  intros [= <-]. split; [done|]. by apply Z.leb_le.
Qed.

Lemma sub_Ok a b : b <= a → U256.sub a b = Ok (a - b).
Proof. intros Hle. unfold U256.sub. by rewrite (proj2 (Z.leb_le _ _) Hle). Qed.

Lemma mul_Ok a b : a * b <= U256.MAX → U256.mul a b = Ok (a * b).
Proof. intros Hle. unfold U256.mul. by rewrite (proj2 (Z.leb_le _ _) Hle). Qed.

Lemma div_Ok a b : b ≠ 0 → U256.div a b = Ok (a / b).
Proof. intros Hne. unfold U256.div. by rewrite (proj2 (Z.eqb_neq _ _) Hne). Qed.

End U256Facts.

(** ** The controller's storage *)

Module BehaviorControllerFacts.

Import BehaviorController.

Lemma policyOf_setPolicyOf a p bc : policyOf (setPolicyOf a p bc) a = p.
Proof. unfold policyOf, setPolicyOf; simpl. by rewrite lookup_insert_eq. Qed.

Lemma policyOf_setPolicyOf_ne a b p bc :
  a ≠ b → policyOf (setPolicyOf a p bc) b = policyOf bc b.
Proof. intros Hne. unfold policyOf, setPolicyOf; simpl. by rewrite lookup_insert_ne. Qed.

Lemma recordOf_setRecordOf a s r bc : recordOf (setRecordOf a s r bc) a s = r.
Proof. unfold recordOf, setRecordOf; simpl. by rewrite lookup_insert_eq. Qed.

Lemma recordOf_setRecordOf_ne a s a' s' r bc :
  (a, s) ≠ (a', s') → recordOf (setRecordOf a s r bc) a' s' = recordOf bc a' s'.
Proof. intros Hne. unfold recordOf, setRecordOf; simpl. by rewrite lookup_insert_ne. Qed.

Lemma totalGasUsed_setTotalGasUsed a u bc : totalGasUsed (setTotalGasUsed a u bc) a = u.
Proof. unfold totalGasUsed, setTotalGasUsed; simpl. by rewrite lookup_insert_eq. Qed.

Lemma totalGasUsed_setTotalGasUsed_ne a b u bc :
  a ≠ b → totalGasUsed (setTotalGasUsed a u bc) b = totalGasUsed bc b.
Proof.
  intros Hne. unfold totalGasUsed, setTotalGasUsed; simpl. by rewrite lookup_insert_ne.
Qed.

Lemma onlyRole_Ok role sender bc :
  hasRole bc role sender = true → onlyRole role sender bc = Ok tt.
Proof. intros Hrole. unfold onlyRole. by rewrite Hrole. Qed.

Lemma onlyRole_inv role sender bc u :
  onlyRole role sender bc = Ok u → hasRole bc role sender = true.
Proof. unfold onlyRole. by destruct (hasRole bc role sender). Qed.

(** The loop of [setPolicy] adds to the allowlist and removes nothing. *)
Lemma allowEach_lookup ms : ∀ (al : gmap Z bool) (m : Z),
  default false (allowEach ms al !! m) = true
  ↔ m ∈ ms ∨ default false (al !! m) = true.
Proof.
  induction ms as [|m0 ms IH]; intros al m; simpl.
  - split; [by right | intros [Hin | Hal]; [by apply elem_of_nil in Hin | done]].
  - rewrite IH, elem_of_cons. destruct (decide (m0 = m)) as [-> | Hne].
    + rewrite lookup_insert_eq; simpl. split; [intros _; left; by left | intros _; by right].
    + rewrite lookup_insert_ne by done.
      split; [intros [Hin | Hal]; [left; by right | by right] |].
      intros [[Heq | Hin] | Hal]; [congruence | by left | by right].
Qed.

(** What a recorded call writes, and when it goes through. *)
Lemma recordCallWithGas_Ok sender now a s gas bc :
  hasRole bc TRUSTED_CALLER_ROLE sender = true →
  lastDayReset (recordOf bc a s) + DAY <= U256.MAX →
  (now < lastDayReset (recordOf bc a s) + DAY → dailyCount (recordOf bc a s) + 1 <= U256.MAX) →
  totalGasUsed bc a + gas <= U256.MAX →
  recordCallWithGas sender now a s gas bc
  = Ok (setTotalGasUsed a (totalGasUsed bc a + gas)
          (setRecordOf a s
             (if now >=? lastDayReset (recordOf bc a s) + DAY
              then mkCallRecord now 1 now
              else mkCallRecord now (dailyCount (recordOf bc a s) + 1)
                     (lastDayReset (recordOf bc a s))) bc)).
Proof.
  intros Hrole Hday Hcount Hgas. unfold recordCallWithGas.
  rewrite (onlyRole_Ok _ _ _ Hrole); simpl.
  rewrite (add_Ok _ _ Hday); simpl.
  destruct (now >=? lastDayReset (recordOf bc a s) + DAY) eqn:E; simpl.
  - by rewrite (add_Ok _ _ Hgas).
  - rewrite (add_Ok (dailyCount _) 1)
      by (apply Hcount; rewrite Z.geb_leb in E; apply Z.leb_gt in E; lia).
    simpl. by rewrite (add_Ok _ _ Hgas).
Qed.

Lemma recordCallWithGas_inv sender now a s gas bc bc' :
  recordCallWithGas sender now a s gas bc = Ok bc' →
  hasRole bc TRUSTED_CALLER_ROLE sender = true
  ∧ lastDayReset (recordOf bc a s) + DAY <= U256.MAX
  ∧ totalGasUsed bc a + gas <= U256.MAX
  ∧ bc' = setTotalGasUsed a (totalGasUsed bc a + gas)
            (setRecordOf a s
               (if now >=? lastDayReset (recordOf bc a s) + DAY
                then mkCallRecord now 1 now
                else mkCallRecord now (dailyCount (recordOf bc a s) + 1)
                       (lastDayReset (recordOf bc a s))) bc).
Proof.
  unfold recordCallWithGas. intros Hrun.
  destruct (onlyRole TRUSTED_CALLER_ROLE sender bc) as [[]|] eqn:Hrole; [|done].
  apply onlyRole_inv in Hrole. simpl in Hrun.
  destruct (U256.add (lastDayReset (recordOf bc a s)) DAY) as [next|] eqn:Hnext; [|done].
  apply add_inv in Hnext as [-> Hday]. simpl in Hrun.
  destruct (now >=? lastDayReset (recordOf bc a s) + DAY) eqn:E; simpl in Hrun.
  - destruct (U256.add (totalGasUsed bc a) gas) as [used|] eqn:Hused; [|done].
    apply add_inv in Hused as [-> Hgas]. simpl in Hrun. by injection Hrun as <-.
  - destruct (U256.add (dailyCount (recordOf bc a s)) 1) as [count|] eqn:Hcount; [|done].
    apply add_inv in Hcount as [-> _]. simpl in Hrun.
    destruct (U256.add (totalGasUsed bc a) gas) as [used|] eqn:Hused; [|done].
    apply add_inv in Hused as [-> Hgas]. simpl in Hrun. by injection Hrun as <-.
Qed.

Lemma recordCall_unfold sender now a s bc :
  recordCall sender now a s bc = recordCallWithGas sender now a s 0 bc.
Proof.
  unfold recordCall. destruct (onlyRole TRUSTED_CALLER_ROLE sender bc) as [[]|] eqn:Hrole.
  - done.
  - unfold recordCallWithGas. by rewrite Hrole.
Qed.

(** Recording touches neither policies nor roles. *)
Lemma recordCallWithGas_policyOf sender now a s gas bc bc' b :
  recordCallWithGas sender now a s gas bc = Ok bc' → policyOf bc' b = policyOf bc b.
Proof. intros Hrun. by apply recordCallWithGas_inv in Hrun as (_ & _ & _ & ->). Qed.

End BehaviorControllerFacts.

(** ** PolicyStore *)

Section PolicyStore.

Import BehaviorController BehaviorControllerFacts.

(** C5.  [isAllowed(target, operation)] is true exactly when the target's
    policy is active and the operation is in its allowlist; it is false for
    every inactive policy whatever the allowlist holds; and calling it
    leaves the storage as it was. *)
Theorem isAllowed_iff_active_and_allowlisted (bc : t) (target : address) (operation : bytes4) :
  (isAllowed target operation bc = true
   ↔ isActive (policyOf bc target) = true
     ∧ allowlisted (policyOf bc target) operation = true)
  ∧ (isActive (policyOf bc target) = false → isAllowed target operation bc = false)
  ∧ (staticcall (isAllowed target operation) bc).2 = bc.
Proof.
  unfold isAllowed, staticcall; simpl. split; [|split].
  - apply andb_true_iff.
  - by intros ->.
  - reflexivity.
Qed.

(** C7.  A policy manager's [setPolicy] extends the allowlist: every method
    passed is allowlisted afterwards, every method allowlisted before still
    is, the three numeric fields hold the new values, and the policy is
    active. *)
Theorem setPolicy_union_semantics (sender target : address) (allowedMethods : list bytes4)
    (gasBudget' callRateLimit' dailyCallLimit' : uint256) (bc : t) :
  hasRole bc POLICY_MANAGER_ROLE sender = true →
  ∃ bc',
    setPolicy sender target allowedMethods gasBudget' callRateLimit' dailyCallLimit' bc
    = Ok bc'
    ∧ (∀ m, m ∈ allowedMethods → allowlisted (policyOf bc' target) m = true)
    ∧ (∀ m, allowlisted (policyOf bc target) m = true
            → allowlisted (policyOf bc' target) m = true)
    ∧ gasBudget (policyOf bc' target) = gasBudget'
    ∧ callRateLimit (policyOf bc' target) = callRateLimit'
    ∧ dailyCallLimit (policyOf bc' target) = dailyCallLimit'
    ∧ isActive (policyOf bc' target) = true.
Proof.
  intros Hrole. eexists. unfold setPolicy. rewrite (onlyRole_Ok _ _ _ Hrole); simpl.
  split; [reflexivity|]. rewrite policyOf_setPolicyOf; simpl.
  repeat split.
  - intros m Hin. unfold allowlisted; simpl. apply allowEach_lookup. by left.
  - intros m Hold. unfold allowlisted; simpl. apply allowEach_lookup. by right.
Qed.

Lemma setPolicy_union_semantics_witness :
  ∃ bc',
    setPolicy Sample.admin Sample.arenaAddress [7; 8] 500 3 9 Sample.configured = Ok bc'
    ∧ (∀ m, m ∈ [7; 8] → allowlisted (policyOf bc' Sample.arenaAddress) m = true)
    ∧ (∀ m, allowlisted (policyOf Sample.configured Sample.arenaAddress) m = true
            → allowlisted (policyOf bc' Sample.arenaAddress) m = true)
    ∧ gasBudget (policyOf bc' Sample.arenaAddress) = 500
    ∧ callRateLimit (policyOf bc' Sample.arenaAddress) = 3
    ∧ dailyCallLimit (policyOf bc' Sample.arenaAddress) = 9
    ∧ isActive (policyOf bc' Sample.arenaAddress) = true.
Proof.
  apply (setPolicy_union_semantics Sample.admin Sample.arenaAddress [7; 8] 500 3 9
           Sample.configured).
  vm_compute. reflexivity.
Defined.

End PolicyStore.

(** ** CallLedger and ResourceAccountant *)

Section CallLedger.

Import BehaviorController BehaviorControllerFacts.

Lemma recordOf_setTotalGasUsed a u bc b s :
  recordOf (setTotalGasUsed a u bc) b s = recordOf bc b s.
Proof. reflexivity. Qed.

Lemma totalGasUsed_setRecordOf a s r bc b :
  totalGasUsed (setRecordOf a s r bc) b = totalGasUsed bc b.
Proof. reflexivity. Qed.

(** With an active policy and a non-zero rate, and when neither
    subtraction nor addition leaves the range, [checkRateLimit] is the
    conjunction of the two checks of §4.2. *)
Lemma checkRateLimit_throttled (now : uint256) (target : address) (operation : bytes4)
    (bc : t) :
  isActive (policyOf bc target) = true →
  callRateLimit (policyOf bc target) ≠ 0 →
  lastCalled (recordOf bc target operation) <= now →
  (0 < dailyCallLimit (policyOf bc target)
   → lastDayReset (recordOf bc target operation) + DAY <= U256.MAX) →
  checkRateLimit now target operation bc
  = Ok (Spec.minuteOk now (policyOf bc target) (recordOf bc target operation)
        && Spec.dailyOk now (policyOf bc target) (recordOf bc target operation)).
Proof.
  intros Hactive Hrate Hlast Hday. unfold checkRateLimit, Spec.minuteOk, Spec.dailyOk.
  rewrite Hactive, (proj2 (Z.eqb_neq _ _) Hrate); simpl.
  rewrite (sub_Ok _ _ Hlast); simpl. rewrite (div_Ok _ _ Hrate); simpl.
  destruct (dailyCallLimit (policyOf bc target) >? 0) eqn:Hlimit; simpl.
  - rewrite Z.gtb_ltb in Hlimit. apply Z.ltb_lt in Hlimit.
    rewrite (add_Ok _ _ (Hday Hlimit)); simpl.
    by destruct (now >=? lastDayReset (recordOf bc target operation) + DAY).
  - reflexivity.
Qed.

(** C1, as the code has it.  [checkRateLimit] answers [false] for an
    inactive policy; [true] for an active policy with [rateLimit = 0], the
    daily quota not being looked at; and for an active policy with a
    non-zero rate the conjunction [minuteOk && dailyOk], with
    [minuteOk = now - lastCalledAt > 60 / rateLimit] and [dailyOk] true
    when [dailyLimit = 0], or the window has rolled over, or
    [dailyCount < dailyLimit]. *)
Theorem checkRateLimit_answer (now : uint256) (target : address) (operation : bytes4)
    (bc : t) :
  (isActive (policyOf bc target) = false
   → checkRateLimit now target operation bc = Ok false)
  ∧ (isActive (policyOf bc target) = true → callRateLimit (policyOf bc target) = 0
     → checkRateLimit now target operation bc = Ok true)
  ∧ (isActive (policyOf bc target) = true → callRateLimit (policyOf bc target) ≠ 0
     → lastCalled (recordOf bc target operation) <= now
     → (0 < dailyCallLimit (policyOf bc target)
        → lastDayReset (recordOf bc target operation) + DAY <= U256.MAX)
     → checkRateLimit now target operation bc
       = Ok (Spec.minuteOk now (policyOf bc target) (recordOf bc target operation)
             && Spec.dailyOk now (policyOf bc target) (recordOf bc target operation)))
  ∧ (lastCalled (recordOf bc target operation) <= now
     → lastDayReset (recordOf bc target operation) + DAY <= U256.MAX
     → checkRateLimit now target operation bc
       = Ok (Spec.rateLimitAnswer now (policyOf bc target) (recordOf bc target operation))).
Proof.
  repeat split.
  - intros Hactive. unfold checkRateLimit. by rewrite Hactive.
  - intros Hactive Hrate. unfold checkRateLimit. by rewrite Hactive, Hrate.
  - apply checkRateLimit_throttled.
  - intros Hlast Hday. unfold Spec.rateLimitAnswer.
    destruct (isActive (policyOf bc target)) eqn:Hactive; simpl.
    + destruct (callRateLimit (policyOf bc target) =? 0) eqn:Hrate.
      * unfold checkRateLimit. by rewrite Hactive, Hrate.
      * apply Z.eqb_neq in Hrate. by apply checkRateLimit_throttled.
    + unfold checkRateLimit. by rewrite Hactive.
Qed.

(** C1, as the specification states it, fails: an active policy with
    [rateLimit = 0] and [dailyLimit = 1], one call recorded ten seconds
    ago in the running window, and [checkRateLimit] answers [true]. *)
Lemma checkRateLimit_unthrottled_skips_daily_quota :
  let bc := Sample.calledOnce (Sample.configuredWith (10 ^ 18) 0 1) in
  let policy := policyOf bc Sample.arenaAddress in
  let record := recordOf bc Sample.arenaAddress Arena.concludeDuel_selector in
  let now := Sample.t0 + 10 in
  isActive policy = true
  ∧ callRateLimit policy = 0
  ∧ 0 < dailyCallLimit policy
  ∧ dailyCallLimit policy <= dailyCount record
  ∧ now < lastDayReset record + DAY
  ∧ checkRateLimit now Sample.arenaAddress Arena.concludeDuel_selector bc = Ok true
  ∧ checkRateLimit now Sample.arenaAddress Arena.concludeDuel_selector bc ≠ Ok false.
Proof. vm_compute. repeat split; discriminate. Qed.

(** C3, as the code has it.  A trusted caller's [recordCall] made at or
    after [windowStart + 86400] goes through (the block time and the gas
    total staying in range) and sets [windowStart] to the time of the
    call, which is at least one day past its previous value, [dailyCount]
    to 1 and [lastCalledAt] to the time of the call. *)
Theorem recordCall_reset_restarts_window_at_now (sender : address) (now : uint256)
    (target : address) (operation : bytes4) (gasUsed : uint256) (bc : t) :
  hasRole bc TRUSTED_CALLER_ROLE sender = true →
  now <= U256.MAX →
  totalGasUsed bc target + gasUsed <= U256.MAX →
  lastDayReset (recordOf bc target operation) + DAY <= now →
  ∃ bc',
    recordCallWithGas sender now target operation gasUsed bc = Ok bc'
    ∧ lastDayReset (recordOf bc' target operation) = now
    ∧ dailyCount (recordOf bc' target operation) = 1
    ∧ lastCalled (recordOf bc' target operation) = now
    ∧ DAY <= lastDayReset (recordOf bc' target operation)
             - lastDayReset (recordOf bc target operation).
Proof.
  intros Hrole Hnow Hgas Hreset. eexists. split.
  - apply recordCallWithGas_Ok; [done | lia | lia | done].
  - rewrite recordOf_setTotalGasUsed, recordOf_setRecordOf.
    assert ((now >=? lastDayReset (recordOf bc target operation) + DAY) = true) as ->
      by (rewrite Z.geb_leb; by apply Z.leb_le).
    simpl. repeat split. lia.
Qed.

Lemma recordCall_reset_restarts_window_at_now_witness :
  ∃ bc',
    recordCallWithGas Sample.arenaAddress Sample.t0 Sample.arenaAddress
      Arena.concludeDuel_selector 21000 Sample.configured = Ok bc'
    ∧ lastDayReset (recordOf bc' Sample.arenaAddress Arena.concludeDuel_selector)
      = Sample.t0
    ∧ dailyCount (recordOf bc' Sample.arenaAddress Arena.concludeDuel_selector) = 1
    ∧ lastCalled (recordOf bc' Sample.arenaAddress Arena.concludeDuel_selector)
      = Sample.t0
    ∧ DAY <= lastDayReset (recordOf bc' Sample.arenaAddress Arena.concludeDuel_selector)
             - lastDayReset (recordOf Sample.configured Sample.arenaAddress
                               Arena.concludeDuel_selector).
Proof.
  apply (recordCall_reset_restarts_window_at_now Sample.arenaAddress Sample.t0
           Sample.arenaAddress Arena.concludeDuel_selector 21000 Sample.configured);
    vm_compute; first [reflexivity | discriminate].
Defined.

(** C3, as the specification states it, fails: the first call ever
    recorded for a pair finds [windowStart = 0] and moves it to the block
    time, not to [86400]. *)
Lemma windowStart_does_not_step_by_one_day : ¬ Spec.windowAdvancesByOneDay.
Proof.
  intros Hclaim.
  specialize (Hclaim Sample.arenaAddress Sample.t0 Sample.arenaAddress
                Arena.concludeDuel_selector 0 Sample.configured
                (commit (recordCallWithGas Sample.arenaAddress Sample.t0
                           Sample.arenaAddress Arena.concludeDuel_selector 0)
                   Sample.configured)).
  assert (Hrun : recordCallWithGas Sample.arenaAddress Sample.t0 Sample.arenaAddress
                   Arena.concludeDuel_selector 0 Sample.configured
                 = Ok (commit (recordCallWithGas Sample.arenaAddress Sample.t0
                                 Sample.arenaAddress Arena.concludeDuel_selector 0)
                         Sample.configured))
    by (vm_compute; reflexivity).
  specialize (Hclaim Hrun).
  assert (Hreset : Sample.t0 >= lastDayReset (recordOf Sample.configured
                     Sample.arenaAddress Arena.concludeDuel_selector) + DAY)
    by (vm_compute; discriminate).
  specialize (Hclaim Hreset).
  assert (Hnew : lastDayReset (recordOf (commit (recordCallWithGas Sample.arenaAddress
                   Sample.t0 Sample.arenaAddress Arena.concludeDuel_selector 0)
                   Sample.configured) Sample.arenaAddress Arena.concludeDuel_selector)
                 = Sample.t0) by (vm_compute; reflexivity).
  assert (Hold : lastDayReset (recordOf Sample.configured Sample.arenaAddress
                   Arena.concludeDuel_selector) = 0) by (vm_compute; reflexivity).
  rewrite Hnew, Hold in Hclaim. unfold Sample.t0, DAY in Hclaim. lia.
Qed.

End CallLedger.

Section RateAndBudget.

Import BehaviorController BehaviorControllerFacts.

Lemma checkRateLimit_answer_witness :
  checkRateLimit (Sample.t0 + 7) Sample.arenaAddress Arena.concludeDuel_selector
    (Sample.calledOnce Sample.configured)
  = Ok (Spec.minuteOk (Sample.t0 + 7)
          (policyOf (Sample.calledOnce Sample.configured) Sample.arenaAddress)
          (recordOf (Sample.calledOnce Sample.configured) Sample.arenaAddress
             Arena.concludeDuel_selector)
        && Spec.dailyOk (Sample.t0 + 7)
             (policyOf (Sample.calledOnce Sample.configured) Sample.arenaAddress)
             (recordOf (Sample.calledOnce Sample.configured) Sample.arenaAddress
                Arena.concludeDuel_selector)).
Proof.
  apply (checkRateLimit_answer (Sample.t0 + 7) Sample.arenaAddress
           Arena.concludeDuel_selector (Sample.calledOnce Sample.configured));
    vm_compute; first [reflexivity | discriminate].
Defined.

Lemma isAllowed_iff_active_and_allowlisted_witness :
  isAllowed Sample.arenaAddress Arena.concludeDuel_selector
    (commit (deactivatePolicy Sample.admin Sample.arenaAddress) Sample.configured)
  = false.
Proof.
  apply (isAllowed_iff_active_and_allowlisted
           (commit (deactivatePolicy Sample.admin Sample.arenaAddress) Sample.configured)
           Sample.arenaAddress Arena.concludeDuel_selector).
  vm_compute. reflexivity.
Defined.

(** C9.  With an active policy of 10 calls per minute, and the daily check
    passing, [checkRateLimit] asked [elapsed] seconds after a [recordCall] on
    the pair answers [false] for [elapsed < 6], [false] for [elapsed = 6] and
    [true] for [elapsed > 6]. *)
Theorem checkRateLimit_six_second_spacing (sender : address) (calledAt elapsed : uint256)
    (target : address) (operation : bytes4) (bc bc' : BehaviorController.t) :
  isActive (policyOf bc target) = true →
  callRateLimit (policyOf bc target) = 10 →
  recordCall sender calledAt target operation bc = Ok bc' →
  0 <= elapsed →
  (0 < dailyCallLimit (policyOf bc' target)
   → lastDayReset (recordOf bc' target operation) + DAY <= U256.MAX) →
  Spec.dailyOk (calledAt + elapsed) (policyOf bc' target) (recordOf bc' target operation) = true →
  (elapsed < 6 → checkRateLimit (calledAt + elapsed) target operation bc' = Ok false)
  ∧ (elapsed = 6 → checkRateLimit (calledAt + elapsed) target operation bc' = Ok false)
  ∧ (6 < elapsed → checkRateLimit (calledAt + elapsed) target operation bc' = Ok true).
Proof.
  intros Hactive Hrate Hrec Ht Hday Hdaily.
  rewrite recordCall_unfold in Hrec.
  pose proof (recordCallWithGas_policyOf _ _ _ _ _ _ _ target Hrec) as Hpolicy.
  assert (Hlast : lastCalled (recordOf bc' target operation) = calledAt).
  { apply recordCallWithGas_inv in Hrec as (_ & _ & _ & ->).
    rewrite recordOf_setTotalGasUsed, recordOf_setRecordOf.
    by destruct (calledAt >=? lastDayReset (recordOf bc target operation) + DAY). }
  assert (Hcheck : checkRateLimit (calledAt + elapsed) target operation bc' = Ok (elapsed >? 6)).
  { rewrite checkRateLimit_throttled.
    - rewrite Hdaily, andb_true_r. unfold Spec.minuteOk.
      rewrite Hlast, Hpolicy, Hrate. do 2 f_equal. lia.
    - by rewrite Hpolicy.
    - rewrite Hpolicy, Hrate. lia.
    - rewrite Hlast. lia.
    - exact Hday. }
  rewrite Hcheck. repeat split; intros Hcase; f_equal.
  - rewrite Z.gtb_ltb. apply Z.ltb_ge. lia.
  - rewrite Z.gtb_ltb. apply Z.ltb_ge. lia.
  - rewrite Z.gtb_ltb. apply Z.ltb_lt. lia.
Qed.

Lemma checkRateLimit_six_second_spacing_witness :
  checkRateLimit (Sample.t0 + 6) Sample.arenaAddress Arena.concludeDuel_selector
    (Sample.calledOnce Sample.configured) = Ok false.
Proof.
  refine (proj1 (proj2 (checkRateLimit_six_second_spacing Sample.arenaAddress Sample.t0 6
                          Sample.arenaAddress Arena.concludeDuel_selector Sample.configured
                          (Sample.calledOnce Sample.configured) _ _ _ _ _ _)) _).
  - vm_compute. reflexivity.
  - vm_compute. reflexivity.
  - vm_compute. reflexivity.
  - vm_compute. discriminate.
  - intros _. vm_compute. discriminate.
  - vm_compute. reflexivity.
  - reflexivity.
Defined.

(** The three sides of the threshold on the fixture: 5, 6 and 7 seconds
    after the recorded call. *)
Example checkRateLimit_around_six_seconds :
  checkRateLimit (Sample.t0 + 5) Sample.arenaAddress Arena.concludeDuel_selector
    (Sample.calledOnce Sample.configured) = Ok false
  ∧ checkRateLimit (Sample.t0 + 6) Sample.arenaAddress Arena.concludeDuel_selector
      (Sample.calledOnce Sample.configured) = Ok false
  ∧ checkRateLimit (Sample.t0 + 7) Sample.arenaAddress Arena.concludeDuel_selector
      (Sample.calledOnce Sample.configured) = Ok true.
Proof. vm_compute. repeat split. Qed.

End RateAndBudget.

(** ** Guarded entities *)

Section GuardedEntities.

Import BehaviorController BehaviorControllerFacts.

Context {T : Type} `{IERC20 T}.

Lemma concludeDuel_not_allowed sender now duelId winner (w : World T) :
  isAllowed (Arena.this (arena w)) Arena.concludeDuel_selector (behaviorController w) = false →
  concludeDuel sender now duelId winner w = Revert notAllowed.
Proof. intros Hno. unfold concludeDuel. by rewrite Hno. Qed.

Lemma completeQuest_not_allowed sender now questId (w : World T) :
  isAllowed (Quest.this (quest w)) Quest.completeQuest_selector (behaviorController w) = false →
  completeQuest sender now questId w = Revert notAllowed.
Proof. intros Hno. unfold completeQuest. by rewrite Hno. Qed.

Lemma commit_Revert {S : Type} (tx : S → result S) (s : S) (e : failure) :
  tx s = Revert e → commit tx s = s.
Proof. intros Hrev. unfold commit. by rewrite Hrev. Qed.

(** Deactivation leaves the allowlist alone and makes [isAllowed] false. *)
Lemma deactivatePolicy_effect manager target (bc : t) :
  hasRole bc POLICY_MANAGER_ROLE manager = true →
  ∃ bc', deactivatePolicy manager target bc = Ok bc'
         ∧ methodAllowlist (policyOf bc' target) = methodAllowlist (policyOf bc target)
         ∧ ∀ s, isAllowed target s bc' = false.
Proof.
  intros Hrole. eexists. unfold deactivatePolicy.
  rewrite (onlyRole_Ok _ _ _ Hrole); simpl. split; [reflexivity|].
  split.
  - by rewrite policyOf_setPolicyOf.
  - intros s. unfold isAllowed. by rewrite policyOf_setPolicyOf.
Qed.

(** C2.  A terminal transition whose [isAllowed] check is false reverts as
    a whole: [concludeDuel] and [completeQuest] fail with the controller's
    reason and the chain is left exactly as it was, in every part.  This
    holds in particular once the policy manager has deactivated the policy:
    the operation is still in the allowlist, and the transition fails. *)
Theorem guarded_transition_rejected_whole (w : World T) (sender : address) (now : uint256) :
  (∀ (duelId : uint256) (winner : address),
     isAllowed (Arena.this (arena w)) Arena.concludeDuel_selector (behaviorController w)
     = false
     → concludeDuel sender now duelId winner w = Revert notAllowed
       ∧ commit (concludeDuel sender now duelId winner) w = w)
  ∧ (∀ (questId : uint256),
       isAllowed (Quest.this (quest w)) Quest.completeQuest_selector (behaviorController w)
       = false
       → completeQuest sender now questId w = Revert notAllowed
         ∧ commit (completeQuest sender now questId) w = w)
  ∧ (∀ (manager : address) (at' : uint256) (target : address) (operation : bytes4),
       hasRole (behaviorController w) POLICY_MANAGER_ROLE manager = true
       → let w' := commit (transact manager at' (BehaviorController_deactivatePolicy target)) w in
         allowlisted (policyOf (behaviorController w') target) operation
         = allowlisted (policyOf (behaviorController w) target) operation
         ∧ arena w' = arena w ∧ quest w' = quest w
         ∧ (target = Arena.this (arena w)
            → ∀ duelId winner,
                concludeDuel sender now duelId winner w' = Revert notAllowed
                ∧ commit (concludeDuel sender now duelId winner) w' = w')
         ∧ (target = Quest.this (quest w)
            → ∀ questId,
                completeQuest sender now questId w' = Revert notAllowed
                ∧ commit (completeQuest sender now questId) w' = w')).
Proof.
  split; [|split].
  - intros duelId winner Hno.
    pose proof (concludeDuel_not_allowed sender now duelId winner w Hno) as Hrev.
    split; [done | by apply (commit_Revert _ _ _ Hrev)].
  - intros questId Hno.
    pose proof (completeQuest_not_allowed sender now questId w Hno) as Hrev.
    split; [done | by apply (commit_Revert _ _ _ Hrev)].
  - intros manager at' target operation Hrole w'.
    destruct (deactivatePolicy_effect manager target (behaviorController w) Hrole)
      as (bc' & Hrun & Hlist & Hoff).
    assert (Hw' : w' = setController bc' w).
    { subst w'. unfold commit, transact, onController. by rewrite Hrun. }
    rewrite Hw'. simpl. split; [|split; [done|split; [done|split]]].
    + unfold allowlisted. by rewrite Hlist.
    + intros -> duelId winner.
      assert (Hrev : concludeDuel sender now duelId winner (setController bc' w)
                     = Revert notAllowed)
        by (apply concludeDuel_not_allowed; simpl; apply Hoff).
      split; [done | by apply (commit_Revert _ _ _ Hrev)].
    + intros -> questId.
      assert (Hrev : completeQuest sender now questId (setController bc' w)
                     = Revert notAllowed)
        by (apply completeQuest_not_allowed; simpl; apply Hoff).
      split; [done | by apply (commit_Revert _ _ _ Hrev)].
Qed.

End GuardedEntities.

Section GuardedEntitiesOnTheFixture.

Import BehaviorController.

(** The fixture behaves as the tests expect: duel 0 is [ACTIVE], quest 0 is
    [IN_PROGRESS], and the arena holds both wagers. *)
Example entitiesOpen_state :
  Arena.state (getDuel 0 (Sample.entitiesOpen Sample.configured)) = Arena.ACTIVE
  ∧ Quest.state (getQuest 0 (Sample.entitiesOpen Sample.configured)) = Quest.IN_PROGRESS
  ∧ tokenView Sample.tokenAddress (balanceOf Sample.arenaAddress)
      (Sample.entitiesOpen Sample.configured) = Ok 20.
Proof. vm_compute. repeat split. Qed.

Lemma guarded_transition_rejected_whole_witness :
  concludeDuel Sample.signer (Sample.t0 + 60) 0 Sample.alice
    (Sample.deactivated (Sample.entitiesOpen Sample.configured)) = Revert notAllowed
  ∧ commit (concludeDuel Sample.signer (Sample.t0 + 60) 0 Sample.alice)
      (Sample.deactivated (Sample.entitiesOpen Sample.configured))
    = Sample.deactivated (Sample.entitiesOpen Sample.configured).
Proof.
  refine (proj1 (guarded_transition_rejected_whole
                   (Sample.deactivated (Sample.entitiesOpen Sample.configured))
                   Sample.signer (Sample.t0 + 60)) 0 Sample.alice _).
  vm_compute. reflexivity.
Defined.

(** Deactivated between [acceptDuel] and [concludeDuel]: the selector is
    still allowlisted, the duel is still [ACTIVE], and the conclusion
    reverts; with the policy left active the same call pays the winner. *)
Example deactivation_vetoes_conclusion :
  let open := Sample.entitiesOpen Sample.configured in
  let off := Sample.deactivated open in
  allowlisted (policyOf (behaviorController off) Sample.arenaAddress)
    Arena.concludeDuel_selector = true
  ∧ Arena.state (getDuel 0 off) = Arena.ACTIVE
  ∧ concludeDuel Sample.signer (Sample.t0 + 60) 0 Sample.alice off = Revert notAllowed
  ∧ succeeds (concludeDuel Sample.signer (Sample.t0 + 60) 0 Sample.alice open) = true
  ∧ tokenView Sample.tokenAddress (balanceOf Sample.alice)
      (commit (concludeDuel Sample.signer (Sample.t0 + 60) 0 Sample.alice) open)
    = Ok 1005.
Proof. vm_compute. repeat split. Qed.

End GuardedEntitiesOnTheFixture.

Section EmbeddedGuard.

Import BehaviorController BehaviorControllerFacts.

Context {T : Type} `{IERC20 T}.

(** The record a guarded transition writes for itself. *)
Lemma recordCall_Ok sender now a s (bc : t) :
  hasRole bc TRUSTED_CALLER_ROLE sender = true →
  Spec.roomToRecord bc a s →
  ∃ bc', recordCall sender now a s bc = Ok bc'
         ∧ policyOf bc' a = policyOf bc a
         ∧ lastCalled (recordOf bc' a s) = now.
Proof.
  intros Hrole (Hday & Hcount & Hgas). eexists. rewrite recordCall_unfold. split.
  - apply recordCallWithGas_Ok; [done | done | by intros _ | lia].
  - split; [reflexivity|].
    rewrite recordOf_setTotalGasUsed, recordOf_setRecordOf.
    by destruct (now >=? lastDayReset (recordOf bc a s) + DAY).
Qed.

Lemma concludeDuel_allowed (w : World T) (sender : address) (now duelId : uint256)
    (winner : address) (tk tk' : T) (paid : bool) :
  let self := Arena.this (arena w) in
  let duel := Arena.duelOf (arena w) duelId in
  isAllowed self Arena.concludeDuel_selector (behaviorController w) = true →
  hasRole (behaviorController w) TRUSTED_CALLER_ROLE self = true →
  Spec.roomToRecord (behaviorController w) self Arena.concludeDuel_selector →
  Arena.state duel = Arena.ACTIVE →
  winner = (Arena.players duel).1 ∨ winner = (Arena.players duel).2 →
  Arena.wager duel * 2 <= U256.MAX →
  tokens w !! Arena.token duel = Some tk →
  transfer self winner (Arena.wager duel * 2) tk = Ok (paid, tk') →
  ∃ w',
    concludeDuel sender now duelId winner w = Ok w'
    ∧ Arena.state (getDuel duelId w') = Arena.CONCLUDED
    ∧ Arena.winner (getDuel duelId w') = winner
    ∧ Arena.concludedAt (getDuel duelId w') = now
    ∧ tokens w' !! Arena.token duel = Some tk'
    ∧ lastCalled (recordOf (behaviorController w') self Arena.concludeDuel_selector) = now.
Proof.
  intros self duel Hallowed Hrole Hroom Hstate Hwinner Hwager Htk Hpay.
  destruct (recordCall_Ok self now self Arena.concludeDuel_selector
              (behaviorController w) Hrole Hroom) as (bc' & Hrec & _ & Hlast).
  eexists. split.
  - unfold concludeDuel. fold self. rewrite Hallowed; simpl. rewrite Hrec; simpl.
    fold duel. rewrite Hstate; simpl.
    assert (bool_decide (winner = (Arena.players duel).1)
            || bool_decide (winner = (Arena.players duel).2) = true) as ->.
    { destruct Hwinner as [Hw | Hw]; rewrite (bool_decide_eq_true_2 _ Hw); simpl;
        [done | apply orb_true_r]. }
    simpl. rewrite (mul_Ok _ _ Hwager); simpl.
    unfold tokenCall; simpl. rewrite Htk. rewrite Hpay; simpl. reflexivity.
  - unfold getDuel, Arena.duelOf, Arena.setDuel; simpl.
    rewrite !lookup_insert_eq; simpl. done.
Qed.

Lemma completeQuest_allowed (w : World T) (sender : address) (now questId : uint256)
    (tk tk' : T) (paid : bool) :
  let self := Quest.this (quest w) in
  let q := Quest.questOf (quest w) questId in
  isAllowed self Quest.completeQuest_selector (behaviorController w) = true →
  hasRole (behaviorController w) TRUSTED_CALLER_ROLE self = true →
  Spec.roomToRecord (behaviorController w) self Quest.completeQuest_selector →
  Quest.state q = Quest.IN_PROGRESS →
  sender = Quest.participant q →
  tokens w !! Quest.token q = Some tk →
  transfer self (Quest.participant q) (Quest.reward q) tk = Ok (paid, tk') →
  ∃ w',
    completeQuest sender now questId w = Ok w'
    ∧ Quest.state (getQuest questId w') = Quest.COMPLETED
    ∧ Quest.completedAt (getQuest questId w') = now
    ∧ tokens w' !! Quest.token q = Some tk'
    ∧ lastCalled (recordOf (behaviorController w') self Quest.completeQuest_selector) = now.
Proof.
  intros self q Hallowed Hrole Hroom Hstate Hsender Htk Hpay.
  destruct (recordCall_Ok self now self Quest.completeQuest_selector
              (behaviorController w) Hrole Hroom) as (bc' & Hrec & _ & Hlast).
  eexists. split.
  - unfold completeQuest. fold self. rewrite Hallowed; simpl. rewrite Hrec; simpl.
    fold q. rewrite Hstate; simpl. rewrite (bool_decide_eq_true_2 _ Hsender); simpl.
    unfold tokenCall; simpl. rewrite Htk. rewrite Hpay; simpl. reflexivity.
  - unfold getQuest, Quest.questOf, Quest.setQuest; simpl.
    rewrite !lookup_insert_eq; simpl. done.
Qed.

(** C10.  The guard inside the terminal transitions looks at [isAllowed]
    and at nothing else.  For an [ACTIVE] duel and a winner among its
    players (an [IN_PROGRESS] quest and its participant as sender), a policy
    that is active and lists the selector, and the entity holding the
    trusted-caller role, [concludeDuel] ([completeQuest]) goes through,
    records the call and makes the token transfer, whatever
    [checkRateLimit] and [getRemainingGasBudget] would answer: neither
    appears among the premises.  The remaining premises are those the
    transition has of its own (the counters and the doubled wager stay in
    range, the token accepts the transfer). *)
Theorem terminal_guard_consults_only_isAllowed (w : World T) (sender : address)
    (now : uint256) :
  (∀ (duelId : uint256) (winner : address) (tk tk' : T) (paid : bool),
     isAllowed (Arena.this (arena w)) Arena.concludeDuel_selector (behaviorController w)
     = true
     → hasRole (behaviorController w) TRUSTED_CALLER_ROLE (Arena.this (arena w)) = true
     → Spec.roomToRecord (behaviorController w) (Arena.this (arena w))
         Arena.concludeDuel_selector
     → Arena.state (Arena.duelOf (arena w) duelId) = Arena.ACTIVE
     → winner = (Arena.players (Arena.duelOf (arena w) duelId)).1
       ∨ winner = (Arena.players (Arena.duelOf (arena w) duelId)).2
     → Arena.wager (Arena.duelOf (arena w) duelId) * 2 <= U256.MAX
     → tokens w !! Arena.token (Arena.duelOf (arena w) duelId) = Some tk
     → transfer (Arena.this (arena w)) winner
         (Arena.wager (Arena.duelOf (arena w) duelId) * 2) tk = Ok (paid, tk')
     → ∃ w',
         concludeDuel sender now duelId winner w = Ok w'
         ∧ Arena.state (getDuel duelId w') = Arena.CONCLUDED
         ∧ Arena.winner (getDuel duelId w') = winner
         ∧ Arena.concludedAt (getDuel duelId w') = now
         ∧ tokens w' !! Arena.token (Arena.duelOf (arena w) duelId) = Some tk'
         ∧ lastCalled (recordOf (behaviorController w') (Arena.this (arena w))
                         Arena.concludeDuel_selector) = now)
  ∧ (∀ (questId : uint256) (tk tk' : T) (paid : bool),
       isAllowed (Quest.this (quest w)) Quest.completeQuest_selector (behaviorController w)
       = true
       → hasRole (behaviorController w) TRUSTED_CALLER_ROLE (Quest.this (quest w)) = true
       → Spec.roomToRecord (behaviorController w) (Quest.this (quest w))
           Quest.completeQuest_selector
       → Quest.state (Quest.questOf (quest w) questId) = Quest.IN_PROGRESS
       → sender = Quest.participant (Quest.questOf (quest w) questId)
       → tokens w !! Quest.token (Quest.questOf (quest w) questId) = Some tk
       → transfer (Quest.this (quest w))
           (Quest.participant (Quest.questOf (quest w) questId))
           (Quest.reward (Quest.questOf (quest w) questId)) tk = Ok (paid, tk')
       → ∃ w',
           completeQuest sender now questId w = Ok w'
           ∧ Quest.state (getQuest questId w') = Quest.COMPLETED
           ∧ Quest.completedAt (getQuest questId w') = now
           ∧ tokens w' !! Quest.token (Quest.questOf (quest w) questId) = Some tk'
           ∧ lastCalled (recordOf (behaviorController w') (Quest.this (quest w))
                           Quest.completeQuest_selector) = now).
Proof.
  split.
  - intros duelId winner tk tk' paid. apply concludeDuel_allowed.
  - intros questId tk tk' paid. apply completeQuest_allowed.
Qed.

End EmbeddedGuard.

Section EmbeddedGuardOnTheFixture.

Import BehaviorController.

Lemma terminal_guard_consults_only_isAllowed_witness :
  checkRateLimit (Sample.t0 + 1) Sample.arenaAddress Arena.concludeDuel_selector
    (behaviorController (Sample.entitiesOpen Sample.exhausted)) = Ok false
  ∧ getRemainingGasBudget Sample.arenaAddress
      (behaviorController (Sample.entitiesOpen Sample.exhausted)) = 0
  ∧ ∃ w',
      concludeDuel Sample.signer (Sample.t0 + 1) 0 Sample.alice
        (Sample.entitiesOpen Sample.exhausted) = Ok w'
      ∧ Arena.state (getDuel 0 w') = Arena.CONCLUDED
      ∧ Arena.winner (getDuel 0 w') = Sample.alice
      ∧ Arena.concludedAt (getDuel 0 w') = Sample.t0 + 1
      ∧ tokens w' !! Arena.token (Arena.duelOf (arena (Sample.entitiesOpen Sample.exhausted)) 0)
        = Some (Sample.paidOut Sample.arenaAddress Sample.alice 20
                  (Sample.tokenIn (Sample.entitiesOpen Sample.exhausted)))
      ∧ lastCalled (recordOf (behaviorController w')
                      (Arena.this (arena (Sample.entitiesOpen Sample.exhausted)))
                      Arena.concludeDuel_selector) = Sample.t0 + 1.
Proof.
  split; [vm_compute; reflexivity|].
  split; [vm_compute; reflexivity|].
  refine (proj1 (terminal_guard_consults_only_isAllowed
                   (Sample.entitiesOpen Sample.exhausted) Sample.signer (Sample.t0 + 1))
            0 Sample.alice
            (Sample.tokenIn (Sample.entitiesOpen Sample.exhausted))
            (Sample.paidOut Sample.arenaAddress Sample.alice 20
               (Sample.tokenIn (Sample.entitiesOpen Sample.exhausted)))
            true _ _ _ _ _ _ _ _).
  - vm_compute. reflexivity.
  - vm_compute. reflexivity.
  - vm_compute. repeat split; discriminate.
  - vm_compute. reflexivity.
  - left. vm_compute. reflexivity.
  - vm_compute. discriminate.
  - vm_compute. reflexivity.
  - vm_compute. reflexivity.
Defined.

(** The same on the quest: its call recorded a second ago with the whole
    budget spent, the participant still completes it and is paid. *)
Example completeQuest_despite_rate_and_budget :
  let bc := commit (recordCallWithGas Sample.questAddress Sample.t0 Sample.questAddress
                      Quest.completeQuest_selector (5 * 10 ^ 17)) Sample.configured in
  let w := Sample.entitiesOpen bc in
  checkRateLimit (Sample.t0 + 1) Sample.questAddress Quest.completeQuest_selector
    (behaviorController w) = Ok false
  ∧ getRemainingGasBudget Sample.questAddress (behaviorController w) = 0
  ∧ succeeds (completeQuest Sample.bob (Sample.t0 + 1) 0 w) = true
  ∧ tokenView Sample.tokenAddress (balanceOf Sample.bob)
      (commit (completeQuest Sample.bob (Sample.t0 + 1) 0) w) = Ok 995.
Proof. vm_compute. repeat split. Qed.

End EmbeddedGuardOnTheFixture.

(** ** ExecutionPipeline *)

Section PipelineFacts.

Import BehaviorController BehaviorControllerFacts.

Context {T : Type} `{IERC20 T}.

Variable signer : address.
Variable contractAddresses : gmap string address.
Variable ethers_id4 : string → bytes4.
Variable describe : failure → string.
Variable invalidArgument : string.

Local Abbreviation validateExecution :=
  (Action.validateExecution (T:=T) contractAddresses ethers_id4 describe).
Local Abbreviation resolves := (Action.resolves contractAddresses ethers_id4).
Local Abbreviation execute :=
  (Action.execute signer contractAddresses ethers_id4 describe invalidArgument).

Local Abbreviation invalid reason := (Action.mkValidation false (Some reason)).
Local Abbreviation logged r evs := (Action.mkRun (Action.chain r) (Action.log r ++ evs)).

Local Ltac run_pipeline :=
  unfold Action.callView, Action.readController, Action.emit, Action.try_catch,
    Action.throw, Action.liftOutcome, mbind, mret, Action.P_bind, Action.P_ret;
  simpl.

Lemma validateExecution_resolved now plan target operation (r : Action.Run) :
  resolves plan target operation →
  let bc := behaviorController (Action.chain r) in
  validateExecution now plan r
  = if negb (isAllowed target operation bc) then
      (Action.Return (invalid "Action not allowed by BehaviorController"),
       logged r [Action.Call_isAllowed target operation])
    else
      match checkRateLimit now target operation bc with
      | Revert e =>
          (Action.Return (invalid ("Validation error: Error: " +:+ describe e)),
           logged r [Action.Call_isAllowed target operation;
                     Action.Call_checkRateLimit target operation])
      | Ok false =>
          (Action.Return (invalid "Rate limit exceeded"),
           logged r [Action.Call_isAllowed target operation;
                     Action.Call_checkRateLimit target operation])
      | Ok true =>
          (if getRemainingGasBudget target bc =? 0
           then Action.Return (invalid "Gas budget exhausted")
           else Action.Return (Action.mkValidation true None),
           logged r [Action.Call_isAllowed target operation;
                     Action.Call_checkRateLimit target operation;
                     Action.Call_getRemainingGasBudget target])
      end.
Proof.
  intros (name & Haction & Hne1 & Hne2 & Hparse) bc.
  unfold Action.validateExecution. rewrite Haction.
  rewrite (bool_decide_eq_false_2 _ Hne1), (bool_decide_eq_false_2 _ Hne2); simpl.
  rewrite Hparse. subst bc. run_pipeline.
  destruct (isAllowed target operation (behaviorController (Action.chain r)));
    simpl; [|done].
  rewrite <- ?app_assoc; simpl.
  destruct (checkRateLimit now target operation (behaviorController (Action.chain r)))
    as [[|]|e]; simpl; rewrite <- ?app_assoc; simpl; try done.
  by destruct (getRemainingGasBudget target (behaviorController (Action.chain r)) =? 0).
Qed.

(** Validation only reads: whatever the plan, it returns a verdict, leaves
    the chain alone and hands no transaction to the signer. *)
Lemma validateExecution_readonly now plan (r : Action.Run) :
  ∃ v evs,
    validateExecution now plan r = (Action.Return v, logged r evs)
    ∧ List.filter Action.isSend evs = [].
Proof.
  destruct (Action.action plan) as [name|] eqn:Haction.
  - destruct (decide (name = "")) as [Hempty | Hne1];
      [|destruct (decide (name = "observe")) as [Hobs | Hne2]].
    + exists (Action.mkValidation true None), []. rewrite app_nil_r.
      unfold Action.validateExecution. rewrite Haction, Hempty. by destruct r.
    + exists (Action.mkValidation true None), []. rewrite app_nil_r.
      unfold Action.validateExecution. rewrite Haction, Hobs. by destruct r.
    + destruct (Action.parseActionName contractAddresses ethers_id4 name)
        as [[target operation]|] eqn:Hparse.
      * assert (Hres : resolves plan target operation) by (by exists name).
        rewrite (validateExecution_resolved now plan target operation r Hres).
        cbv zeta.
        destruct (isAllowed target operation (behaviorController (Action.chain r)));
          simpl; [|by eexists _, _].
        destruct (checkRateLimit now target operation (behaviorController (Action.chain r)))
          as [[|]|e]; [|by eexists _, _|by eexists _, _].
        destruct (getRemainingGasBudget target (behaviorController (Action.chain r)) =? 0);
          by eexists _, _.
      * exists (invalid "Invalid action format"), []. rewrite app_nil_r.
        unfold Action.validateExecution. rewrite Haction.
        rewrite (bool_decide_eq_false_2 _ Hne1), (bool_decide_eq_false_2 _ Hne2); simpl.
        rewrite Hparse. run_pipeline. by destruct r.
  - exists (Action.mkValidation true None), []. rewrite app_nil_r.
    unfold Action.validateExecution. rewrite Haction. by destruct r.
Qed.

(** [execute] stops at a failed validation. *)
Lemma execute_validation_failed env plan (r r1 : Action.Run) (v : Action.Validation) :
  Action.action plan ≠ Some "observe" →
  validateExecution (Action.validatedAt env) plan (logged r [Action.GetBalance])
  = (Action.Return v, r1) →
  Action.valid v = false →
  execute env plan r
  = (Action.Return
       (Action.ExecutionResult.mk false
          (Some ("Validation failed: " +:+ default "undefined" (Action.reason v)))
          None (Action.action plan) None),
     r1).
Proof.
  intros Hobs Hval Hinvalid. unfold Action.execute.
  rewrite (bool_decide_eq_false_2 _ Hobs). run_pipeline.
  rewrite Hval. simpl. by rewrite Hinvalid.
Qed.

(** C6.  For a plan whose operation resolves, validation asks [isAllowed],
    then [checkRateLimit], then [getRemainingGasBudget], and stops at the
    first that fails: the log shows the calls made, and the verdict carries
    the reason of the failing check ([Action not allowed by
    BehaviorController] for NotAllowlisted, [Rate limit exceeded] for
    RateLimited, [Gas budget exhausted] for GasExhausted).  And whenever
    validation fails, [execute] returns a failure, the chain is what it was,
    and no transaction has been handed to the signer. *)
Theorem validation_order_and_rejection_without_effects (now : uint256) (env : Action.Env)
    (plan : Action.Plan) (target : address) (operation : bytes4) (r : Action.Run) :
  resolves plan target operation →
  (isAllowed target operation (behaviorController (Action.chain r)) = false
   → validateExecution now plan r
     = (Action.Return (invalid "Action not allowed by BehaviorController"),
        logged r [Action.Call_isAllowed target operation]))
  ∧ (isAllowed target operation (behaviorController (Action.chain r)) = true
     → checkRateLimit now target operation (behaviorController (Action.chain r)) = Ok false
     → validateExecution now plan r
       = (Action.Return (invalid "Rate limit exceeded"),
          logged r [Action.Call_isAllowed target operation;
                    Action.Call_checkRateLimit target operation]))
  ∧ (isAllowed target operation (behaviorController (Action.chain r)) = true
     → checkRateLimit now target operation (behaviorController (Action.chain r)) = Ok true
     → getRemainingGasBudget target (behaviorController (Action.chain r)) = 0
     → validateExecution now plan r
       = (Action.Return (invalid "Gas budget exhausted"),
          logged r [Action.Call_isAllowed target operation;
                    Action.Call_checkRateLimit target operation;
                    Action.Call_getRemainingGasBudget target]))
  ∧ (∀ (v : Action.Validation) (r1 : Action.Run),
       validateExecution (Action.validatedAt env) plan (logged r [Action.GetBalance])
       = (Action.Return v, r1)
       → Action.valid v = false
       → ∃ res,
           execute env plan r = (Action.Return res, r1)
           ∧ Action.ExecutionResult.success res = false
           ∧ Action.chain r1 = Action.chain r
           ∧ List.filter Action.isSend (Action.log r1)
             = List.filter Action.isSend (Action.log r)).
Proof.
  intros Hres. repeat split.
  - intros Hno. rewrite (validateExecution_resolved _ _ _ _ _ Hres). cbv zeta.
    by rewrite Hno.
  - intros Hyes Hrate. rewrite (validateExecution_resolved _ _ _ _ _ Hres). cbv zeta.
    by rewrite Hyes, Hrate.
  - intros Hyes Hrate Hgas. rewrite (validateExecution_resolved _ _ _ _ _ Hres). cbv zeta.
    by rewrite Hyes, Hrate, Hgas.
  - intros v r1 Hval Hinvalid.
    assert (Hobs : Action.action plan ≠ Some "observe").
    { destruct Hres as (name & -> & _ & Hne & _). congruence. }
    eexists. split; [by apply execute_validation_failed|]. split; [done|].
    destruct (validateExecution_readonly (Action.validatedAt env) plan
                (logged r [Action.GetBalance])) as (v' & evs & Hshape & Hnone).
    rewrite Hshape in Hval. injection Hval as _ <-. simpl. split; [done|].
    rewrite !List.filter_app, Hnone; simpl. by rewrite !app_nil_r.
Qed.

(** C4, as the code has it.  A policy that is active, lists the operation,
    has [dailyLimit = 1] and a non-zero rate; one call recorded at
    [calledAt], which opened the daily window.  A second call validated
    within the same 24 hours is rejected with the reason of the rate check,
    [Rate limit exceeded] (RateLimited): the pipeline has no reason of its
    own for the daily quota, no DailyLimitExceeded.  Once the window has rolled over, and gas budget remaining,
    validation passes, and the record of that call sets [dailyCount] to 1. *)
Theorem daily_quota_rejected_as_rate_limit (plan : Action.Plan) (target : address)
    (operation : bytes4) (r : Action.Run) (sender : address) (calledAt gasUsed : uint256)
    (bc0 : BehaviorController.t) :
  resolves plan target operation →
  recordCallWithGas sender calledAt target operation gasUsed bc0
  = Ok (behaviorController (Action.chain r)) →
  lastDayReset (recordOf bc0 target operation) + DAY <= calledAt →
  isAllowed target operation (behaviorController (Action.chain r)) = true →
  dailyCallLimit (policyOf (behaviorController (Action.chain r)) target) = 1 →
  0 < callRateLimit (policyOf (behaviorController (Action.chain r)) target) →
  calledAt + DAY <= U256.MAX →
  (∀ now : uint256,
     calledAt <= now < calledAt + DAY
     → validateExecution now plan r
       = (Action.Return (invalid "Rate limit exceeded"),
          logged r [Action.Call_isAllowed target operation;
                    Action.Call_checkRateLimit target operation]))
  ∧ (∀ now : uint256,
       calledAt + DAY <= now
       → getRemainingGasBudget target (behaviorController (Action.chain r)) ≠ 0
       → validateExecution now plan r
         = (Action.Return (Action.mkValidation true None),
            logged r [Action.Call_isAllowed target operation;
                      Action.Call_checkRateLimit target operation;
                      Action.Call_getRemainingGasBudget target])
         ∧ ∀ (caller : address) (gasUsed' : uint256),
             hasRole (behaviorController (Action.chain r)) TRUSTED_CALLER_ROLE caller = true
             → now <= U256.MAX
             → totalGasUsed (behaviorController (Action.chain r)) target + gasUsed'
               <= U256.MAX
             → ∃ bc',
                 recordCallWithGas caller now target operation gasUsed'
                   (behaviorController (Action.chain r)) = Ok bc'
                 ∧ dailyCount (recordOf bc' target operation) = 1).
Proof.
  intros Hres Hrec Hopened Hallowed Hdaily Hrate Hmax.
  set (bc := behaviorController (Action.chain r)) in *.
  assert (Hactive : isActive (policyOf bc target) = true).
  { unfold isAllowed in Hallowed. by apply andb_true_iff in Hallowed as [-> _]. }
  assert (Hrecord : recordOf bc target operation = mkCallRecord calledAt 1 calledAt).
  { apply recordCallWithGas_inv in Hrec as (_ & _ & _ & ->).
    rewrite recordOf_setTotalGasUsed, recordOf_setRecordOf.
    assert ((calledAt >=? lastDayReset (recordOf bc0 target operation) + DAY) = true) as ->
      by (rewrite Z.geb_leb; by apply Z.leb_le).
    reflexivity. }
  assert (Hcheck : ∀ now, calledAt <= now →
            checkRateLimit now target operation bc
            = Ok ((now - calledAt >? 60 / callRateLimit (policyOf bc target))
                  && (now >=? calledAt + DAY))).
  { intros now Hnow. rewrite checkRateLimit_throttled.
    - unfold Spec.minuteOk, Spec.dailyOk. rewrite Hrecord, Hdaily; simpl.
      by rewrite orb_false_r.
    - done.
    - lia.
    - rewrite Hrecord; simpl. lia.
    - rewrite Hrecord; simpl. lia. }
  split.
  - intros now [Hafter Hwithin].
    rewrite (validateExecution_resolved _ _ _ _ _ Hres). cbv zeta. fold bc.
    rewrite Hallowed, (Hcheck now Hafter); simpl.
    assert ((now >=? calledAt + DAY) = false) as ->
      by (rewrite Z.geb_leb; apply Z.leb_gt; lia).
    by rewrite andb_false_r.
  - intros now Hrolled Hbudget. split.
    + rewrite (validateExecution_resolved _ _ _ _ _ Hres). cbv zeta. fold bc.
      assert (calledAt <= now) as Hafter by (unfold DAY in *; lia).
      rewrite Hallowed, (Hcheck now Hafter); simpl.
      assert ((now >=? calledAt + DAY) = true) as ->
        by (rewrite Z.geb_leb; apply Z.leb_le; lia).
      assert ((now - calledAt >? 60 / callRateLimit (policyOf bc target)) = true) as ->.
      { rewrite Z.gtb_ltb. apply Z.ltb_lt.
        assert (60 / callRateLimit (policyOf bc target) <= 60)
          by (apply Z.div_le_upper_bound; lia).
        unfold DAY in *. lia. }
      simpl. by rewrite (proj2 (Z.eqb_neq _ _) Hbudget).
    + intros caller gasUsed' Hrole Hnow Hgas. eexists. split.
      * apply recordCallWithGas_Ok; [done | | | done]; rewrite Hrecord; simpl; lia.
      * rewrite recordOf_setTotalGasUsed, recordOf_setRecordOf, Hrecord; simpl.
        assert ((now >=? calledAt + DAY) = true) as ->
          by (rewrite Z.geb_leb; apply Z.leb_le; lia).
        reflexivity.
Qed.

End PipelineFacts.

Section PipelineOnTheFixture.

Import BehaviorController.

Example concludePlan_resolves :
  Action.resolves Sample.addresses Sample.ethers_id4 Sample.concludePlan
    Sample.arenaAddress Sample.concludeOperation.
Proof. exists "Arena_concludeDuel". repeat split; [discriminate | discriminate]. Qed.

(** C4, as the specification states it, fails.  With [dailyLimit = 1] used
    up and the spacing respected, the second call is rejected with
    [Rate limit exceeded], the very reason a call gets that comes too soon
    under a daily limit of 100; with [rateLimit = 0] it is not rejected at
    all; and after the window has rolled over, a call whose target has no
    budget left does not pass validation. *)
Lemma daily_limit_has_no_reason_of_its_own :
  Sample.verdict (Sample.t0 + 100) (Sample.agentCalledOnce (Sample.agentPolicy (10 ^ 18) 10 1))
  = Action.Return (Action.mkValidation false (Some "Rate limit exceeded"))
  ∧ Sample.verdict (Sample.t0 + 3)
      (Sample.agentCalledOnce (Sample.agentPolicy (10 ^ 18) 10 100))
    = Action.Return (Action.mkValidation false (Some "Rate limit exceeded"))
  ∧ Sample.verdict (Sample.t0 + 100)
      (Sample.agentCalledOnce (Sample.agentPolicy (10 ^ 18) 0 1))
    = Action.Return (Action.mkValidation true None)
  ∧ Sample.verdict (Sample.t0 + DAY)
      (Sample.agentCalledOnce (Sample.agentPolicy 21000 10 1))
    = Action.Return (Action.mkValidation false (Some "Gas budget exhausted")).
Proof. vm_compute. repeat split. Qed.

Lemma daily_quota_rejected_as_rate_limit_witness :
  Action.validateExecution Sample.addresses Sample.ethers_id4 Sample.describe
    (Sample.t0 + 100) Sample.concludePlan
    (Sample.runOn (Sample.agentCalledOnce (Sample.agentPolicy (10 ^ 18) 10 1)))
  = (Action.Return (Action.mkValidation false (Some "Rate limit exceeded")),
     Action.mkRun
       (Action.chain
          (Sample.runOn (Sample.agentCalledOnce (Sample.agentPolicy (10 ^ 18) 10 1))))
       (Action.log
          (Sample.runOn (Sample.agentCalledOnce (Sample.agentPolicy (10 ^ 18) 10 1)))
        ++ [Action.Call_isAllowed Sample.arenaAddress Sample.concludeOperation;
            Action.Call_checkRateLimit Sample.arenaAddress Sample.concludeOperation])).
Proof.
  refine (proj1 (daily_quota_rejected_as_rate_limit Sample.addresses Sample.ethers_id4
                   Sample.describe Sample.concludePlan Sample.arenaAddress
                   Sample.concludeOperation
                   (Sample.runOn (Sample.agentCalledOnce (Sample.agentPolicy (10 ^ 18) 10 1)))
                   Sample.signer Sample.t0 21000 (Sample.agentPolicy (10 ^ 18) 10 1)
                   concludePlan_resolves _ _ _ _ _ _) (Sample.t0 + 100) _).
  - vm_compute. reflexivity.
  - vm_compute. discriminate.
  - vm_compute. reflexivity.
  - vm_compute. reflexivity.
  - vm_compute. reflexivity.
  - vm_compute. discriminate.
  - vm_compute. split; [discriminate | reflexivity].
Defined.

Lemma validation_order_and_rejection_without_effects_witness :
  Action.validateExecution Sample.addresses Sample.ethers_id4 Sample.describe
    (Sample.t0 + 3) Sample.concludePlan
    (Sample.runOn (Sample.agentCalledOnce (Sample.agentPolicy (10 ^ 18) 10 100)))
  = (Action.Return (Action.mkValidation false (Some "Rate limit exceeded")),
     Action.mkRun
       (Action.chain
          (Sample.runOn (Sample.agentCalledOnce (Sample.agentPolicy (10 ^ 18) 10 100))))
       (Action.log
          (Sample.runOn (Sample.agentCalledOnce (Sample.agentPolicy (10 ^ 18) 10 100)))
        ++ [Action.Call_isAllowed Sample.arenaAddress Sample.concludeOperation;
            Action.Call_checkRateLimit Sample.arenaAddress Sample.concludeOperation])).
Proof.
  refine (proj1 (proj2 (validation_order_and_rejection_without_effects Sample.signer
                          Sample.addresses Sample.ethers_id4 Sample.describe
                          Sample.invalidArgument (Sample.t0 + 3)
                          (Action.mkEnv (Sample.t0 + 3) (Sample.t0 + 4) (Sample.t0 + 5)
                             (10 ^ 18) (10 ^ 18 - 21000))
                          Sample.concludePlan Sample.arenaAddress Sample.concludeOperation
                          (Sample.runOn
                             (Sample.agentCalledOnce (Sample.agentPolicy (10 ^ 18) 10 100)))
                          concludePlan_resolves)) _ _).
  - vm_compute. reflexivity.
  - vm_compute. reflexivity.
Defined.

(** [execute] on the fixture: three seconds after the recorded call the
    plan is turned away and nothing is sent; seven seconds after, the
    transaction goes out (and reverts, no duel having been created). *)
Example execute_rejected_then_sent :
  let run := Sample.runOn (Sample.agentCalledOnce (Sample.agentPolicy (10 ^ 18) 10 100)) in
  let exec now :=
    Action.execute Sample.signer Sample.addresses Sample.ethers_id4 Sample.describe
      Sample.invalidArgument
      (Action.mkEnv now (now + 1) (now + 2) (10 ^ 18) (10 ^ 18 - 21000))
      Sample.concludePlan run in
  Action.ExecutionResult.error (match (exec (Sample.t0 + 3)).1 with
                                | Action.Return res => res
                                | Action.Throw _ => Action.ExecutionResult.mk true None None None None
                                end)
  = Some "Validation failed: Rate limit exceeded"
  ∧ Action.log (exec (Sample.t0 + 3)).2
    = [Action.GetBalance;
       Action.Call_isAllowed Sample.arenaAddress Sample.concludeOperation;
       Action.Call_checkRateLimit Sample.arenaAddress Sample.concludeOperation]
  ∧ Action.chain (exec (Sample.t0 + 3)).2 = Action.chain run
  ∧ Action.log (exec (Sample.t0 + 7)).2
    = [Action.GetBalance;
       Action.Call_isAllowed Sample.arenaAddress Sample.concludeOperation;
       Action.Call_checkRateLimit Sample.arenaAddress Sample.concludeOperation;
       Action.Call_getRemainingGasBudget Sample.arenaAddress;
       Action.SendTransaction (Arena_concludeDuel 0 Sample.alice)].
Proof. vm_compute. repeat split. Qed.

End PipelineOnTheFixture.

(** ** Usage over whole histories *)

Section UsageHistory.

Import BehaviorController BehaviorControllerFacts.

Context {T : Type} `{IERC20 T}.

Local Ltac bind_inv Hrun :=
  unfold mbind, result_bind in Hrun;
  lazymatch type of Hrun with
  | match ?x with Ok _ => _ | Revert _ => _ end = Ok _ =>
      let E := fresh "E" in
      destruct x eqn:E; [simpl in Hrun; bind_inv E; bind_inv Hrun | discriminate Hrun]
  | _ => idtac
  end.

Lemma tokenCall_controller (tokenAddress : address) (call : T → result (bool * T))
    (w w' : World T) :
  tokenCall tokenAddress call w = Ok w' → behaviorController w' = behaviorController w.
Proof.
  unfold tokenCall. destruct (tokens w !! tokenAddress) as [tk|]; [|done].
  intros Hrun. bind_inv Hrun. by injection Hrun as <-.
Qed.

Lemma recordCall_usage sender now a s (bc bc' : t) target :
  recordCall sender now a s bc = Ok bc' →
  totalGasUsed bc target <= totalGasUsed bc' target.
Proof.
  rewrite recordCall_unfold. intros Hrun.
  apply recordCallWithGas_inv in Hrun as (_ & _ & _ & ->).
  destruct (decide (a = target)) as [-> | Hne].
  - rewrite totalGasUsed_setTotalGasUsed. lia.
  - rewrite totalGasUsed_setTotalGasUsed_ne by done. reflexivity.
Qed.

(** No transaction of the system lowers the usage of any target. *)
Lemma transact_usage_monotone (sender : address) (now : uint256) (c : Call) (w : World T)
    (target : address) :
  wellTypedCall c →
  totalGasUsed (behaviorController w) target
  <= totalGasUsed (behaviorController (commit (transact sender now c) w)) target.
Proof.
  intros Htyped. unfold commit.
  destruct (transact sender now c w) as [w'|] eqn:Hrun; [|reflexivity].
  destruct c; simpl in Hrun, Htyped;
    unfold onRegistry, onController, createDuel, acceptDuel, concludeDuel, createQuest,
      acceptQuest, completeQuest, setPolicy, activatePolicy, deactivatePolicy,
      grantTrustedCallerRole, revokeTrustedCallerRole in Hrun;
    bind_inv Hrun; simplify_eq/=;
    repeat match goal with
           | E : tokenCall _ _ _ = Ok _ |- _ =>
               rewrite (tokenCall_controller _ _ _ _ E); clear E; simpl
           end;
    try reflexivity.
  - match goal with E : recordCall _ _ _ _ _ = Ok _ |- _ =>
      exact (recordCall_usage _ _ _ _ _ _ target E) end.
  - match goal with E : recordCall _ _ _ _ _ = Ok _ |- _ =>
      exact (recordCall_usage _ _ _ _ _ _ target E) end.
  - match goal with E : recordCall _ _ _ _ _ = Ok _ |- _ =>
      exact (recordCall_usage _ _ _ _ _ _ target E) end.
  - match goal with E : recordCallWithGas _ _ _ _ _ _ = Ok _ |- _ =>
      apply recordCallWithGas_inv in E as (_ & _ & _ & ->) end.
    destruct (decide (contractAddress = target)) as [-> | Hne].
    + rewrite totalGasUsed_setTotalGasUsed. lia.
    + rewrite totalGasUsed_setTotalGasUsed_ne by done. reflexivity.
Qed.

(** [cumulativeUsed] is monotone along every history of transactions,
    reverted ones included. *)
Lemma history_usage_monotone (txs : list (address * uint256 * Call)) (w : World T)
    (target : address) :
  Forall (λ tx, wellTypedCall tx.2) txs →
  totalGasUsed (behaviorController w) target
  <= totalGasUsed (behaviorController (history txs w)) target.
Proof.
  intros Htyped. revert w. induction Htyped as [|[[sender now] c] txs Hc _ IH]; intros w.
  - reflexivity.
  - simpl. etransitivity; [|apply IH]. by apply transact_usage_monotone.
Qed.

(** C8.  [getRemainingGasBudget] is [gasBudget - cumulativeUsed] as long as
    usage does not exceed the budget and [0] beyond; it is never negative;
    and a recorded call, whether it goes through or reverts, never lowers
    [cumulativeUsed]: when it goes through it adds exactly the amount
    passed.  Nor does any other transaction: [cumulativeUsed] is monotone
    along every history of the chain. *)
Theorem remaining_budget_clamped_usage_monotone (bc : BehaviorController.t)
    (target : address) :
  (totalGasUsed bc target <= gasBudget (policyOf bc target)
   → getRemainingGasBudget target bc = gasBudget (policyOf bc target) - totalGasUsed bc target)
  ∧ (gasBudget (policyOf bc target) < totalGasUsed bc target
     → getRemainingGasBudget target bc = 0)
  ∧ 0 <= getRemainingGasBudget target bc
  ∧ (∀ (sender : address) (now : uint256) (a : address) (s : bytes4) (gasUsed : uint256),
       0 <= gasUsed
       → totalGasUsed bc target
         <= totalGasUsed (commit (recordCallWithGas sender now a s gasUsed) bc) target)
  ∧ (∀ (sender : address) (now : uint256) (s : bytes4) (gasUsed : uint256)
       (bc' : BehaviorController.t),
       recordCallWithGas sender now target s gasUsed bc = Ok bc'
       → totalGasUsed bc' target = totalGasUsed bc target + gasUsed)
  ∧ (∀ (txs : list (address * uint256 * Call)) (w : World T),
       behaviorController w = bc
       → Forall (λ tx, wellTypedCall tx.2) txs
       → totalGasUsed bc target
         <= totalGasUsed (behaviorController (history txs w)) target).
Proof.
  unfold getRemainingGasBudget. repeat split.
  - intros Hle. destruct (gasBudget (policyOf bc target) >? totalGasUsed bc target) eqn:E.
    + reflexivity.
    + rewrite Z.gtb_ltb in E. apply Z.ltb_ge in E. lia.
  - intros Hlt. destruct (gasBudget (policyOf bc target) >? totalGasUsed bc target) eqn:E.
    + rewrite Z.gtb_ltb in E. apply Z.ltb_lt in E. lia.
    + reflexivity.
  - destruct (gasBudget (policyOf bc target) >? totalGasUsed bc target) eqn:E.
    + rewrite Z.gtb_ltb in E. apply Z.ltb_lt in E. lia.
    + lia.
  - intros sender now a s gasUsed Hgas. unfold commit.
    destruct (recordCallWithGas sender now a s gasUsed bc) as [bc'|] eqn:Hrun; [|lia].
    apply recordCallWithGas_inv in Hrun as (_ & _ & _ & ->).
    destruct (decide (a = target)) as [-> | Hne].
    + rewrite totalGasUsed_setTotalGasUsed. lia.
    + rewrite totalGasUsed_setTotalGasUsed_ne by done.
      rewrite totalGasUsed_setRecordOf. lia.
  - intros sender now s gasUsed bc' Hrun.
    apply recordCallWithGas_inv in Hrun as (_ & _ & _ & ->).
    by rewrite totalGasUsed_setTotalGasUsed.
  - intros txs w <- Htyped. by apply history_usage_monotone.
Qed.

End UsageHistory.

Section UsageOnTheFixture.

Import BehaviorController.

Lemma remaining_budget_clamped_usage_monotone_witness :
  getRemainingGasBudget Sample.arenaAddress Sample.configured
  = gasBudget (policyOf Sample.configured Sample.arenaAddress)
    - totalGasUsed Sample.configured Sample.arenaAddress.
Proof.
  refine (proj1 (remaining_budget_clamped_usage_monotone (T:=MockERC20.t)
                   Sample.configured Sample.arenaAddress) _).
  vm_compute. discriminate.
Defined.

(** The budget of the fixture's arena, one unit of gas short of the budget,
    at it, and past it. *)
Example remaining_budget_around_the_limit :
  let spent gas :=
    commit (recordCallWithGas Sample.arenaAddress Sample.t0 Sample.arenaAddress
              Arena.concludeDuel_selector gas) Sample.configured in
  getRemainingGasBudget Sample.arenaAddress (spent (10 ^ 18 - 1)) = 1
  ∧ getRemainingGasBudget Sample.arenaAddress (spent (10 ^ 18)) = 0
  ∧ getRemainingGasBudget Sample.arenaAddress (spent (10 ^ 18 + 1)) = 0.
Proof. vm_compute. repeat split. Qed.

End UsageOnTheFixture.

(** * Further properties of the code *)

(** ** The controller beyond the claims *)

Section ControllerAccess.

Import BehaviorController BehaviorControllerFacts.

(** Every function of the controller that writes is behind a role: called
    by an account that lacks it, it reverts with
    [AccessControlUnauthorizedAccount] naming the account and the role, and
    a call that went through was made by a holder of the role. *)
Theorem writes_are_role_gated (sender : address) (bc : t) :
  (hasRole bc POLICY_MANAGER_ROLE sender = false
   → ∀ target methods g r d,
       setPolicy sender target methods g r d bc
       = Revert (AccessControlUnauthorizedAccount sender POLICY_MANAGER_ROLE)
       ∧ activatePolicy sender target bc
         = Revert (AccessControlUnauthorizedAccount sender POLICY_MANAGER_ROLE)
       ∧ deactivatePolicy sender target bc
         = Revert (AccessControlUnauthorizedAccount sender POLICY_MANAGER_ROLE))
  ∧ (hasRole bc TRUSTED_CALLER_ROLE sender = false
     → ∀ now target operation gasUsed,
         recordCall sender now target operation bc
         = Revert (AccessControlUnauthorizedAccount sender TRUSTED_CALLER_ROLE)
         ∧ recordCallWithGas sender now target operation gasUsed bc
           = Revert (AccessControlUnauthorizedAccount sender TRUSTED_CALLER_ROLE))
  ∧ (hasRole bc DEFAULT_ADMIN_ROLE sender = false
     → ∀ account,
         grantTrustedCallerRole sender account bc
         = Revert (AccessControlUnauthorizedAccount sender DEFAULT_ADMIN_ROLE)
         ∧ revokeTrustedCallerRole sender account bc
           = Revert (AccessControlUnauthorizedAccount sender DEFAULT_ADMIN_ROLE))
  ∧ (∀ now target operation gasUsed bc',
       recordCallWithGas sender now target operation gasUsed bc = Ok bc'
       → hasRole bc TRUSTED_CALLER_ROLE sender = true)
  ∧ (∀ target methods g r d bc',
       setPolicy sender target methods g r d bc = Ok bc'
       → hasRole bc POLICY_MANAGER_ROLE sender = true).
Proof.
  split; [|split; [|split; [|split]]].
  - intros Hno target methods g r d.
    unfold setPolicy, activatePolicy, deactivatePolicy, onlyRole. by rewrite Hno.
  - intros Hno now target operation gasUsed.
    unfold recordCall, recordCallWithGas, onlyRole. by rewrite Hno.
  - intros Hno account.
    unfold grantTrustedCallerRole, revokeTrustedCallerRole, onlyRole. by rewrite Hno.
  - intros now target operation gasUsed bc' Hrun.
    by apply recordCallWithGas_inv in Hrun as (Hrole & _).
  - intros target methods g r d bc'. unfold setPolicy, onlyRole.
    by destruct (hasRole bc POLICY_MANAGER_ROLE sender).
Qed.

Lemma writes_are_role_gated_witness :
  recordCall Sample.signer Sample.t0 Sample.arenaAddress Arena.concludeDuel_selector
    Sample.configured
  = Revert (AccessControlUnauthorizedAccount Sample.signer TRUSTED_CALLER_ROLE)
  ∧ recordCallWithGas Sample.signer Sample.t0 Sample.arenaAddress
      Arena.concludeDuel_selector 21000 Sample.configured
    = Revert (AccessControlUnauthorizedAccount Sample.signer TRUSTED_CALLER_ROLE).
Proof.
  refine (proj1 (proj2 (writes_are_role_gated Sample.signer Sample.configured)) _
            Sample.t0 Sample.arenaAddress Arena.concludeDuel_selector 21000).
  vm_compute. reflexivity.
Defined.

(** A call recorded inside the running window counts one more call and
    leaves the window where it is; nothing but this pair's record and this
    target's gas total is written. *)
Theorem recordCall_within_window_counts (sender : address) (now : uint256)
    (target : address) (operation : bytes4) (gasUsed : uint256) (bc : t) :
  hasRole bc TRUSTED_CALLER_ROLE sender = true →
  now < lastDayReset (recordOf bc target operation) + DAY →
  lastDayReset (recordOf bc target operation) + DAY <= U256.MAX →
  dailyCount (recordOf bc target operation) + 1 <= U256.MAX →
  totalGasUsed bc target + gasUsed <= U256.MAX →
  ∃ bc',
    recordCallWithGas sender now target operation gasUsed bc = Ok bc'
    ∧ recordOf bc' target operation
      = mkCallRecord now (dailyCount (recordOf bc target operation) + 1)
          (lastDayReset (recordOf bc target operation))
    ∧ totalGasUsed bc' target = totalGasUsed bc target + gasUsed
    ∧ (∀ a s, (target, operation) ≠ (a, s) → recordOf bc' a s = recordOf bc a s)
    ∧ (∀ a, target ≠ a → totalGasUsed bc' a = totalGasUsed bc a)
    ∧ (∀ a, policyOf bc' a = policyOf bc a)
    ∧ _roles bc' = _roles bc.
Proof.
  intros Hrole Hwithin Hday Hcount Hgas. eexists. split.
  - apply recordCallWithGas_Ok; [done | done | by intros _ | done].
  - assert ((now >=? lastDayReset (recordOf bc target operation) + DAY) = false) as ->
      by (rewrite Z.geb_leb; apply Z.leb_gt; lia).
    split; [by rewrite recordOf_setTotalGasUsed, recordOf_setRecordOf|].
    split; [by rewrite totalGasUsed_setTotalGasUsed|].
    split; [|split; [|split; [done|done]]].
    + intros a s Hne. rewrite recordOf_setTotalGasUsed.
      by apply recordOf_setRecordOf_ne.
    + intros a Hne. rewrite totalGasUsed_setTotalGasUsed_ne by done.
      apply totalGasUsed_setRecordOf.
Qed.

Lemma recordCall_within_window_counts_witness :
  ∃ bc',
    recordCallWithGas Sample.arenaAddress (Sample.t0 + 3600) Sample.arenaAddress
      Arena.concludeDuel_selector 21000 (Sample.calledOnce Sample.configured) = Ok bc'
    ∧ recordOf bc' Sample.arenaAddress Arena.concludeDuel_selector
      = mkCallRecord (Sample.t0 + 3600)
          (dailyCount (recordOf (Sample.calledOnce Sample.configured) Sample.arenaAddress
                         Arena.concludeDuel_selector) + 1)
          (lastDayReset (recordOf (Sample.calledOnce Sample.configured)
                           Sample.arenaAddress Arena.concludeDuel_selector))
    ∧ totalGasUsed bc' Sample.arenaAddress
      = totalGasUsed (Sample.calledOnce Sample.configured) Sample.arenaAddress + 21000
    ∧ (∀ a s, (Sample.arenaAddress, Arena.concludeDuel_selector) ≠ (a, s)
              → recordOf bc' a s = recordOf (Sample.calledOnce Sample.configured) a s)
    ∧ (∀ a, Sample.arenaAddress ≠ a
            → totalGasUsed bc' a = totalGasUsed (Sample.calledOnce Sample.configured) a)
    ∧ (∀ a, policyOf bc' a = policyOf (Sample.calledOnce Sample.configured) a)
    ∧ _roles bc' = _roles (Sample.calledOnce Sample.configured).
Proof.
  refine (recordCall_within_window_counts Sample.arenaAddress (Sample.t0 + 3600)
            Sample.arenaAddress Arena.concludeDuel_selector 21000
            (Sample.calledOnce Sample.configured) _ _ _ _ _).
  - vm_compute. reflexivity.
  - vm_compute. reflexivity.
  - vm_compute. discriminate.
  - vm_compute. discriminate.
  - vm_compute. discriminate.
Defined.

(** Deactivation is a veto that can be lifted without loss: switching an
    active policy off and on again gives back the very storage there was.
    In between, nothing is allowed for the target. *)
Theorem deactivate_then_activate_restores (manager target : address) (bc : t) :
  hasRole bc POLICY_MANAGER_ROLE manager = true →
  isActive (policyOf bc target) = true →
  ∃ off,
    deactivatePolicy manager target bc = Ok off
    ∧ (∀ operation, isAllowed target operation off = false)
    ∧ (∀ now operation, checkRateLimit now target operation off = Ok false)
    ∧ activatePolicy manager target off = Ok bc.
Proof.
  intros Hrole Hactive. eexists. split; [|split; [|split]].
  - unfold deactivatePolicy. by rewrite (onlyRole_Ok _ _ _ Hrole).
  - intros operation. unfold isAllowed. by rewrite policyOf_setPolicyOf.
  - intros now operation. unfold checkRateLimit. by rewrite policyOf_setPolicyOf.
  - unfold activatePolicy.
    assert (Hrole' : hasRole (setPolicyOf target (setActive false (policyOf bc target)) bc)
                       POLICY_MANAGER_ROLE manager = true) by exact Hrole.
    rewrite (onlyRole_Ok _ _ _ Hrole'); simpl. f_equal.
    rewrite policyOf_setPolicyOf. unfold setPolicyOf; simpl.
    rewrite insert_insert_eq.
    assert (Hstored : _policies bc !! target = Some (policyOf bc target)).
    { unfold policyOf in *. destruct (_policies bc !! target); [done|].
      simpl in Hactive. discriminate. }
    assert (Hsame : setActive true (setActive false (policyOf bc target))
                    = policyOf bc target).
    { destruct (policyOf bc target); simpl in *. by rewrite Hactive. }
    rewrite Hsame, (insert_id _ _ _ Hstored). by destruct bc.
Qed.

Lemma deactivate_then_activate_restores_witness :
  ∃ off,
    deactivatePolicy Sample.admin Sample.arenaAddress Sample.configured = Ok off
    ∧ (∀ operation, isAllowed Sample.arenaAddress operation off = false)
    ∧ (∀ now operation, checkRateLimit now Sample.arenaAddress operation off = Ok false)
    ∧ activatePolicy Sample.admin Sample.arenaAddress off = Ok Sample.configured.
Proof.
  refine (deactivate_then_activate_restores Sample.admin Sample.arenaAddress
            Sample.configured _ _).
  - vm_compute. reflexivity.
  - vm_compute. reflexivity.
Defined.

End ControllerAccess.

Section ControllerLedger.

Import BehaviorController BehaviorControllerFacts.

(** Issuing a policy again does not start the books afresh: call records,
    gas totals, roles and the policies of other targets are what they were,
    and the new budget is charged with all the gas already recorded. *)
Theorem setPolicy_keeps_the_ledger (sender target : address) (allowedMethods : list bytes4)
    (gasBudget' callRateLimit' dailyCallLimit' : uint256) (bc bc' : t) :
  setPolicy sender target allowedMethods gasBudget' callRateLimit' dailyCallLimit' bc
  = Ok bc' →
  (∀ a s, recordOf bc' a s = recordOf bc a s)
  ∧ (∀ a, totalGasUsed bc' a = totalGasUsed bc a)
  ∧ (∀ a, target ≠ a → policyOf bc' a = policyOf bc a)
  ∧ _roles bc' = _roles bc
  ∧ getRemainingGasBudget target bc'
    = (if gasBudget' >? totalGasUsed bc target
       then gasBudget' - totalGasUsed bc target else 0).
Proof.
  unfold setPolicy. destruct (onlyRole POLICY_MANAGER_ROLE sender bc) as [[]|]; [|done].
  simpl. intros [= <-]. split; [done|]. split; [done|]. split; [|split; [done|]].
  - intros a Hne. by apply policyOf_setPolicyOf_ne.
  - unfold getRemainingGasBudget. by rewrite policyOf_setPolicyOf.
Qed.

Lemma setPolicy_keeps_the_ledger_witness :
  getRemainingGasBudget Sample.arenaAddress
    (commit (setPolicy Sample.admin Sample.arenaAddress [] 30000 10 100)
       (Sample.agentCalledOnce
          (commit (grantTrustedCallerRole Sample.admin Sample.signer) Sample.configured)))
  = (if 30000 >? totalGasUsed
                   (Sample.agentCalledOnce
                      (commit (grantTrustedCallerRole Sample.admin Sample.signer)
                         Sample.configured)) Sample.arenaAddress
     then 30000 - totalGasUsed
                    (Sample.agentCalledOnce
                       (commit (grantTrustedCallerRole Sample.admin Sample.signer)
                          Sample.configured)) Sample.arenaAddress
     else 0).
Proof.
  refine (proj2 (proj2 (proj2 (proj2
            (setPolicy_keeps_the_ledger Sample.admin Sample.arenaAddress [] 30000 10 100
               (Sample.agentCalledOnce
                  (commit (grantTrustedCallerRole Sample.admin Sample.signer)
                     Sample.configured))
               (commit (setPolicy Sample.admin Sample.arenaAddress [] 30000 10 100)
                  (Sample.agentCalledOnce
                     (commit (grantTrustedCallerRole Sample.admin Sample.signer)
                        Sample.configured))) _))))).
  vm_compute. reflexivity.
Defined.

(** The spacing between calls is the integer quotient [60 / rateLimit]: the
    check passes from [60 / rateLimit + 1] seconds after the last recorded
    call on.  Above 60 calls per minute the quotient is 0: the only call
    turned away is one in the very second of the last. *)
Theorem minute_spacing_is_the_integer_quotient (now : uint256) (target : address)
    (operation : bytes4) (bc : t) :
  isActive (policyOf bc target) = true →
  0 < callRateLimit (policyOf bc target) →
  lastCalled (recordOf bc target operation) <= now →
  (0 < dailyCallLimit (policyOf bc target)
   → lastDayReset (recordOf bc target operation) + DAY <= U256.MAX) →
  Spec.dailyOk now (policyOf bc target) (recordOf bc target operation) = true →
  (checkRateLimit now target operation bc = Ok true
   ↔ 60 / callRateLimit (policyOf bc target) + 1
     <= now - lastCalled (recordOf bc target operation))
  ∧ (checkRateLimit now target operation bc = Ok false
     ↔ now - lastCalled (recordOf bc target operation)
       <= 60 / callRateLimit (policyOf bc target))
  ∧ (60 < callRateLimit (policyOf bc target)
     → checkRateLimit now target operation bc
       = Ok (bool_decide (lastCalled (recordOf bc target operation) < now))).
Proof.
  intros Hactive Hrate Hlast Hday Hdaily.
  rewrite checkRateLimit_throttled by (done || lia).
  rewrite Hdaily, andb_true_r. unfold Spec.minuteOk. rewrite Z.gtb_ltb.
  split; [|split].
  - split.
    + intros [= Hlt]. apply Z.ltb_lt in Hlt. lia.
    + intros Hle. f_equal. apply Z.ltb_lt. lia.
  - split.
    + intros [= Hge]. apply Z.ltb_ge in Hge. lia.
    + intros Hle. f_equal. apply Z.ltb_ge. lia.
  - intros Hfast. rewrite (Z.div_small 60) by lia. f_equal.
    destruct (bool_decide_reflect (lastCalled (recordOf bc target operation) < now)).
    + apply Z.ltb_lt. lia.
    + apply Z.ltb_ge. lia.
Qed.

Lemma minute_spacing_is_the_integer_quotient_witness :
  checkRateLimit (Sample.t0 + 1) Sample.arenaAddress Arena.concludeDuel_selector
    (Sample.calledOnce (Sample.configuredWith (10 ^ 18) 120 0))
  = Ok (bool_decide
          (lastCalled (recordOf (Sample.calledOnce (Sample.configuredWith (10 ^ 18) 120 0))
                         Sample.arenaAddress Arena.concludeDuel_selector)
           < Sample.t0 + 1)).
Proof.
  refine (proj2 (proj2 (minute_spacing_is_the_integer_quotient (Sample.t0 + 1)
            Sample.arenaAddress Arena.concludeDuel_selector
            (Sample.calledOnce (Sample.configuredWith (10 ^ 18) 120 0)) _ _ _ _ _)) _).
  - vm_compute. reflexivity.
  - vm_compute. reflexivity.
  - vm_compute. discriminate.
  - intros _. vm_compute. discriminate.
  - vm_compute. reflexivity.
  - vm_compute. reflexivity.
Defined.

(** An operation that was never recorded is let through by an active,
    throttled policy at any block time of a day or more: the unwritten
    record reads as a last call and a window start at time 0. *)
Theorem never_recorded_operation_passes (now : uint256) (target : address)
    (operation : bytes4) (bc : t) :
  isActive (policyOf bc target) = true →
  0 < callRateLimit (policyOf bc target) →
  _callRecords bc !! (target, operation) = None →
  DAY <= now →
  checkRateLimit now target operation bc = Ok true.
Proof.
  intros Hactive Hrate Hnone Hnow.
  assert (Hrecord : recordOf bc target operation = noRecord)
    by (unfold recordOf; by rewrite Hnone).
  rewrite checkRateLimit_throttled; rewrite ?Hrecord; simpl;
    [| done | lia | unfold DAY in *; lia | intros _; by vm_compute].
  unfold Spec.minuteOk, Spec.dailyOk; simpl. f_equal.
  assert ((now >=? 0 + DAY) = true) as ->
    by (rewrite Z.geb_leb; apply Z.leb_le; lia).
  rewrite orb_true_r, andb_true_r. rewrite Z.gtb_ltb. apply Z.ltb_lt.
  assert (60 / callRateLimit (policyOf bc target) <= 60)
    by (apply Z.div_le_upper_bound; lia).
  unfold DAY in *. lia.
Qed.

Lemma never_recorded_operation_passes_witness :
  checkRateLimit Sample.t0 Sample.arenaAddress Arena.concludeDuel_selector
    Sample.configured = Ok true.
Proof.
  refine (never_recorded_operation_passes Sample.t0 Sample.arenaAddress
            Arena.concludeDuel_selector Sample.configured _ _ _ _).
  - vm_compute. reflexivity.
  - vm_compute. reflexivity.
  - vm_compute. reflexivity.
  - vm_compute. discriminate.
Defined.

(** Activating a target that was never given a policy authorises nothing:
    the policy that appears has an empty allowlist and no budget, although
    [checkRateLimit], which only sees an active policy without a rate,
    answers [true]. *)
Theorem activating_an_unconfigured_target_allows_nothing (manager target : address)
    (bc : t) :
  hasRole bc POLICY_MANAGER_ROLE manager = true →
  _policies bc !! target = None →
  0 <= totalGasUsed bc target →
  ∃ bc',
    activatePolicy manager target bc = Ok bc'
    ∧ isActive (policyOf bc' target) = true
    ∧ (∀ operation, isAllowed target operation bc' = false)
    ∧ (∀ now operation, checkRateLimit now target operation bc' = Ok true)
    ∧ getRemainingGasBudget target bc' = 0.
Proof.
  intros Hrole Hnone Hused. eexists. unfold activatePolicy.
  rewrite (onlyRole_Ok _ _ _ Hrole); simpl. split; [reflexivity|].
  assert (Hpolicy : policyOf bc target = noPolicy)
    by (unfold policyOf; by rewrite Hnone).
  rewrite Hpolicy. split; [|split; [|split]].
  - by rewrite policyOf_setPolicyOf.
  - intros operation. unfold isAllowed. by rewrite policyOf_setPolicyOf.
  - intros now operation. unfold checkRateLimit. by rewrite policyOf_setPolicyOf.
  - unfold getRemainingGasBudget. rewrite policyOf_setPolicyOf; simpl.
    change (totalGasUsed (setPolicyOf target (setActive true noPolicy) bc) target)
      with (totalGasUsed bc target).
    assert ((0 >? totalGasUsed bc target) = false) as ->
      by (rewrite Z.gtb_ltb; apply Z.ltb_ge; lia).
    reflexivity.
Qed.

Lemma activating_an_unconfigured_target_allows_nothing_witness :
  ∃ bc',
    activatePolicy Sample.admin Sample.tokenAddress Sample.configured = Ok bc'
    ∧ isActive (policyOf bc' Sample.tokenAddress) = true
    ∧ (∀ operation, isAllowed Sample.tokenAddress operation bc' = false)
    ∧ (∀ now operation, checkRateLimit now Sample.tokenAddress operation bc' = Ok true)
    ∧ getRemainingGasBudget Sample.tokenAddress bc' = 0.
Proof.
  refine (activating_an_unconfigured_target_allows_nothing Sample.admin
            Sample.tokenAddress Sample.configured _ _ _).
  - vm_compute. reflexivity.
  - vm_compute. reflexivity.
  - vm_compute. discriminate.
Defined.

End ControllerLedger.

(** ** The entities beyond the claims *)

Section EntityLifeCycle.

Import BehaviorController BehaviorControllerFacts.

Context {T : Type} `{IERC20 T}.

Local Ltac bind_inv Hrun :=
  unfold mbind, result_bind in Hrun;
  lazymatch type of Hrun with
  | match ?x with Ok _ => _ | Revert _ => _ end = Ok _ =>
      let E := fresh "E" in
      destruct x eqn:E; [simpl in Hrun; bind_inv E; bind_inv Hrun | discriminate Hrun]
  | _ => idtac
  end.

Local Ltac unfold_calls Hrun :=
  unfold onRegistry, onController, createDuel, acceptDuel, concludeDuel, createQuest,
    acceptQuest, completeQuest in Hrun.

Lemma tokenCall_frame (tokenAddress : address) (call : T → result (bool * T))
    (w w' : World T) :
  tokenCall tokenAddress call w = Ok w' →
  behaviorController w' = behaviorController w ∧ arena w' = arena w
  ∧ quest w' = quest w ∧ registry w' = registry w.
Proof.
  unfold tokenCall. destruct (tokens w !! tokenAddress) as [tk|]; [|done].
  intros Hrun. bind_inv Hrun. by injection Hrun as <-.
Qed.

Lemma require_inv (cond : bool) (reason : string) (u : unit) :
  require cond reason = Ok u → cond = true.
Proof. unfold require. by destruct cond. Qed.

Lemma duelEvolves_refl d : duelEvolves d d.
Proof. by repeat split. Qed.

Lemma duelEvolves_trans d1 d2 d3 : duelEvolves d1 d2 → duelEvolves d2 d3 → duelEvolves d1 d3.
Proof.
  intros (Hp & Ht & Hw & Hc & Hr) (Hp' & Ht' & Hw' & Hc' & Hr').
  repeat split; [congruence | congruence | congruence | congruence | lia].
Qed.

Lemma transact_duel_evolves (sender : address) (now : uint256) (c : Call) (w : World T)
    (duelId : uint256) :
  duelId < Arena._nextDuelId (arena w) →
  duelId < Arena._nextDuelId (arena (commit (transact sender now c) w))
  ∧ duelEvolves (Arena.duelOf (arena w) duelId)
      (Arena.duelOf (arena (commit (transact sender now c) w)) duelId).
Proof.
  intros Hcreated. unfold commit.
  destruct (transact sender now c w) as [w'|] eqn:Hrun;
    [|split; [done | apply duelEvolves_refl]].
  destruct c; simpl in Hrun; unfold_calls Hrun; bind_inv Hrun; simplify_eq/=;
    repeat match goal with
           | E : tokenCall _ _ _ = Ok _ |- _ =>
               apply tokenCall_frame in E as (? & ? & ? & ?)
           end;
    repeat match goal with
           | E : require _ _ = Ok _ |- _ => apply require_inv in E
           end;
    try (split; [done | apply duelEvolves_refl]).
  - (* createDuel *)
    match goal with E : arena _ = arena w |- _ => rewrite E in * end.
    match goal with E : U256.add _ 1 = Ok _ |- _ => apply add_inv in E as [-> _] end.
    split; [lia|]. unfold Arena.duelOf; simpl.
    rewrite lookup_insert_ne by lia. apply duelEvolves_refl.
  - (* acceptDuel *)
    match goal with E : arena _ = arena w |- _ => rewrite E in * end.
    split; [done|]. unfold Arena.duelOf at 2, Arena.setDuel; simpl.
    destruct (decide (duelId0 = duelId)) as [-> | Hne].
    + rewrite lookup_insert_eq; simpl.
      match goal with E : bool_decide (Arena.state _ = Arena.PENDING) = true |- _ =>
        apply bool_decide_eq_true_1 in E; unfold duelEvolves; simpl; rewrite E end.
      repeat split. simpl. lia.
    + rewrite lookup_insert_ne by done. apply duelEvolves_refl.
  - (* concludeDuel *)
    match goal with E : arena _ = arena _ |- _ => rewrite E in *; simpl in * end.
    split; [done|]. unfold Arena.duelOf at 2, Arena.setDuel; simpl.
    destruct (decide (duelId0 = duelId)) as [-> | Hne].
    + rewrite lookup_insert_eq; simpl.
      match goal with E : bool_decide (Arena.state _ = Arena.ACTIVE) = true |- _ =>
        apply bool_decide_eq_true_1 in E; unfold duelEvolves; simpl; rewrite E end.
      repeat split. simpl. lia.
    + rewrite lookup_insert_ne by done. apply duelEvolves_refl.
  - (* createQuest *)
    match goal with E : arena _ = arena w |- _ => rewrite E in * end.
    split; [done | apply duelEvolves_refl].
  - (* completeQuest *)
    match goal with E : arena _ = arena _ |- _ => rewrite E in *; simpl in * end.
    split; [done | apply duelEvolves_refl].
Qed.

Lemma history_duel_evolves (txs : list (address * uint256 * Call)) (w : World T)
    (duelId : uint256) :
  duelId < Arena._nextDuelId (arena w) →
  duelId < Arena._nextDuelId (arena (history txs w))
  ∧ duelEvolves (Arena.duelOf (arena w) duelId)
      (Arena.duelOf (arena (history txs w)) duelId).
Proof.
  revert w. induction txs as [|[[sender now] c] txs IH]; intros w Hcreated.
  - split; [done | apply duelEvolves_refl].
  - simpl. destruct (transact_duel_evolves sender now c w duelId Hcreated) as [Hlt Hstep].
    destruct (IH _ Hlt) as [Hlt' Hrest].
    split; [done | by eapply duelEvolves_trans].
Qed.

(** A duel that has been created keeps its parties, its token, its wager
    and its creation time through every history of transactions, and its
    state only moves forward: PENDING, ACTIVE, CONCLUDED. *)
Theorem created_duel_only_moves_forward (txs : list (address * uint256 * Call))
    (w : World T) (duelId : uint256) :
  duelId < Arena._nextDuelId (arena w) →
  Arena.players (getDuel duelId (history txs w)) = Arena.players (getDuel duelId w)
  ∧ Arena.token (getDuel duelId (history txs w)) = Arena.token (getDuel duelId w)
  ∧ Arena.wager (getDuel duelId (history txs w)) = Arena.wager (getDuel duelId w)
  ∧ Arena.createdAt (getDuel duelId (history txs w)) = Arena.createdAt (getDuel duelId w)
  ∧ (duelRank (Arena.state (getDuel duelId w))
     ≤ duelRank (Arena.state (getDuel duelId (history txs w))))%nat.
Proof.
  intros Hcreated. by destruct (history_duel_evolves txs w duelId Hcreated) as [_ Hev].
Qed.

Lemma duelOf_setDuel duelId d a : Arena.duelOf (Arena.setDuel duelId d a) duelId = d.
Proof. unfold Arena.duelOf, Arena.setDuel; simpl. by rewrite lookup_insert_eq. Qed.

Lemma concludeDuel_inv sender now duelId winner (w w' : World T) :
  concludeDuel sender now duelId winner w = Ok w' →
  isAllowed (Arena.this (arena w)) Arena.concludeDuel_selector (behaviorController w) = true
  ∧ Arena.state (Arena.duelOf (arena w) duelId) = Arena.ACTIVE
  ∧ (winner = (Arena.players (Arena.duelOf (arena w) duelId)).1
     ∨ winner = (Arena.players (Arena.duelOf (arena w) duelId)).2)
  ∧ Arena.state (Arena.duelOf (arena w') duelId) = Arena.CONCLUDED
  ∧ Arena.winner (Arena.duelOf (arena w') duelId) = winner
  ∧ Arena._nextDuelId (arena w') = Arena._nextDuelId (arena w)
  ∧ recordCall (Arena.this (arena w)) now (Arena.this (arena w)) Arena.concludeDuel_selector
      (behaviorController w) = Ok (behaviorController w').
Proof.
  intros Hrun. unfold concludeDuel in Hrun. bind_inv Hrun.
  repeat match goal with
         | E : require _ _ = Ok _ |- _ => apply require_inv in E
         end.
  apply tokenCall_frame in Hrun as (Hbc & Harena & _ & _). simpl in *.
  rewrite Harena, Hbc, !duelOf_setDuel; simpl.
  match goal with E : bool_decide (Arena.state _ = Arena.ACTIVE) = true |- _ =>
    apply bool_decide_eq_true_1 in E end.
  match goal with E : _ || _ = true |- _ =>
    apply orb_true_iff in E as [E | E]; apply bool_decide_eq_true_1 in E end;
    repeat split; auto.
Qed.

(** A duel is concluded once.  After a conclusion has gone through, no
    later [concludeDuel] on that duel does, whoever sends it and whatever
    has happened on the chain in between: the stake is paid out one time. *)
Theorem duel_is_concluded_once (sender : address) (now duelId : uint256) (winner : address)
    (w w' : World T) :
  duelId < Arena._nextDuelId (arena w) →
  concludeDuel sender now duelId winner w = Ok w' →
  ∀ (txs : list (address * uint256 * Call)) (sender' : address) (now' : uint256)
    (winner' : address),
    succeeds (concludeDuel sender' now' duelId winner' (history txs w')) = false.
Proof.
  intros Hcreated Hrun txs sender' now' winner'.
  apply concludeDuel_inv in Hrun as (_ & _ & _ & Hdone & _ & Hnext & _).
  assert (Hcreated' : duelId < Arena._nextDuelId (arena w')) by (by rewrite Hnext).
  destruct (history_duel_evolves txs w' duelId Hcreated') as [_ (_ & _ & _ & _ & Hrank)].
  rewrite Hdone in Hrank.
  destruct (concludeDuel sender' now' duelId winner' (history txs w')) as [w''|] eqn:Hagain;
    [|done].
  apply concludeDuel_inv in Hagain as (_ & Hactive & _).
  rewrite Hactive in Hrank. simpl in Hrank. lia.
Qed.

(** A duel that was never created cannot be entered: [acceptDuel] on its
    id reverts for every sender but the zero address, and [concludeDuel]
    never goes through. *)
Theorem never_created_duel_is_inert (sender : address) (now duelId : uint256)
    (winner : address) (w : World T) :
  Arena._duels (arena w) !! duelId = None →
  (sender ≠ 0 → acceptDuel sender duelId w = Revert (Require "Not your duel"))
  ∧ succeeds (concludeDuel sender now duelId winner w) = false.
Proof.
  intros Hnone.
  assert (Hduel : Arena.duelOf (arena w) duelId = Arena.noDuel)
    by (unfold Arena.duelOf; by rewrite Hnone).
  split.
  - intros Hsender. unfold acceptDuel. rewrite Hduel; simpl.
    by rewrite (bool_decide_eq_false_2 _ Hsender).
  - destruct (concludeDuel sender now duelId winner w) as [w'|] eqn:Hrun; [|done].
    apply concludeDuel_inv in Hrun as (_ & Hactive & _).
    rewrite Hduel in Hactive. discriminate.
Qed.



(** *** Quests *)

Lemma questOf_setQuest questId q qs : Quest.questOf (Quest.setQuest questId q qs) questId = q.
Proof. unfold Quest.questOf, Quest.setQuest; simpl. by rewrite lookup_insert_eq. Qed.

Lemma questEvolves_refl q : questEvolves q q.
Proof. by repeat split. Qed.

Lemma questEvolves_trans q1 q2 q3 :
  questEvolves q1 q2 → questEvolves q2 q3 → questEvolves q1 q3.
Proof.
  intros (Hc & Ht & Hr & Ha & Hm & Hk & Hp) (Hc' & Ht' & Hr' & Ha' & Hm' & Hk' & Hp').
  split; [congruence|]. split; [congruence|]. split; [congruence|].
  split; [congruence|]. split; [congruence|]. split; [lia|].
  intros Htaken. rewrite Hp' by lia. by apply Hp.
Qed.

Lemma transact_quest_evolves (sender : address) (now : uint256) (c : Call) (w : World T)
    (questId : uint256) :
  questId < Quest._nextQuestId (quest w) →
  questId < Quest._nextQuestId (quest (commit (transact sender now c) w))
  ∧ questEvolves (Quest.questOf (quest w) questId)
      (Quest.questOf (quest (commit (transact sender now c) w)) questId).
Proof.
  intros Hcreated. unfold commit.
  destruct (transact sender now c w) as [w'|] eqn:Hrun;
    [|split; [done | apply questEvolves_refl]].
  destruct c; simpl in Hrun; unfold_calls Hrun; bind_inv Hrun; simplify_eq/=;
    repeat match goal with
           | E : tokenCall _ _ _ = Ok _ |- _ =>
               apply tokenCall_frame in E as (? & ? & ? & ?)
           end;
    repeat match goal with
           | E : require _ _ = Ok _ |- _ => apply require_inv in E
           end;
    repeat match goal with
           | E : quest _ = _ |- _ => rewrite E in *; simpl in *
           end;
    try (split; [done | apply questEvolves_refl]).
  - (* createQuest *)
    match goal with E : U256.add _ 1 = Ok _ |- _ => apply add_inv in E as [-> _] end.
    split; [lia|]. unfold Quest.questOf; simpl.
    rewrite lookup_insert_ne by lia. apply questEvolves_refl.
  - (* acceptQuest *)
    split; [done|].
    destruct (decide (questId0 = questId)) as [-> | Hne].
    + rewrite questOf_setQuest.
      match goal with E : bool_decide (Quest.state _ = Quest.OPEN) = true |- _ =>
        apply bool_decide_eq_true_1 in E; unfold questEvolves; simpl; rewrite E end.
      repeat split; simpl; lia.
    + unfold Quest.questOf, Quest.setQuest; simpl.
      rewrite lookup_insert_ne by done. apply questEvolves_refl.
  - (* completeQuest *)
    split; [done|].
    destruct (decide (questId0 = questId)) as [-> | Hne].
    + rewrite questOf_setQuest.
      match goal with E : bool_decide (Quest.state _ = Quest.IN_PROGRESS) = true |- _ =>
        apply bool_decide_eq_true_1 in E; unfold questEvolves; simpl; rewrite E end.
      repeat split; simpl; lia.
    + unfold Quest.questOf, Quest.setQuest; simpl.
      rewrite lookup_insert_ne by done. apply questEvolves_refl.
Qed.

Lemma history_quest_evolves (txs : list (address * uint256 * Call)) (w : World T)
    (questId : uint256) :
  questId < Quest._nextQuestId (quest w) →
  questId < Quest._nextQuestId (quest (history txs w))
  ∧ questEvolves (Quest.questOf (quest w) questId)
      (Quest.questOf (quest (history txs w)) questId).
Proof.
  revert w. induction txs as [|[[sender now] c] txs IH]; intros w Hcreated.
  - split; [done | apply questEvolves_refl].
  - simpl. destruct (transact_quest_evolves sender now c w questId Hcreated) as [Hlt Hstep].
    destruct (IH _ Hlt) as [Hlt' Hrest].
    split; [done | by eapply questEvolves_trans].
Qed.

(** A quest that has been created keeps its creator, token, reward,
    creation time and metadata through every history, its state only moves
    forward (OPEN, IN_PROGRESS, COMPLETED), and once it has been taken its
    participant, the account the reward goes to, never changes. *)
Theorem created_quest_only_moves_forward (txs : list (address * uint256 * Call))
    (w : World T) (questId : uint256) :
  questId < Quest._nextQuestId (quest w) →
  Quest.creator (getQuest questId (history txs w)) = Quest.creator (getQuest questId w)
  ∧ Quest.token (getQuest questId (history txs w)) = Quest.token (getQuest questId w)
  ∧ Quest.reward (getQuest questId (history txs w)) = Quest.reward (getQuest questId w)
  ∧ Quest.createdAt (getQuest questId (history txs w))
    = Quest.createdAt (getQuest questId w)
  ∧ Quest.metadataUri (getQuest questId (history txs w))
    = Quest.metadataUri (getQuest questId w)
  ∧ (questRank (Quest.state (getQuest questId w))
     ≤ questRank (Quest.state (getQuest questId (history txs w))))%nat
  ∧ ((1 ≤ questRank (Quest.state (getQuest questId w)))%nat
     → Quest.participant (getQuest questId (history txs w))
       = Quest.participant (getQuest questId w)).
Proof.
  intros Hcreated. by destruct (history_quest_evolves txs w questId Hcreated) as [_ Hev].
Qed.

End EntityLifeCycle.

Section EntityLifeCycleOnTheFixture.

Lemma created_duel_only_moves_forward_witness :
  Arena.players (getDuel 0 (history [(Sample.signer, (Sample.t0 + 60)%Z,
                                       Arena_concludeDuel 0 Sample.alice)]
                              (Sample.entitiesOpen Sample.configured)))
  = Arena.players (getDuel 0 (Sample.entitiesOpen Sample.configured))
  ∧ Arena.token (getDuel 0 (history [(Sample.signer, (Sample.t0 + 60)%Z,
                                       Arena_concludeDuel 0 Sample.alice)]
                              (Sample.entitiesOpen Sample.configured)))
    = Arena.token (getDuel 0 (Sample.entitiesOpen Sample.configured))
  ∧ Arena.wager (getDuel 0 (history [(Sample.signer, (Sample.t0 + 60)%Z,
                                       Arena_concludeDuel 0 Sample.alice)]
                              (Sample.entitiesOpen Sample.configured)))
    = Arena.wager (getDuel 0 (Sample.entitiesOpen Sample.configured))
  ∧ Arena.createdAt (getDuel 0 (history [(Sample.signer, (Sample.t0 + 60)%Z,
                                           Arena_concludeDuel 0 Sample.alice)]
                                  (Sample.entitiesOpen Sample.configured)))
    = Arena.createdAt (getDuel 0 (Sample.entitiesOpen Sample.configured))
  ∧ (duelRank (Arena.state (getDuel 0 (Sample.entitiesOpen Sample.configured)))
     ≤ duelRank (Arena.state (getDuel 0 (history [(Sample.signer, (Sample.t0 + 60)%Z,
                                                    Arena_concludeDuel 0 Sample.alice)]
                                           (Sample.entitiesOpen Sample.configured)))))%nat.
Proof.
  refine (created_duel_only_moves_forward
            [(Sample.signer, (Sample.t0 + 60)%Z, Arena_concludeDuel 0 Sample.alice)]
            (Sample.entitiesOpen Sample.configured) 0 _).
  vm_compute. reflexivity.
Defined.

Lemma duel_is_concluded_once_witness :
  succeeds (concludeDuel Sample.bob (Sample.t0 + 200) 0 Sample.bob
              (history [(Sample.bob, Sample.t0 + 100, Arena_acceptDuel 0)]
                 (commit (concludeDuel Sample.signer ((Sample.t0 + 60)%Z) 0 Sample.alice)
                    (Sample.entitiesOpen Sample.configured)))) = false.
Proof.
  refine (duel_is_concluded_once Sample.signer ((Sample.t0 + 60)%Z) 0 Sample.alice
            (Sample.entitiesOpen Sample.configured)
            (commit (concludeDuel Sample.signer ((Sample.t0 + 60)%Z) 0 Sample.alice)
               (Sample.entitiesOpen Sample.configured)) _ _
            [(Sample.bob, Sample.t0 + 100, Arena_acceptDuel 0)]
            Sample.bob (Sample.t0 + 200) Sample.bob).
  - vm_compute. reflexivity.
  - vm_compute. reflexivity.
Defined.

Lemma never_created_duel_is_inert_witness :
  acceptDuel Sample.bob 7 (Sample.entitiesOpen Sample.configured)
  = Revert (Require "Not your duel").
Proof.
  refine (proj1 (never_created_duel_is_inert Sample.bob Sample.t0 7 Sample.bob
                   (Sample.entitiesOpen Sample.configured) _) _).
  - vm_compute. reflexivity.
  - discriminate.
Defined.



End EntityLifeCycleOnTheFixture.

Section EntityEdges.

Import BehaviorController BehaviorControllerFacts.

Context {T : Type} `{IERC20 T}.

Local Ltac bind_inv Hrun :=
  unfold mbind, result_bind in Hrun;
  lazymatch type of Hrun with
  | match ?x with Ok _ => _ | Revert _ => _ end = Ok _ =>
      let E := fresh "E" in
      destruct x eqn:E; [simpl in Hrun; bind_inv E; bind_inv Hrun | discriminate Hrun]
  | _ => idtac
  end.

Lemma completeQuest_inv sender now questId (w w' : World T) :
  completeQuest sender now questId w = Ok w' →
  isAllowed (Quest.this (quest w)) Quest.completeQuest_selector (behaviorController w) = true
  ∧ Quest.state (Quest.questOf (quest w) questId) = Quest.IN_PROGRESS
  ∧ sender = Quest.participant (Quest.questOf (quest w) questId)
  ∧ Quest.state (Quest.questOf (quest w') questId) = Quest.COMPLETED
  ∧ Quest._nextQuestId (quest w') = Quest._nextQuestId (quest w)
  ∧ recordCall (Quest.this (quest w)) now (Quest.this (quest w))
      Quest.completeQuest_selector (behaviorController w) = Ok (behaviorController w').
Proof.
  intros Hrun. unfold completeQuest in Hrun. bind_inv Hrun.
  repeat match goal with
         | E : require _ _ = Ok _ |- _ => apply require_inv in E
         end.
  apply tokenCall_frame in Hrun as (Hbc & _ & Hquest & _). simpl in *.
  rewrite Hquest, Hbc, !questOf_setQuest; simpl.
  repeat match goal with
         | E : bool_decide _ = true |- _ => apply bool_decide_eq_true_1 in E
         end.
  repeat split; auto.
Qed.

(** A quest is completed once: after a completion has gone through, no
    later [completeQuest] on that quest does, whatever has happened in
    between; the reward is paid one time. *)
Theorem quest_is_completed_once (sender : address) (now questId : uint256)
    (w w' : World T) :
  questId < Quest._nextQuestId (quest w) →
  completeQuest sender now questId w = Ok w' →
  ∀ (txs : list (address * uint256 * Call)) (sender' : address) (now' : uint256),
    succeeds (completeQuest sender' now' questId (history txs w')) = false.
Proof.
  intros Hcreated Hrun txs sender' now'.
  apply completeQuest_inv in Hrun as (_ & _ & _ & Hdone & Hnext & _).
  assert (Hcreated' : questId < Quest._nextQuestId (quest w')) by (by rewrite Hnext).
  destruct (history_quest_evolves txs w' questId Hcreated')
    as [_ (_ & _ & _ & _ & _ & Hrank & _)].
  rewrite Hdone in Hrank.
  destruct (completeQuest sender' now' questId (history txs w')) as [w''|] eqn:Hagain;
    [|done].
  apply completeQuest_inv in Hagain as (_ & Hactive & _).
  rewrite Hactive in Hrank. simpl in Hrank. lia.
Qed.

(** [acceptQuest] does not ask whether the quest exists.  On an id that was
    never created it goes through for any sender and leaves a quest
    IN_PROGRESS with no creator, token or reward; and should that id be the
    next one to be given out, the [createQuest] that takes it writes a fresh
    OPEN quest over the acceptance. *)
Theorem acceptQuest_takes_a_quest_never_created (sender : address) (questId : uint256)
    (w : World T) :
  Quest._quests (quest w) !! questId = None →
  ∃ w',
    acceptQuest sender questId w = Ok w'
    ∧ getQuest questId w'
      = Quest.mkQuestData 0 sender 0 0 Quest.IN_PROGRESS 0 0 ""
    ∧ Quest._nextQuestId (quest w') = Quest._nextQuestId (quest w)
    ∧ (questId = Quest._nextQuestId (quest w)
       → ∀ creator now tokenAddress reward metadataUri newId w'',
           createQuest creator now tokenAddress reward metadataUri w' = Ok (newId, w'')
           → newId = questId
             ∧ getQuest questId w''
               = Quest.mkQuestData creator 0 tokenAddress reward Quest.OPEN now 0
                   metadataUri).
Proof.
  intros Hnone.
  assert (Hquest : Quest.questOf (quest w) questId = Quest.noQuest)
    by (unfold Quest.questOf; by rewrite Hnone).
  eexists. unfold acceptQuest. rewrite Hquest; simpl.
  split; [reflexivity|]. split; [|split; [done|]].
  - unfold getQuest; simpl. by rewrite questOf_setQuest.
  - intros -> creator now tokenAddress reward metadataUri newId w'' Hrun.
    unfold createQuest in Hrun. bind_inv Hrun.
    match goal with E : tokenCall _ _ _ = Ok _ |- _ =>
      apply tokenCall_frame in E as (_ & _ & Hq & _) end.
    injection Hrun as <- <-. rewrite Hq; simpl. split; [done|].
    unfold getQuest, Quest.questOf; simpl. by rewrite lookup_insert_eq.
Qed.

(** The record the entities write for themselves carries no gas: a
    conclusion or a completion that goes through leaves every target's gas
    total, remaining budget and policy as they were.  The budget of a
    target is only ever charged by [recordCallWithGas]. *)
Theorem embedded_guard_spends_no_budget (sender : address) (now : uint256)
    (w w' : World T) :
  (∃ duelId winner, concludeDuel sender now duelId winner w = Ok w')
  ∨ (∃ questId, completeQuest sender now questId w = Ok w') →
  ∀ a,
    totalGasUsed (behaviorController w') a = totalGasUsed (behaviorController w) a
    ∧ getRemainingGasBudget a (behaviorController w')
      = getRemainingGasBudget a (behaviorController w)
    ∧ policyOf (behaviorController w') a = policyOf (behaviorController w) a.
Proof.
  intros Hrun a.
  assert (Hrec : ∃ self operation,
            recordCall self now self operation (behaviorController w)
            = Ok (behaviorController w')).
  { destruct Hrun as [(duelId & winner & Hd) | (questId & Hq)].
    - apply concludeDuel_inv in Hd as (_ & _ & _ & _ & _ & _ & Hd). eauto.
    - apply completeQuest_inv in Hq as (_ & _ & _ & _ & _ & Hq). eauto. }
  destruct Hrec as (self & operation & Hrec). rewrite recordCall_unfold in Hrec.
  pose proof (recordCallWithGas_policyOf _ _ _ _ _ _ _ a Hrec) as Hpolicy.
  apply recordCallWithGas_inv in Hrec as (_ & _ & _ & Hbc).
  assert (Hused : totalGasUsed (behaviorController w') a
                  = totalGasUsed (behaviorController w) a).
  { rewrite Hbc. destruct (decide (self = a)) as [-> | Hne].
    - rewrite totalGasUsed_setTotalGasUsed. lia.
    - by rewrite totalGasUsed_setTotalGasUsed_ne. }
  split; [done|]. split; [|done].
  unfold getRemainingGasBudget. by rewrite Hpolicy, Hused.
Qed.

Local Ltac unfold_calls Hrun :=
  unfold onRegistry, onController, createDuel, acceptDuel, concludeDuel, createQuest,
    acceptQuest, completeQuest, setPolicy, activatePolicy, deactivatePolicy,
    grantTrustedCallerRole, revokeTrustedCallerRole in Hrun.

Lemma transact_allowlist (sender : address) (now : uint256) (c : Call) (w : World T)
    (target : address) (operation : bytes4) :
  allowlisted (policyOf (behaviorController w) target) operation = true →
  allowlisted (policyOf (behaviorController (commit (transact sender now c) w)) target)
    operation = true.
Proof.
  intros Hlisted. unfold commit.
  destruct (transact sender now c w) as [w'|] eqn:Hrun; [|done].
  destruct c; simpl in Hrun; unfold_calls Hrun; bind_inv Hrun; simplify_eq/=;
    repeat match goal with
           | E : tokenCall _ _ _ = Ok _ |- _ =>
               apply tokenCall_frame in E as (-> & _ & _ & _); simpl
           end;
    repeat match goal with
           | E : recordCall _ _ _ _ _ = Ok _ |- _ => rewrite recordCall_unfold in E
           end;
    repeat match goal with
           | E : recordCallWithGas _ _ _ _ _ _ = Ok _ |- _ =>
               rewrite (recordCallWithGas_policyOf _ _ _ _ _ _ _ target E); clear E
           end;
    try done.
  - (* setPolicy *)
    destruct (decide (contractAddress = target)) as [-> | Hne].
    + rewrite policyOf_setPolicyOf. unfold allowlisted; simpl.
      apply allowEach_lookup. by right.
    + by rewrite policyOf_setPolicyOf_ne.
  - (* activatePolicy *)
    destruct (decide (contractAddress = target)) as [-> | Hne].
    + by rewrite policyOf_setPolicyOf.
    + by rewrite policyOf_setPolicyOf_ne.
  - (* deactivatePolicy *)
    destruct (decide (contractAddress = target)) as [-> | Hne].
    + by rewrite policyOf_setPolicyOf.
    + by rewrite policyOf_setPolicyOf_ne.
Qed.

(** Nothing takes an operation off an allowlist.  Through every history of
    transactions an operation once allowlisted for a target stays so: a
    later [setPolicy] only adds, and the one way to withdraw an
    authorisation is to deactivate the whole policy. *)
Theorem allowlist_never_shrinks (txs : list (address * uint256 * Call)) (w : World T)
    (target : address) (operation : bytes4) :
  allowlisted (policyOf (behaviorController w) target) operation = true →
  allowlisted (policyOf (behaviorController (history txs w)) target) operation = true
  ∧ isAllowed target operation (behaviorController (history txs w))
    = isActive (policyOf (behaviorController (history txs w)) target).
Proof.
  intros Hlisted.
  assert (Hafter : allowlisted (policyOf (behaviorController (history txs w)) target)
                     operation = true).
  { revert w Hlisted. induction txs as [|[[sender now] c] txs IH]; intros w Hlisted.
    - done.
    - simpl. apply IH. by apply transact_allowlist. }
  split; [done|]. unfold isAllowed. by rewrite Hafter, andb_true_r.
Qed.

End EntityEdges.

Section EntityEdgesOnTheFixture.

Import BehaviorController.

Lemma created_quest_only_moves_forward_witness :
  Quest.reward (getQuest 0 (history [(Sample.bob, (Sample.t0 + 60)%Z, Quest_completeQuest 0)]
                              (Sample.entitiesOpen Sample.configured)))
  = Quest.reward (getQuest 0 (Sample.entitiesOpen Sample.configured)).
Proof.
  refine (proj1 (proj2 (proj2 (created_quest_only_moves_forward
            [(Sample.bob, (Sample.t0 + 60)%Z, Quest_completeQuest 0)]
            (Sample.entitiesOpen Sample.configured) 0 _)))).
  vm_compute. reflexivity.
Defined.

Lemma quest_is_completed_once_witness :
  succeeds (completeQuest Sample.bob (Sample.t0 + 200) 0
              (history [(Sample.alice, Sample.t0 + 100, Quest_acceptQuest 0)]
                 (commit (completeQuest Sample.bob (Sample.t0 + 60) 0)
                    (Sample.entitiesOpen Sample.configured)))) = false.
Proof.
  refine (quest_is_completed_once Sample.bob (Sample.t0 + 60) 0
            (Sample.entitiesOpen Sample.configured)
            (commit (completeQuest Sample.bob (Sample.t0 + 60) 0)
               (Sample.entitiesOpen Sample.configured)) _ _
            [(Sample.alice, Sample.t0 + 100, Quest_acceptQuest 0)]
            Sample.bob (Sample.t0 + 200)).
  - vm_compute. reflexivity.
  - vm_compute. reflexivity.
Defined.

Lemma acceptQuest_takes_a_quest_never_created_witness :
  ∃ w',
    acceptQuest Sample.bob 1 (Sample.entitiesOpen Sample.configured) = Ok w'
    ∧ getQuest 1 w' = Quest.mkQuestData 0 Sample.bob 0 0 Quest.IN_PROGRESS 0 0 ""
    ∧ Quest._nextQuestId (quest w')
      = Quest._nextQuestId (quest (Sample.entitiesOpen Sample.configured))
    ∧ (1 = Quest._nextQuestId (quest (Sample.entitiesOpen Sample.configured))
       → ∀ creator now tokenAddress reward metadataUri newId w'',
           createQuest creator now tokenAddress reward metadataUri w' = Ok (newId, w'')
           → newId = 1
             ∧ getQuest 1 w''
               = Quest.mkQuestData creator 0 tokenAddress reward Quest.OPEN now 0
                   metadataUri).
Proof.
  refine (acceptQuest_takes_a_quest_never_created Sample.bob 1
            (Sample.entitiesOpen Sample.configured) _).
  vm_compute. reflexivity.
Defined.

Lemma embedded_guard_spends_no_budget_witness :
  getRemainingGasBudget Sample.arenaAddress
    (behaviorController (commit (concludeDuel Sample.signer (Sample.t0 + 60) 0 Sample.alice)
                           (Sample.entitiesOpen Sample.configured)))
  = getRemainingGasBudget Sample.arenaAddress
      (behaviorController (Sample.entitiesOpen Sample.configured)).
Proof.
  refine (proj1 (proj2 (embedded_guard_spends_no_budget Sample.signer (Sample.t0 + 60)
            (Sample.entitiesOpen Sample.configured)
            (commit (concludeDuel Sample.signer (Sample.t0 + 60) 0 Sample.alice)
               (Sample.entitiesOpen Sample.configured)) _ Sample.arenaAddress))).
  left. exists 0, Sample.alice. vm_compute. reflexivity.
Defined.

Lemma allowlist_never_shrinks_witness :
  allowlisted
    (policyOf (behaviorController
                 (history [(Sample.admin, Sample.t0,
                            BehaviorController_setPolicy Sample.arenaAddress [] 0 0 0);
                           (Sample.admin, Sample.t0,
                            BehaviorController_deactivatePolicy Sample.arenaAddress)]
                    (Sample.entitiesOpen Sample.configured)))
       Sample.arenaAddress) Arena.concludeDuel_selector = true
  ∧ isAllowed Sample.arenaAddress Arena.concludeDuel_selector
      (behaviorController
         (history [(Sample.admin, Sample.t0,
                    BehaviorController_setPolicy Sample.arenaAddress [] 0 0 0);
                   (Sample.admin, Sample.t0,
                    BehaviorController_deactivatePolicy Sample.arenaAddress)]
            (Sample.entitiesOpen Sample.configured)))
    = isActive
        (policyOf (behaviorController
                     (history [(Sample.admin, Sample.t0,
                                BehaviorController_setPolicy Sample.arenaAddress [] 0 0 0);
                               (Sample.admin, Sample.t0,
                                BehaviorController_deactivatePolicy Sample.arenaAddress)]
                        (Sample.entitiesOpen Sample.configured)))
           Sample.arenaAddress).
Proof.
  refine (allowlist_never_shrinks
            [(Sample.admin, Sample.t0,
              BehaviorController_setPolicy Sample.arenaAddress [] 0 0 0);
             (Sample.admin, Sample.t0,
              BehaviorController_deactivatePolicy Sample.arenaAddress)]
            (Sample.entitiesOpen Sample.configured) Sample.arenaAddress
            Arena.concludeDuel_selector _).
  vm_compute. reflexivity.
Defined.

End EntityEdgesOnTheFixture.

(** ** The pipeline beyond the claims *)

Section PipelineOutcomes.

Import BehaviorController BehaviorControllerFacts.

Context {T : Type} `{IERC20 T}.

Variable signer : address.
Variable contractAddresses : gmap string address.
Variable ethers_id4 : string → bytes4.
Variable describe : failure → string.
Variable invalidArgument : string.

Local Abbreviation validateExecution :=
  (Action.validateExecution (T:=T) contractAddresses ethers_id4 describe).
Local Abbreviation executeContractCall :=
  (Action.executeContractCall signer describe invalidArgument).
Local Abbreviation recordCallInBehaviorController :=
  (Action.recordCallInBehaviorController signer contractAddresses ethers_id4 describe
     invalidArgument).
Local Abbreviation execute :=
  (Action.execute signer contractAddresses ethers_id4 describe invalidArgument).
Local Abbreviation logged r evs := (Action.mkRun (Action.chain r) (Action.log r ++ evs)).
Local Abbreviation failed message plan :=
  (Action.ExecutionResult.mk false (Some message) None (Action.action plan)
     (Some (Action.params plan))).
Local Abbreviation succeeded plan :=
  (Action.ExecutionResult.mk true None None (Action.action plan)
     (Some (Action.params plan))).

Local Ltac run_pipeline :=
  unfold Action.callView, Action.readController, Action.send, Action.mine, Action.emit,
    Action.try_catch, Action.throw, Action.liftOutcome, Action.recordFailedCall,
    mbind, mret, Action.P_bind, Action.P_ret;
  simpl.


(** The pipeline's own record is best effort: it never throws, and it
    either leaves the chain alone or is a [recordCallWithGas] of the signer,
    which writes to the controller and to nothing else. *)
Lemma recordCallInBehaviorController_outcome (now : uint256) (plan : Action.Plan)
    (gasUsed : Z) (r : Action.Run) :
  ∃ r',
    recordCallInBehaviorController now plan gasUsed r = (Action.Return tt, r')
    ∧ (∃ evs, Action.log r' = Action.log r ++ evs)
    ∧ (Action.chain r' = Action.chain r
       ∨ ∃ target operation bc',
           recordCallWithGas signer now target operation gasUsed
             (behaviorController (Action.chain r)) = Ok bc'
           ∧ Action.chain r' = setController bc' (Action.chain r)).
Proof.
  unfold Action.recordCallInBehaviorController.
  destruct (Action.action plan) as [name|];
    [|eexists; run_pipeline; split; [done|]; split; [by exists []; rewrite app_nil_r|by left]].
  destruct (Action.parseActionName contractAddresses ethers_id4 name)
    as [[target operation]|];
    [|eexists; run_pipeline; split; [by destruct r|];
      split; [by exists []; rewrite app_nil_r|by left]].
  unfold Action.argUint.
  destruct ((0 <=? gasUsed) && (gasUsed <? 2 ^ 256));
    [|eexists; run_pipeline; split; [done|];
      split; [by exists []; rewrite app_nil_r|by left]].
  run_pipeline. unfold onController.
  destruct (recordCallWithGas signer now target operation gasUsed
              (behaviorController (Action.chain r))) as [bc'|e] eqn:Hrec; simpl.
  - eexists. split; [reflexivity|]. simpl. split; [by eexists|].
    right. by exists target, operation, bc'.
  - eexists. split; [reflexivity|]. simpl. split; [by eexists|]. by left.
Qed.

Lemma execute_stages (env : Action.Env) (plan : Action.Plan) (r : Action.Run) :
  Action.action plan ≠ Some "observe" →
  ∃ v evs,
    validateExecution (Action.validatedAt env) plan (logged r [Action.GetBalance])
    = (Action.Return v, logged r (Action.GetBalance :: evs))
    ∧ List.filter Action.isSend evs = []
    ∧ execute env plan r
      = if negb (Action.valid v) then
          (Action.Return
             (Action.ExecutionResult.mk false
                (Some ("Validation failed: " +:+ default "undefined" (Action.reason v)))
                None (Action.action plan) None),
           logged r (Action.GetBalance :: evs))
        else
          match executeContractCall (Action.executedAt env) plan
                  (logged r (Action.GetBalance :: evs)) with
          | (Action.Throw message, r2) => (Action.Return (failed message plan), r2)
          | (Action.Return _, r2) =>
              (Action.Return (succeeded plan),
               (recordCallInBehaviorController (Action.recordedAt env) plan
                  (Action.startGas env - Action.endGas env)
                  (logged r2 [Action.Wait; Action.GetBalance])).2)
          end.
Proof.
  intros Hobs.
  destruct (validateExecution_readonly contractAddresses ethers_id4 describe
              (Action.validatedAt env) plan (logged r [Action.GetBalance]))
    as (v & evs & Hval & Hnone).
  simpl in Hval. rewrite <- app_assoc in Hval. simpl in Hval.
  exists v, evs. split; [done|]. split; [done|].
  unfold Action.execute. rewrite (bool_decide_eq_false_2 _ Hobs).
  unfold Action.try_catch, Action.emit, mbind, mret, Action.P_bind, Action.P_ret; simpl.
  rewrite Hval. destruct (Action.valid v); simpl; [|done].
  destruct (executeContractCall (Action.executedAt env) plan
              (logged r (Action.GetBalance :: evs))) as [[[]|message] r2] eqn:Hcall.
  - rewrite <- app_assoc; simpl.
    destruct (recordCallInBehaviorController_outcome (Action.recordedAt env) plan
                (Action.startGas env - Action.endGas env)
                (logged r2 [Action.Wait; Action.GetBalance])) as (r3 & Hrec & _ & _).
    by rewrite Hrec.
  - destruct (Action.action plan) as [name|]; [|done].
    by destruct (bool_decide (name ≠ "") && bool_decide (name ≠ "observe")).
Qed.



(** Plans that name no operation.  An [observe] plan is answered at once:
    nothing is read, nothing is sent, and the run is as it was.  A plan with
    no [action], or an empty one, is waved through by validation without a
    single call, and then fails in [execute], the signer's balance having
    been read and nothing else. *)
Theorem plans_without_an_operation (env : Action.Env) (plan : Action.Plan) (r : Action.Run) :
  (Action.action plan = Some "observe"
   → execute env plan r
     = (Action.Return
          (Action.ExecutionResult.mk true None (Some "Observation completed")
             (Some "observe") None), r)
     ∧ ∀ now, validateExecution now plan r
              = (Action.Return (Action.mkValidation true None), r))
  ∧ (Action.action plan = None ∨ Action.action plan = Some ""
     → (∀ now, validateExecution now plan r
               = (Action.Return (Action.mkValidation true None), r))
       ∧ ∃ message,
           execute env plan r
           = (Action.Return (failed message plan), logged r [Action.GetBalance])).
Proof.
  split.
  - intros Hobs. split.
    + unfold Action.execute. by rewrite (bool_decide_eq_true_2 _ Hobs).
    + intros now. unfold Action.validateExecution. by rewrite Hobs.
  - intros Hnone.
    assert (Hvalid : ∀ now (r0 : Action.Run),
              validateExecution now plan r0
              = (Action.Return (Action.mkValidation true None), r0)).
    { intros now r0. unfold Action.validateExecution.
      by destruct Hnone as [-> | ->]. }
    split; [intros now; apply Hvalid|].
    assert (Hobs : Action.action plan ≠ Some "observe")
      by (destruct Hnone as [-> | ->]; discriminate).
    unfold Action.execute. rewrite (bool_decide_eq_false_2 _ Hobs).
    unfold Action.try_catch, Action.emit, mbind, mret, Action.P_bind, Action.P_ret; simpl.
    rewrite Hvalid; simpl.
    unfold Action.executeContractCall. destruct Hnone as [-> | ->]; run_pipeline;
      by eexists.
Qed.

(** Only the four contract names, spelt exactly, are dispatched.  For any
    other first component of the action name [executeContractCall] throws
    before sending, so [execute] leaves the chain as it was and hands
    nothing to the signer, even where validation, which looks the name up
    in lower case, has let the plan through. *)
Theorem unknown_contract_is_never_sent (env : Action.Env) (plan : Action.Plan)
    (name : string) (r : Action.Run) :
  Action.action plan = Some name →
  default "" (split "_" name !! 0%nat)
  ∉ ["NPCRegistry"; "Arena"; "Quest"; "BehaviorController"] →
  (∀ now (r0 : Action.Run),
     executeContractCall now plan r0
     = (Action.Throw ("Unknown contract: " +:+ default "" (split "_" name !! 0%nat)), r0))
  ∧ ∃ res r',
      execute env plan r = (Action.Return res, r')
      ∧ Action.chain r' = Action.chain r
      ∧ List.filter Action.isSend (Action.log r') = List.filter Action.isSend (Action.log r).
Proof.
  intros Haction Hunknown.
  assert (Hcall : ∀ now (r0 : Action.Run),
            executeContractCall now plan r0
            = (Action.Throw ("Unknown contract: "
                             +:+ default "" (split "_" name !! 0%nat)), r0)).
  { intros now r0. unfold Action.executeContractCall. rewrite Haction.
    rewrite !bool_decide_eq_false_2 by set_solver.
    run_pipeline. by destruct r0. }
  split; [done|].
  destruct (decide (Action.action plan = Some "observe")) as [Hobs | Hobs].
  - unfold Action.execute. rewrite (bool_decide_eq_true_2 _ Hobs). by eexists _, _.
  - destruct (execute_stages env plan r Hobs) as (v & evs & _ & Hnone & ->).
    destruct (negb (Action.valid v)).
    + eexists _, _. split; [reflexivity|]. simpl. split; [done|].
      rewrite List.filter_app; simpl. by rewrite Hnone, app_nil_r.
    + rewrite Hcall. eexists _, _. split; [reflexivity|]. simpl. split; [done|].
      rewrite List.filter_app; simpl. by rewrite Hnone, app_nil_r.
Qed.


End PipelineOutcomes.

Section PipelineOutcomesOnTheFixture.

Import BehaviorController.


(** On the fixture: the agent concludes duel 0, the winner is paid, and the
    signer's record, refused by the controller, is lost without a trace in
    the result. *)
Example execute_concludes_and_loses_its_record :
  Action.ExecutionResult.success
    (match (Fixture.run Sample.addresses (Sample.t0 + 60) Sample.concludePlan
              Fixture.duelReady).1 with
     | Action.Return res => res
     | Action.Throw _ => Action.ExecutionResult.mk false None None None None
     end) = true
  ∧ Arena.state (getDuel 0 (Action.chain (Fixture.run Sample.addresses (Sample.t0 + 60)
                                            Sample.concludePlan Fixture.duelReady).2))
    = Arena.CONCLUDED
  ∧ recordOf (behaviorController
                (Action.chain (Fixture.run Sample.addresses (Sample.t0 + 60)
                                 Sample.concludePlan Fixture.duelReady).2))
      Sample.arenaAddress Sample.concludeOperation = noRecord
  ∧ List.filter Action.isSend
      (Action.log (Fixture.run Sample.addresses (Sample.t0 + 60) Sample.concludePlan
                     Fixture.duelReady).2)
    = [Action.SendTransaction (Arena_concludeDuel 0 Sample.alice);
       Action.SendTransaction
         (BehaviorController_recordCallWithGas Sample.arenaAddress
            Sample.concludeOperation 21000)].
Proof. vm_compute. repeat split. Qed.

Lemma plans_without_an_operation_witness :
  Fixture.run Sample.addresses Sample.t0 (Fixture.planFor "observe") Fixture.duelReady
  = (Action.Return
       (Action.ExecutionResult.mk true None (Some "Observation completed")
          (Some "observe") None), Fixture.duelReady)
  ∧ ∀ now, Action.validateExecution Sample.addresses Sample.ethers_id4 Sample.describe now
             (Fixture.planFor "observe") Fixture.duelReady
           = (Action.Return (Action.mkValidation true None), Fixture.duelReady).
Proof.
  refine (proj1 (plans_without_an_operation Sample.signer Sample.addresses
                   Sample.ethers_id4 Sample.describe Sample.invalidArgument
                   (Fixture.env Sample.t0) (Fixture.planFor "observe") Fixture.duelReady) _).
  reflexivity.
Defined.

Lemma unknown_contract_is_never_sent_witness :
  (∀ now (r0 : Action.Run (T:=MockERC20.t)),
     Action.executeContractCall Sample.signer Sample.describe Sample.invalidArgument now
       (Fixture.planFor "arena_concludeDuel") r0
     = (Action.Throw ("Unknown contract: "
                      +:+ default "" (split "_" "arena_concludeDuel" !! 0%nat)), r0))
  ∧ ∃ res r',
      Action.execute Sample.signer Sample.addresses Sample.ethers_id4 Sample.describe
        Sample.invalidArgument (Fixture.env (Sample.t0 + 60))
        (Fixture.planFor "arena_concludeDuel") Fixture.duelReady
      = (Action.Return res, r')
      ∧ Action.chain r' = Action.chain Fixture.duelReady
      ∧ List.filter Action.isSend (Action.log r')
        = List.filter Action.isSend (Action.log Fixture.duelReady).
Proof.
  refine (unknown_contract_is_never_sent Sample.signer Sample.addresses Sample.ethers_id4
            Sample.describe Sample.invalidArgument (Fixture.env (Sample.t0 + 60))
            (Fixture.planFor "arena_concludeDuel") "arena_concludeDuel"
            Fixture.duelReady _ _).
  - reflexivity.
  - vm_compute. intros Hin.
    repeat (apply elem_of_cons in Hin as [Hin | Hin]; [discriminate|]).
    by apply elem_of_nil in Hin.
Defined.

(** The lower-case spelling passes validation, which resolves it to the
    arena, and is then refused by the dispatch. *)
Example lower_case_name_is_validated_then_refused :
  (Action.validateExecution Sample.addresses Sample.ethers_id4 Sample.describe
     (Sample.t0 + 60) (Fixture.planFor "arena_concludeDuel") Fixture.duelReady).1
  = Action.Return (Action.mkValidation true None)
  ∧ (Fixture.run Sample.addresses (Sample.t0 + 60) (Fixture.planFor "arena_concludeDuel")
       Fixture.duelReady).1
    = Action.Return
        (Action.ExecutionResult.mk false (Some "Unknown contract: arena") None
           (Some "arena_concludeDuel") (Some (Action.params Sample.concludePlan))).
Proof. vm_compute. repeat split. Qed.


End PipelineOutcomesOnTheFixture.

(** ** The adapter *)

Section AdapterGate.

Import BehaviorController BehaviorControllerFacts GameActionAdapter.

Context {T : Type}.

Variable bytes : Type.
Variable target : address → uint256 → address → bytes4 → bytes → World T
                  → result (bytes * World T).
Variable revertData : failure → bytes.
Variable targetValidation : address → string → bytes → address → World T
                            → result (bool * string).

Local Abbreviation executeAction := (executeAction bytes target revertData).
Local Abbreviation validateAction := (validateAction bytes targetValidation).

Local Ltac bind_inv Hrun :=
  unfold mbind, result_bind in Hrun;
  lazymatch type of Hrun with
  | match ?x with Ok _ => _ | Revert _ => _ end = Ok _ =>
      let E := fresh "E" in
      destruct x eqn:E; [simpl in Hrun; bind_inv E; bind_inv Hrun | discriminate Hrun]
  | _ => idtac
  end.

(** The adapter turns a call away, in this order, when the caller is
    neither authorised nor the owner, when the action type has no target
    (never mapped, or mapped to the zero address), and, for a mapping that
    requires approval, when the controller does not allow the operation or
    its rate check fails.  Unlike the arena and the quest, the adapter does
    ask [checkRateLimit]. *)
Theorem adapter_rejections_in_order (sender : address) (now : uint256)
    (actionType : string) (params : bytes) (a : GameActionAdapter.t) (w : World T) :
  (isAuthorized a sender = false → sender ≠ _owner a
   → executeAction sender now actionType params a w = Revert (Require "Not authorized"))
  ∧ (isAuthorized a sender = true ∨ sender = _owner a
     → targetContract (mappingOf a actionType) = 0
     → executeAction sender now actionType params a w
       = Revert (Require "Action type not mapped"))
  ∧ (isAuthorized a sender = true ∨ sender = _owner a
     → targetContract (mappingOf a actionType) ≠ 0
     → requiresApproval (mappingOf a actionType) = true
     → isAllowed (targetContract (mappingOf a actionType))
         (functionSelector (mappingOf a actionType)) (behaviorController w) = false
     → executeAction sender now actionType params a w
       = Revert (Require "Action not allowed by BehaviorController"))
  ∧ (isAuthorized a sender = true ∨ sender = _owner a
     → targetContract (mappingOf a actionType) ≠ 0
     → requiresApproval (mappingOf a actionType) = true
     → isAllowed (targetContract (mappingOf a actionType))
         (functionSelector (mappingOf a actionType)) (behaviorController w) = true
     → checkRateLimit now (targetContract (mappingOf a actionType))
         (functionSelector (mappingOf a actionType)) (behaviorController w) = Ok false
     → executeAction sender now actionType params a w
       = Revert (Require "Rate limit exceeded")).
Proof.
  assert (Hpass : isAuthorized a sender = true ∨ sender = _owner a
            → isAuthorized a sender || bool_decide (sender = _owner a) = true).
  { intros [-> | Howner]; [done|].
    rewrite (bool_decide_eq_true_2 _ Howner). apply orb_true_r. }
  split; [|split; [|split]].
  - intros Hno Hnot. unfold GameActionAdapter.executeAction.
    by rewrite Hno, (bool_decide_eq_false_2 _ Hnot).
  - intros Hauth Hzero. unfold GameActionAdapter.executeAction.
    rewrite (Hpass Hauth); simpl. by rewrite Hzero.
  - intros Hauth Hmapped Happroval Hno. unfold GameActionAdapter.executeAction.
    rewrite (Hpass Hauth); simpl. rewrite (bool_decide_eq_true_2 _ Hmapped); simpl.
    by rewrite Happroval, Hno.
  - intros Hauth Hmapped Happroval Hyes Hrate. unfold GameActionAdapter.executeAction.
    rewrite (Hpass Hauth); simpl. rewrite (bool_decide_eq_true_2 _ Hmapped); simpl.
    by rewrite Happroval, Hyes, Hrate.
Qed.

(** What an [executeAction] that returned has done.  The caller was
    authorised or the owner and the action mapped; for a mapping requiring
    approval the operation was allowed and within its rate.  When the
    forwarded call failed, [success] is false and the chain is as it was,
    nothing being recorded.  When it went through, the chain is the one the
    call left, with, for a mapping requiring approval, the adapter's
    [recordCall] on the target's pair applied to the controller. *)
Theorem adapter_outcome (sender : address) (now : uint256) (actionType : string)
    (params : bytes) (a : GameActionAdapter.t) (w w' : World T) (success : bool)
    (out : bytes) :
  executeAction sender now actionType params a w = Ok (success, out, w') →
  (isAuthorized a sender = true ∨ sender = _owner a)
  ∧ targetContract (mappingOf a actionType) ≠ 0
  ∧ (requiresApproval (mappingOf a actionType) = true
     → isAllowed (targetContract (mappingOf a actionType))
         (functionSelector (mappingOf a actionType)) (behaviorController w) = true
       ∧ checkRateLimit now (targetContract (mappingOf a actionType))
           (functionSelector (mappingOf a actionType)) (behaviorController w) = Ok true)
  ∧ (success = false
     → w' = w
       ∧ ∃ e, target (this a) now (targetContract (mappingOf a actionType))
                (functionSelector (mappingOf a actionType)) params w = Revert e)
  ∧ (success = true
     → ∃ w1,
         target (this a) now (targetContract (mappingOf a actionType))
           (functionSelector (mappingOf a actionType)) params w = Ok (out, w1)
         ∧ if requiresApproval (mappingOf a actionType)
           then ∃ bc',
                  recordCall (this a) now (targetContract (mappingOf a actionType))
                    (functionSelector (mappingOf a actionType)) (behaviorController w1)
                  = Ok bc'
                  ∧ w' = setController bc' w1
           else w' = w1).
Proof.
  intros Hrun. unfold GameActionAdapter.executeAction, lowLevelCall in Hrun.
  bind_inv Hrun.
  repeat match goal with
         | E : require _ _ = Ok _ |- _ => apply require_inv in E
         end.
  match goal with E : _ || _ = true |- _ => rename E into Hauth end.
  match goal with E : bool_decide (_ ≠ 0) = true |- _ =>
    apply bool_decide_eq_true_1 in E; rename E into Hmapped end.
  split.
  { apply orb_true_iff in Hauth as [Hauth | Hauth]; [by left|].
    right. by apply bool_decide_eq_true_1 in Hauth. }
  split; [done|].
  split.
  { intros Happroval.
    match goal with E : (if requiresApproval _ then _ else _) = Ok _ |- _ =>
      rewrite Happroval in E; bind_inv E;
      repeat match goal with
             | E' : require _ _ = Ok _ |- _ => apply require_inv in E'
             end end.
    subst. split; done. }
  destruct (target (this a) now (targetContract (mappingOf a actionType))
              (functionSelector (mappingOf a actionType)) params w)
    as [[out' w1]|e] eqn:Hcall; simpl in *.
  - injection Hrun as <- <- <-. split; [discriminate|]. intros _. exists w1.
    split; [done|].
    match goal with E : (if _ && true then _ else _) = Ok _ |- _ =>
      rename E into Hrec end.
    destruct (requiresApproval (mappingOf a actionType)); simpl in Hrec.
    + bind_inv Hrec. injection Hrec as <-. by eexists.
    + by injection Hrec as <-.
  - injection Hrun as <- <- <-. split; [|discriminate]. intros _.
    match goal with E : (if _ && false then _ else _) = Ok _ |- _ =>
      rewrite andb_false_r in E; injection E as <- end.
    split; [done | by exists e].
Qed.

(** No effect without its record.  When the mapping requires approval and
    the forwarded call goes through, but the adapter does not hold the
    trusted-caller role on the controller, [executeAction] reverts as a
    whole: the action has not taken place. *)
Theorem adapter_effect_needs_its_record (sender : address) (now : uint256)
    (actionType : string) (params : bytes) (a : GameActionAdapter.t) (w w1 : World T)
    (out : bytes) :
  isAuthorized a sender = true ∨ sender = _owner a →
  targetContract (mappingOf a actionType) ≠ 0 →
  requiresApproval (mappingOf a actionType) = true →
  isAllowed (targetContract (mappingOf a actionType))
    (functionSelector (mappingOf a actionType)) (behaviorController w) = true →
  checkRateLimit now (targetContract (mappingOf a actionType))
    (functionSelector (mappingOf a actionType)) (behaviorController w) = Ok true →
  target (this a) now (targetContract (mappingOf a actionType))
    (functionSelector (mappingOf a actionType)) params w = Ok (out, w1) →
  hasRole (behaviorController w1) TRUSTED_CALLER_ROLE (this a) = false →
  executeAction sender now actionType params a w
  = Revert (AccessControlUnauthorizedAccount (this a) TRUSTED_CALLER_ROLE).
Proof.
  intros Hauth Hmapped Happroval Hyes Hrate Hcall Hnorole.
  unfold GameActionAdapter.executeAction, lowLevelCall.
  assert (isAuthorized a sender || bool_decide (sender = _owner a) = true) as ->.
  { destruct Hauth as [-> | Howner]; [done|].
    rewrite (bool_decide_eq_true_2 _ Howner). apply orb_true_r. }
  simpl. rewrite (bool_decide_eq_true_2 _ Hmapped); simpl.
  rewrite Happroval, Hyes; simpl. rewrite Hrate; simpl. rewrite Hcall; simpl.
  unfold recordCall, onlyRole. by rewrite Hnorole.
Qed.

(** [validateAction] makes the checks [executeAction] makes.  Whenever an
    [executeAction] goes through, [validateAction] asked of the same chain
    at the same block time for the same actor raises no objection of its
    own: it answers what the target's validation says, and
    [(true, Validation passed)] when the target has none. *)
Theorem adapter_validation_agrees (sender : address) (now : uint256)
    (actionType : string) (params : bytes) (a : GameActionAdapter.t) (w w' : World T)
    (success : bool) (out : bytes) :
  executeAction sender now actionType params a w = Ok (success, out, w') →
  validateAction now actionType params sender a w
  = Ok (match targetValidation (targetContract (mappingOf a actionType)) actionType
                params sender w with
        | Ok answer => answer
        | Revert _ => (true, "Validation passed")
        end).
Proof.
  intros Hrun. unfold GameActionAdapter.executeAction in Hrun.
  destruct (requiresApproval (mappingOf a actionType)) eqn:Happroval;
    bind_inv Hrun;
    repeat match goal with
           | E : require _ _ = Ok _ |- _ => apply require_inv in E
           end;
    match goal with E : _ || _ = true |- _ => rename E into Hauth end;
    match goal with E : bool_decide (_ ≠ 0) = true |- _ =>
      apply bool_decide_eq_true_1 in E; rename E into Hmapped end;
    unfold GameActionAdapter.validateAction, callTargetValidation;
    rewrite (bool_decide_eq_false_2 _ Hmapped), Happroval;
    (assert (negb (isAuthorized a sender) && bool_decide (sender ≠ _owner a) = false)
       as ->
       by (apply orb_true_iff in Hauth as [-> | Howner]; [done|];
           apply bool_decide_eq_true_1 in Howner;
           rewrite (bool_decide_eq_false_2 (sender ≠ _owner a)) by (by intros ?);
           apply andb_false_r)).
  - subst.
    match goal with E : isAllowed _ _ _ = true |- _ => rewrite E end. simpl.
    match goal with E : checkRateLimit _ _ _ _ = Ok true |- _ => rewrite E end. simpl.
    by destruct (targetValidation _ _ _ _ _).
  - simpl. by destruct (targetValidation _ _ _ _ _).
Qed.

End AdapterGate.

Section AdapterOnTheFixture.

Import BehaviorController GameActionAdapter.

Lemma adapter_rejections_in_order_witness :
  AdapterFixture.execute Sample.signer (Sample.t0 + 3)
    (Sample.entitiesOpen (Sample.calledOnce AdapterFixture.adapterTrusted))
  = Revert (Require "Rate limit exceeded").
Proof.
  refine (proj2 (proj2 (proj2
            (adapter_rejections_in_order (uint256 * address) AdapterFixture.forward
               AdapterFixture.revertData Sample.signer (Sample.t0 + 3) "conclude"
               (0, Sample.alice) AdapterFixture.adapter
               (Sample.entitiesOpen (Sample.calledOnce AdapterFixture.adapterTrusted)))))
            _ _ _ _ _).
  - left. vm_compute. reflexivity.
  - vm_compute. discriminate.
  - vm_compute. reflexivity.
  - vm_compute. reflexivity.
  - vm_compute. reflexivity.
Defined.

Lemma adapter_outcome_witness :
  (isAuthorized AdapterFixture.adapter Sample.signer = true
   ∨ Sample.signer = _owner AdapterFixture.adapter)
  ∧ targetContract (mappingOf AdapterFixture.adapter "conclude") ≠ 0.
Proof.
  pose proof (adapter_outcome (uint256 * address) AdapterFixture.forward
                AdapterFixture.revertData Sample.signer (Sample.t0 + 60) "conclude"
                (0, Sample.alice) AdapterFixture.adapter
                (Sample.entitiesOpen AdapterFixture.adapterTrusted)
                (commit (λ w, r ← AdapterFixture.execute Sample.signer (Sample.t0 + 60) w;
                              Ok r.2)
                   (Sample.entitiesOpen AdapterFixture.adapterTrusted))
                true (0, Sample.alice)) as Hthm.
  assert (Hrun : executeAction (uint256 * address) AdapterFixture.forward
                   AdapterFixture.revertData Sample.signer (Sample.t0 + 60) "conclude"
                   (0, Sample.alice) AdapterFixture.adapter
                   (Sample.entitiesOpen AdapterFixture.adapterTrusted)
                 = Ok (true, (0, Sample.alice),
                       commit (λ w, r ← AdapterFixture.execute Sample.signer
                                          (Sample.t0 + 60) w; Ok r.2)
                         (Sample.entitiesOpen AdapterFixture.adapterTrusted)))
    by (vm_compute; reflexivity).
  destruct (Hthm Hrun) as (Hauth & Hmapped & _). exact (conj Hauth Hmapped).
Defined.

(** Through the adapter the conclusion of duel 0 is recorded twice on the
    arena's pair, once by the arena and once by the adapter; three seconds
    after a recorded call the adapter refuses what the arena, called
    directly, lets through. *)
Example adapter_records_on_top_of_the_arena :
  dailyCount (recordOf (behaviorController
                          (commit (λ w, r ← AdapterFixture.execute Sample.signer
                                             (Sample.t0 + 60) w; Ok r.2)
                             (Sample.entitiesOpen AdapterFixture.adapterTrusted)))
                Sample.arenaAddress Arena.concludeDuel_selector) = 2
  ∧ Arena.state (getDuel 0 (commit (λ w, r ← AdapterFixture.execute Sample.signer
                                              (Sample.t0 + 60) w; Ok r.2)
                              (Sample.entitiesOpen AdapterFixture.adapterTrusted)))
    = Arena.CONCLUDED
  ∧ succeeds (AdapterFixture.execute Sample.signer (Sample.t0 + 3)
                (Sample.entitiesOpen (Sample.calledOnce AdapterFixture.adapterTrusted)))
    = false
  ∧ succeeds (concludeDuel Sample.signer (Sample.t0 + 3) 0 Sample.alice
                (Sample.entitiesOpen (Sample.calledOnce AdapterFixture.adapterTrusted)))
    = true.
Proof. vm_compute. repeat split. Qed.

Lemma adapter_effect_needs_its_record_witness :
  AdapterFixture.execute Sample.signer (Sample.t0 + 60)
    (Sample.entitiesOpen Sample.configured)
  = Revert (AccessControlUnauthorizedAccount (this AdapterFixture.adapter)
              TRUSTED_CALLER_ROLE).
Proof.
  refine (adapter_effect_needs_its_record (uint256 * address) AdapterFixture.forward
            AdapterFixture.revertData Sample.signer (Sample.t0 + 60) "conclude"
            (0, Sample.alice) AdapterFixture.adapter
            (Sample.entitiesOpen Sample.configured)
            (commit (concludeDuel AdapterFixture.adapterAddress (Sample.t0 + 60) 0
                       Sample.alice) (Sample.entitiesOpen Sample.configured))
            (0, Sample.alice) _ _ _ _ _ _ _).
  - left. vm_compute. reflexivity.
  - vm_compute. discriminate.
  - vm_compute. reflexivity.
  - vm_compute. reflexivity.
  - vm_compute. reflexivity.
  - vm_compute. reflexivity.
  - vm_compute. reflexivity.
Defined.

Lemma adapter_validation_agrees_witness :
  validateAction (uint256 * address) AdapterFixture.noValidation (Sample.t0 + 60)
    "conclude" (0, Sample.alice) Sample.signer AdapterFixture.adapter
    (Sample.entitiesOpen AdapterFixture.adapterTrusted)
  = Ok (match AdapterFixture.noValidation
                (targetContract (mappingOf AdapterFixture.adapter "conclude")) "conclude"
                (0, Sample.alice) Sample.signer
                (Sample.entitiesOpen AdapterFixture.adapterTrusted) with
        | Ok answer => answer
        | Revert _ => (true, "Validation passed")
        end).
Proof.
  refine (adapter_validation_agrees (uint256 * address) AdapterFixture.forward
            AdapterFixture.revertData AdapterFixture.noValidation Sample.signer
            (Sample.t0 + 60) "conclude" (0, Sample.alice) AdapterFixture.adapter
            (Sample.entitiesOpen AdapterFixture.adapterTrusted)
            (commit (λ w, r ← AdapterFixture.execute Sample.signer (Sample.t0 + 60) w;
                          Ok r.2)
               (Sample.entitiesOpen AdapterFixture.adapterTrusted))
            true (0, Sample.alice) _).
  vm_compute. reflexivity.
Defined.

End AdapterOnTheFixture.

(** ** The registry *)

Section RegistryFacts.

Import NPCRegistry.

Lemma npcOf_insert (r : NPCRegistry.t) (npcId other : uint256) (npc : NPC)
    (owner' : address) (next : uint256) :
  npcOf (mk owner' (<[npcId := npc]> (_npcs r)) next) other
  = if decide (npcId = other) then npc else npcOf r other.
Proof.
  unfold npcOf; simpl. destruct (decide (npcId = other)) as [-> | Hne].
  - by rewrite lookup_insert_eq.
  - by rewrite lookup_insert_ne.
Qed.

Lemma registerNPC_inv (owner' controller' : address) (metadataUri' : string)
    (r r' : NPCRegistry.t) (npcId : uint256) :
  registerNPC owner' controller' metadataUri' r = Ok (npcId, r') →
  npcId = _nextTokenId r
  ∧ _nextTokenId r' = npcId + 1
  ∧ getNPC npcId r' = mkNPC npcId owner' controller' metadataUri'
  ∧ (∀ other, other ≠ npcId → getNPC other r' = getNPC other r)
  ∧ _owner r' = _owner r.
Proof.
  unfold registerNPC, U256.add.
  destruct (_nextTokenId r + 1 <=? U256.MAX); [|done].
  simpl. intros [= <- <-]. unfold getNPC.
  repeat split.
  - rewrite npcOf_insert. by rewrite decide_True.
  - intros other Hne. rewrite npcOf_insert. by rewrite decide_False.
Qed.

(** [registerNPC] hands out the ids in sequence.  The id returned is the
    counter before the call and the record stored under it is the one
    given; a second registration gets the next id and leaves the first
    record, every other record and the registry's owner as they were.
    Nothing is asked of the caller. *)
Theorem registerNPC_assigns_the_next_id (owner1 controller1 owner2 controller2 : address)
    (uri1 uri2 : string) (r r1 r2 : NPCRegistry.t) (id1 id2 : uint256) :
  registerNPC owner1 controller1 uri1 r = Ok (id1, r1) →
  registerNPC owner2 controller2 uri2 r1 = Ok (id2, r2) →
  id1 = _nextTokenId r
  ∧ id2 = id1 + 1
  ∧ _nextTokenId r2 = id1 + 2
  ∧ getNPC id1 r2 = mkNPC id1 owner1 controller1 uri1
  ∧ getNPC id2 r2 = mkNPC id2 owner2 controller2 uri2
  ∧ (∀ other, other ≠ id1 → other ≠ id2 → getNPC other r2 = getNPC other r)
  ∧ _owner r2 = _owner r.
Proof.
  intros Hfirst Hsecond.
  apply registerNPC_inv in Hfirst as (Hid1 & Hnext1 & Hrec1 & Hothers1 & Howner1).
  apply registerNPC_inv in Hsecond as (Hid2 & Hnext2 & Hrec2 & Hothers2 & Howner2).
  assert (Hstep : id2 = id1 + 1) by congruence.
  split; [done|]. split; [done|].
  split; [lia|].
  split; [rewrite Hothers2 by lia; done|].
  split; [done|].
  split; [|congruence].
  intros other Hne1 Hne2. rewrite Hothers2 by done. by apply Hothers1.
Qed.

(** The two updates are for the owners.  A caller who is neither the owner
    written in the NPC's record nor the owner of the registry is turned away
    with [Not owner]; for either owner the update goes through, rewrites the
    one field, leaves the NPC's id and owner, every other record and the
    counter as they were. *)
Theorem npc_updates_are_for_the_owners (sender : address) (npcId : uint256)
    (newController : address) (newMetadataUri : string) (r : NPCRegistry.t) :
  (owner (getNPC npcId r) ≠ sender → _owner r ≠ sender
   → updateNPCController sender npcId newController r = Revert (Require "Not owner")
     ∧ updateNPCMetadata sender npcId newMetadataUri r = Revert (Require "Not owner"))
  ∧ (owner (getNPC npcId r) = sender ∨ _owner r = sender
     → ∃ rc rm,
         updateNPCController sender npcId newController r = Ok rc
         ∧ updateNPCMetadata sender npcId newMetadataUri r = Ok rm
         ∧ getNPC npcId rc
           = mkNPC (id (getNPC npcId r)) (owner (getNPC npcId r)) newController
               (metadataUri (getNPC npcId r))
         ∧ getNPC npcId rm
           = mkNPC (id (getNPC npcId r)) (owner (getNPC npcId r))
               (controller (getNPC npcId r)) newMetadataUri
         ∧ (∀ other, other ≠ npcId
            → getNPC other rc = getNPC other r ∧ getNPC other rm = getNPC other r)
         ∧ _nextTokenId rc = _nextTokenId r ∧ _nextTokenId rm = _nextTokenId r
         ∧ _owner rc = _owner r ∧ _owner rm = _owner r).
Proof.
  unfold getNPC, updateNPCController, updateNPCMetadata. split.
  - intros Hnpc Hreg.
    rewrite (bool_decide_eq_false_2 _ Hnpc), (bool_decide_eq_false_2 _ Hreg).
    by split.
  - intros Hauth.
    assert (Hpass : bool_decide (owner (npcOf r npcId) = sender)
                    || bool_decide (_owner r = sender) = true).
    { destruct Hauth as [Hnpc | Hreg].
      - by rewrite (bool_decide_eq_true_2 _ Hnpc).
      - rewrite (bool_decide_eq_true_2 _ Hreg). apply orb_true_r. }
    rewrite Hpass; simpl. do 2 eexists.
    split; [reflexivity|]. split; [reflexivity|].
    rewrite !npcOf_insert, !decide_True by done.
    repeat split.
    + rewrite npcOf_insert. by rewrite decide_False.
    + rewrite npcOf_insert. by rewrite decide_False.
Qed.

End RegistryFacts.

Section RegistryHistory.

Import BehaviorController NPCRegistry.

Context {T : Type} `{IERC20 T}.

Local Ltac bind_inv Hrun :=
  unfold mbind, result_bind in Hrun;
  lazymatch type of Hrun with
  | match ?x with Ok _ => _ | Revert _ => _ end = Ok _ =>
      let E := fresh "E" in
      destruct x eqn:E; [simpl in Hrun; bind_inv E; bind_inv Hrun | discriminate Hrun]
  | _ => idtac
  end.

Local Ltac unfold_calls Hrun :=
  unfold onController, onRegistry, createDuel, acceptDuel, concludeDuel, createQuest,
    acceptQuest, completeQuest in Hrun.

Lemma transact_registry (sender : address) (now : uint256) (c : Call) (w : World T)
    (npcId : uint256) :
  npcId < _nextTokenId (registry w) →
  id (getNPC npcId (registry (commit (transact sender now c) w)))
  = id (getNPC npcId (registry w))
  ∧ owner (getNPC npcId (registry (commit (transact sender now c) w)))
    = owner (getNPC npcId (registry w))
  ∧ _nextTokenId (registry w)
    ≤ _nextTokenId (registry (commit (transact sender now c) w)).
Proof.
  intros Hregistered. unfold commit.
  destruct (transact sender now c w) as [w'|] eqn:Hrun; [|done].
  destruct c; simpl in Hrun; unfold_calls Hrun; bind_inv Hrun; simplify_eq/=;
    repeat match goal with
           | E : tokenCall _ _ _ = Ok _ |- _ =>
               apply tokenCall_frame in E as (_ & _ & _ & ->); simpl
           end;
    try done.
  - (* registerNPC *)
    match goal with E : registerNPC _ _ _ _ = Ok ?p |- _ =>
      destruct p as [newId r'];
      apply registerNPC_inv in E as (-> & Hnext & _ & Hothers & _) end.
    simpl. rewrite Hothers by lia. repeat split; lia.
  - (* updateNPCController *)
    match goal with E : updateNPCController _ _ _ _ = Ok _ |- _ =>
      unfold updateNPCController in E; bind_inv E; injection E as <- end.
    unfold getNPC. rewrite npcOf_insert. by destruct (decide _) as [-> |].
  - (* updateNPCMetadata *)
    match goal with E : updateNPCMetadata _ _ _ _ = Ok _ |- _ =>
      unfold updateNPCMetadata in E; bind_inv E; injection E as <- end.
    unfold getNPC. rewrite npcOf_insert. by destruct (decide _) as [-> |].
Qed.

(** A registered NPC keeps its id and its owner.  Through every history of
    transactions the record of an id below the counter has the [id] and the
    [owner] it was registered with, and the counter never goes down: no
    function of the registry transfers an NPC, and [registerNPC] cannot
    reach an id twice. *)
Theorem registered_npc_keeps_its_owner (txs : list (address * uint256 * Call))
    (w : World T) (npcId : uint256) :
  npcId < _nextTokenId (registry w) →
  id (getNPC npcId (registry (history txs w))) = id (getNPC npcId (registry w))
  ∧ owner (getNPC npcId (registry (history txs w))) = owner (getNPC npcId (registry w))
  ∧ _nextTokenId (registry w) ≤ _nextTokenId (registry (history txs w)).
Proof.
  revert w. induction txs as [|[[sender now] c] txs IH]; intros w Hregistered.
  - done.
  - simpl.
    destruct (transact_registry sender now c w npcId Hregistered) as (Hid & Howner & Hnext).
    destruct (IH (commit (transact sender now c) w)) as (Hid' & Howner' & Hnext'); [lia|].
    repeat split; [congruence | congruence | lia].
Qed.

End RegistryHistory.

Section RegistryOnTheFixture.

Import NPCRegistry.

Lemma registerNPC_assigns_the_next_id_witness :
  0 = _nextTokenId RegistryFixture.empty
  ∧ 1 = 0 + 1
  ∧ _nextTokenId RegistryFixture.two = 0 + 2
  ∧ getNPC 0 RegistryFixture.two = mkNPC 0 Sample.alice Sample.signer "ipfs://npc/0"
  ∧ getNPC 1 RegistryFixture.two = mkNPC 1 Sample.bob Sample.signer "ipfs://npc/1"
  ∧ (∀ other, other ≠ 0 → other ≠ 1
     → getNPC other RegistryFixture.two = getNPC other RegistryFixture.empty)
  ∧ _owner RegistryFixture.two = _owner RegistryFixture.empty.
Proof.
  refine (registerNPC_assigns_the_next_id Sample.alice Sample.signer Sample.bob
            Sample.signer "ipfs://npc/0" "ipfs://npc/1" RegistryFixture.empty
            RegistryFixture.one RegistryFixture.two 0 1 _ _).
  - vm_compute. reflexivity.
  - vm_compute. reflexivity.
Defined.

Lemma npc_updates_are_for_the_owners_witness :
  updateNPCController Sample.bob 0 Sample.bob RegistryFixture.two
  = Revert (Require "Not owner")
  ∧ updateNPCMetadata Sample.bob 0 "ipfs://other" RegistryFixture.two
    = Revert (Require "Not owner").
Proof.
  refine (proj1 (npc_updates_are_for_the_owners Sample.bob 0 Sample.bob "ipfs://other"
                   RegistryFixture.two) _ _).
  - vm_compute. discriminate.
  - vm_compute. discriminate.
Defined.

(** The NPC's owner and the registry's owner both pass, also on an id that
    was never registered, whose record then has the zero address for
    owner. *)
Example registry_owner_writes_an_unregistered_id :
  succeeds (updateNPCController Sample.alice 0 Sample.bob RegistryFixture.two) = true
  ∧ succeeds (updateNPCController Sample.admin 0 Sample.bob RegistryFixture.two) = true
  ∧ getNPC 7 (commit (updateNPCController Sample.admin 7 Sample.bob) RegistryFixture.two)
    = mkNPC 0 0 Sample.bob "".
Proof. vm_compute. repeat split. Qed.

Lemma registered_npc_keeps_its_owner_witness :
  id (getNPC 0 (registry (history RegistryFixture.updates RegistryFixture.world)))
  = id (getNPC 0 (registry RegistryFixture.world))
  ∧ owner (getNPC 0 (registry (history RegistryFixture.updates RegistryFixture.world)))
    = owner (getNPC 0 (registry RegistryFixture.world))
  ∧ _nextTokenId (registry RegistryFixture.world)
    ≤ _nextTokenId (registry (history RegistryFixture.updates RegistryFixture.world)).
Proof.
  refine (registered_npc_keeps_its_owner RegistryFixture.updates RegistryFixture.world 0 _).
  vm_compute. reflexivity.
Defined.

End RegistryOnTheFixture.
